(** * JIRA non-active user manager: a shallow embedding of
      [jira_user_manager.py] and the properties of its fetch, persistence
      and deletion steps.

    Conventions of the embedding.
    - A Python [str] is a [string]; each [ascii] stands for the code point of
      the same number (0..255).
    - A Python value that can come out of [json.load] is a [value]; a Python
      [dict] is an association list in insertion order with pairwise distinct
      keys.  Floating point numbers are left out.
    - The round trip of the records through the file is about strings of any
      code point, surrogates included: the last part of the definitions has
      the values with such strings ([uvalue]), [json.dump] and [json.load]
      over them, and [widen], which takes a [value] among them.
    - The remote service is an oracle ([session]): the program's only view of
      it is the outcome of each call.
    - Everything the program prints, asks or sends is recorded in a [world].
    - A call either returns or raises ([outcome]); the unbounded [while True]
      of the fetch takes fuel, [None] meaning that the fuel ran out. *)

From Stdlib Require Import ZArith List String Ascii Bool Lia.
From Stdlib Require Decimal DecimalString DecimalPos DecimalZ.
From stdpp Require Import base option list strings gmap.
Import ListNotations.

Local Open Scope string_scope.
Local Open Scope list_scope.

(** ** Python values *)

Unset Elimination Schemes.
Inductive value : Type :=
| VNone
| VBool (b : bool)
| VInt (n : Z)
| VStr (s : string)
| VList (l : list value)
| VDict (d : list (string * value)).
Set Elimination Schemes.

Abbreviation dict := (list (string * value)).

(** [d[k]] when the key is there. *)
Fixpoint dict_get (d : dict) (k : string) : option value :=
  match d with
  | [] => None
  | (k', v) :: d' => if String.eqb k' k then Some v else dict_get d' k
  end.

(** [d.get(k, dflt)] and [d.get(k)]. *)
Definition py_get_default (d : dict) (k : string) (dflt : value) : value :=
  match dict_get d k with
  | Some v => v
  | None => dflt
  end.

Definition py_get (d : dict) (k : string) : value := py_get_default d k VNone.

(** Truth value testing, as [not x] and [if x] use it. *)
Definition truthy (v : value) : bool :=
  match v with
  | VNone => false
  | VBool b => b
  | VInt n => negb (n =? 0)%Z
  | VStr s => negb (String.eqb s "")
  | VList l => match l with [] => false | _ => true end
  | VDict d => match d with [] => false | _ => true end
  end.

(** [v == s] for a string literal [s]: only a [str] equals a [str]. *)
Definition py_eq_str (v : value) (s : string) : bool :=
  match v with
  | VStr t => String.eqb t s
  | _ => false
  end.

(** ** Exceptions, HTTP, console *)

(** Only [requests.exceptions.RequestException] is caught by the program;
    every other subclass of [Exception] behaves alike and is one
    constructor, which carries the name of the class. *)
Inductive exn : Type :=
| RequestException (msg : string)
| OtherException (class : string).

Inductive outcome (A : Type) : Type :=
| Ret (a : A)
| Raise (e : exn).
Arguments Ret {A} a.
Arguments Raise {A} e.

(** What the program reads of a [requests.Response]: [json] is the parsed
    body, a JSON array of user objects for the users listing. *)
Record response : Type := {
  status_code : Z;
  text : string;
  json : list dict
}.

(** The remote service as seen through [self.session].  [session_get] answers
    [GET /rest/api/3/users] from its [startAt] and [maxResults] parameters,
    [session_delete] answers the [n]-th [DELETE /rest/api/3/user] of a batch
    from its [accountId] parameter. *)
Record session : Type := {
  session_get : Z -> Z -> outcome response;
  session_delete : nat -> value -> outcome response
}.

(** The questions asked through [input]. *)
Inductive prompt : Type :=
| PromptConfirm
| PromptFinal (n : nat)
| PromptChoice
| PromptOpen.

(** One constructor per [print] of the program, with the values it
    interpolates; [MsgPrompt] is the text [input] shows. *)
Inductive message : Type :=
| MsgPrompt (p : prompt)
| MsgFetching
| MsgFetchStatusError (status : Z) (body : string)
| MsgProcessed (start_at : Z) (found : nat)
| MsgFetchException (e : exn)
| MsgFound (n : nat)
| MsgSaved (n : nat) (filename : string)
| MsgPleaseReview (filename : string)
| MsgCouldNotOpen (e : exn)
| MsgDeleted (display_name : value)
| MsgDeleteFailed (display_name : value) (status : Z) (body : string)
| MsgDeleteError (display_name : value) (e : exn)
| MsgFileNotFound (filename : string)
| MsgFoundToDelete (n : nat)
| MsgPreviewHeader
| MsgPreviewLine (i : nat) (display_name email : value)
| MsgAndMore (n : nat)
| MsgWarning
| MsgCancelled
| MsgStarting
| MsgSkipping (display_name : value)
| MsgSummary (successful failed total : nat)
| MsgMenu
| MsgRemoved (filename : string)
| MsgRemoveWarning (e : exn)
| MsgNoneFound
| MsgGoodbye
| MsgInvalidChoice.

(** The program's surroundings: the files of the working directory, the lines
    the operator will type, what was printed, and the HTTP calls sent. *)
Record world : Type := {
  files : gmap string string;
  stdin : list string;
  stdout : list message;
  get_log : list (Z * Z);
  delete_log : list value;
  viewer_log : list (list string)
}.

Definition print (m : message) (w : world) : world :=
  {| files := files w; stdin := stdin w; stdout := stdout w ++ [m];
     get_log := get_log w; delete_log := delete_log w;
     viewer_log := viewer_log w |}.

Definition log_get (start_at max_results : Z) (w : world) : world :=
  {| files := files w; stdin := stdin w; stdout := stdout w;
     get_log := get_log w ++ [(start_at, max_results)];
     delete_log := delete_log w; viewer_log := viewer_log w |}.

Definition log_delete (account_id : value) (w : world) : world :=
  {| files := files w; stdin := stdin w; stdout := stdout w;
     get_log := get_log w; delete_log := delete_log w ++ [account_id];
     viewer_log := viewer_log w |}.

Definition log_viewer (command : list string) (w : world) : world :=
  {| files := files w; stdin := stdin w; stdout := stdout w;
     get_log := get_log w; delete_log := delete_log w;
     viewer_log := viewer_log w ++ [command] |}.

Definition set_stdin (lines : list string) (w : world) : world :=
  {| files := files w; stdin := lines; stdout := stdout w;
     get_log := get_log w; delete_log := delete_log w;
     viewer_log := viewer_log w |}.

Definition set_files (fs : gmap string string) (w : world) : world :=
  {| files := fs; stdin := stdin w; stdout := stdout w;
     get_log := get_log w; delete_log := delete_log w;
     viewer_log := viewer_log w |}.

(** ** fetch_non_active_users *)

Definition max_results : Z := 50.

(** The test of lines 107-110. *)
Definition is_inactive (user : dict) : bool :=
  negb (truthy (py_get_default user "active" (VBool true)))
  && negb (py_eq_str (py_get user "accountType") "former").

(** The dictionary built at lines 113-119. *)
Definition project (user : dict) : dict :=
  [ ("accountId", py_get user "accountId");
    ("displayName", py_get user "displayName");
    ("emailAddress", py_get user "emailAddress");
    ("active", py_get user "active");
    ("accountType", py_get user "accountType") ].

(** The [for user in users] loop of lines 104-119 over the accumulator. *)
Fixpoint collect_inactive (users : list dict) (non_active_users : list dict)
  : list dict :=
  match users with
  | [] => non_active_users
  | user :: rest =>
      if is_inactive user
      then collect_inactive rest (non_active_users ++ [project user])
      else collect_inactive rest non_active_users
  end.

(** The [while True] loop of lines 85-126.  The result says how the loop was
    left ([Some e] by exception [e]), with the accumulator at that moment. *)
Fixpoint fetch_loop (fuel : nat) (s : session) (start_at : Z)
    (non_active_users : list dict) (w : world)
  : option (option exn * list dict * world) :=
  match fuel with
  | O => None
  | S fuel' =>
      let w1 := log_get start_at max_results w in
      match session_get s start_at max_results with
      | Raise e => Some (Some e, non_active_users, w1)
      | Ret resp =>
          if negb (status_code resp =? 200)%Z then
            Some (None, non_active_users,
                  print (MsgFetchStatusError (status_code resp) (text resp)) w1)
          else
            let users := json resp in
            match users with
            | [] => Some (None, non_active_users, w1)
            | _ :: _ =>
                let acc := collect_inactive users non_active_users in
                let start_at' := (start_at + max_results)%Z in
                let w2 := print (MsgProcessed start_at' (length acc)) w1 in
                if (Z.of_nat (length users) <? max_results)%Z
                then Some (None, acc, w2)
                else fetch_loop fuel' s start_at' acc w2
            end
      end
  end.

Definition fetch_non_active_users (fuel : nat) (s : session) (w : world)
  : option (outcome (list dict) * world) :=
  match fetch_loop fuel s 0%Z [] (print MsgFetching w) with
  | None => None
  | Some (None, acc, w1) =>
      Some (Ret acc, print (MsgFound (length acc)) w1)
  | Some (Some (RequestException m), acc, w1) =>
      Some (Ret acc,
            print (MsgFound (length acc))
              (print (MsgFetchException (RequestException m)) w1))
  | Some (Some e, _, w1) => Some (Raise e, w1)
  end.

(** ** Python string methods *)

(** [str.isspace] on one character: the white space of the code points
    below 256 (TAB..CR, FS..US, SPACE, NEL, NBSP). *)
Definition is_space (c : ascii) : bool :=
  let n := nat_of_ascii c in
  (((9 <=? n) && (n <=? 13)) || ((28 <=? n) && (n <=? 32))
   || (n =? 133) || (n =? 160))%nat.

Fixpoint lstrip (s : string) : string :=
  match s with
  | EmptyString => EmptyString
  | String c s' => if is_space c then lstrip s' else s
  end.

Fixpoint rstrip (s : string) : string :=
  match s with
  | EmptyString => EmptyString
  | String c s' =>
      match rstrip s' with
      | EmptyString => if is_space c then EmptyString else String c EmptyString
      | r => String c r
      end
  end.

(** [s.strip()] *)
Definition strip (s : string) : string := lstrip (rstrip s).

(** [str.lower] on one character: A..Z and the capital letters of the
    Latin-1 block (0xC0..0xDE but the multiplication sign) move up by 32. *)
Definition lower_char (c : ascii) : ascii :=
  let n := nat_of_ascii c in
  if (((65 <=? n) && (n <=? 90))
      || ((192 <=? n) && (n <=? 222) && negb (n =? 215)))%nat
  then ascii_of_nat (n + 32)
  else c.

(** [s.lower()] *)
Fixpoint lower (s : string) : string :=
  match s with
  | EmptyString => EmptyString
  | String c s' => String (lower_char c) (lower s')
  end.

(** ** The [json] module: [json.dump(obj, f, indent=2)] and [json.load(f)] *)

Definition chr_quote : ascii := "034"%char.
Definition chr_backslash : ascii := "092"%char.
Definition chr_backspace : ascii := "008"%char.
Definition chr_tab : ascii := "009"%char.
Definition chr_newline : ascii := "010"%char.
Definition chr_formfeed : ascii := "012"%char.
Definition chr_return : ascii := "013"%char.

Definition hex_digit (n : nat) : ascii :=
  match n with
  | 0 => "0" | 1 => "1" | 2 => "2" | 3 => "3" | 4 => "4" | 5 => "5"
  | 6 => "6" | 7 => "7" | 8 => "8" | 9 => "9" | 10 => "a" | 11 => "b"
  | 12 => "c" | 13 => "d" | 14 => "e" | _ => "f"
  end%char.

(** One character of a string under [ensure_ascii=True]: the quote and the
    backslash are escaped, the printable ASCII characters stand for
    themselves, the rest takes its short escape or a [\uXXXX]. *)
Definition escape_char (c : ascii) : string :=
  let n := nat_of_ascii c in
  if Ascii.eqb c chr_quote then String chr_backslash (String chr_quote "")
  else if Ascii.eqb c chr_backslash
  then String chr_backslash (String chr_backslash "")
  else if ((32 <=? n) && (n <=? 126))%nat then String c ""
  else if Ascii.eqb c chr_newline then String chr_backslash "n"
  else if Ascii.eqb c chr_return then String chr_backslash "r"
  else if Ascii.eqb c chr_tab then String chr_backslash "t"
  else if Ascii.eqb c chr_backspace then String chr_backslash "b"
  else if Ascii.eqb c chr_formfeed then String chr_backslash "f"
  else String chr_backslash
         (String "u" (String "0" (String "0"
            (String (hex_digit (n / 16)) (String (hex_digit (n mod 16)) ""))))).

Fixpoint escape_chars (s : string) : string :=
  match s with
  | EmptyString => EmptyString
  | String c s' => escape_char c +:+ escape_chars s'
  end.

Definition encode_string (s : string) : string :=
  String chr_quote (escape_chars s +:+ String chr_quote "").

Fixpoint spaces (n : nat) : string :=
  match n with
  | O => ""
  | S n' => String " " (String " " (spaces n'))
  end.

(** A line break followed by the indentation of nesting level [lvl]. *)
Definition newline_indent (lvl : nat) : string :=
  String chr_newline (spaces lvl).

(** The items of a non-empty list or dictionary, each on its line. *)
Fixpoint join_items (lvl : nat) (items : list string) : string :=
  match items with
  | [] => ""
  | [x] => x
  | x :: rest => x +:+ "," +:+ newline_indent lvl +:+ join_items lvl rest
  end.

Fixpoint encode (lvl : nat) (v : value) : string :=
  match v with
  | VNone => "null"
  | VBool true => "true"
  | VBool false => "false"
  | VInt n => DecimalString.NilZero.string_of_int (Z.to_int n)
  | VStr s => encode_string s
  | VList [] => "[]"
  | VList l =>
      "[" +:+ newline_indent (S lvl)
      +:+ join_items (S lvl) (map (encode (S lvl)) l)
      +:+ newline_indent lvl +:+ "]"
  | VDict [] => "{}"
  | VDict d =>
      "{" +:+ newline_indent (S lvl)
      +:+ join_items (S lvl)
            (map (fun kv => encode_string (fst kv) +:+ ": "
                            +:+ encode (S lvl) (snd kv)) d)
      +:+ newline_indent lvl +:+ "}"
  end.

(** [json.dumps(obj, indent=2)] *)
Definition json_dumps (v : value) : string := encode 0 v.

(** White space between JSON tokens: space, TAB, LF, CR. *)
Definition is_json_ws (c : ascii) : bool :=
  Ascii.eqb c " " || Ascii.eqb c chr_tab || Ascii.eqb c chr_newline
  || Ascii.eqb c chr_return.

Fixpoint skip_ws (s : string) : string :=
  match s with
  | EmptyString => EmptyString
  | String c s' => if is_json_ws c then skip_ws s' else s
  end.

Definition hex_value (c : ascii) : option nat :=
  let n := nat_of_ascii c in
  if ((48 <=? n) && (n <=? 57))%nat then Some (n - 48)
  else if ((97 <=? n) && (n <=? 102))%nat then Some (n - 87)
  else if ((65 <=? n) && (n <=? 70))%nat then Some (n - 55)
  else None.

(** The character a [\uXXXX] stands for; [None] for a malformed escape and
    for a code point of 256 or more, which is outside the alphabet. *)
Definition decode_uXXXX (h1 h2 h3 h4 : ascii) : option ascii :=
  match hex_value h1, hex_value h2, hex_value h3, hex_value h4 with
  | Some a, Some b, Some c, Some d =>
      if ((a =? 0) && (b =? 0))%nat then Some (ascii_of_nat (16 * c + d))
      else None
  | _, _, _, _ => None
  end.

(** The character a short escape stands for. *)
Definition unescape (e : ascii) : option ascii :=
  if Ascii.eqb e chr_quote then Some chr_quote
  else if Ascii.eqb e chr_backslash then Some chr_backslash
  else if Ascii.eqb e "/" then Some "/"%char
  else if Ascii.eqb e "b" then Some chr_backspace
  else if Ascii.eqb e "f" then Some chr_formfeed
  else if Ascii.eqb e "n" then Some chr_newline
  else if Ascii.eqb e "r" then Some chr_return
  else if Ascii.eqb e "t" then Some chr_tab
  else None.

Definition prepend (c : ascii) (r : option (string * string))
  : option (string * string) :=
  match r with
  | Some (s, rest) => Some (String c s, rest)
  | None => None
  end.

(** [scanstring] in strict mode, from the character after the opening
    quote: the string and the text after its closing quote. *)
Fixpoint scanstring (s : string) : option (string * string) :=
  match s with
  | EmptyString => None
  | String c s' =>
      if Ascii.eqb c chr_quote then Some ("", s')
      else if Ascii.eqb c chr_backslash then
        match s' with
        | String e s'' =>
            if Ascii.eqb e "u" then
              match s'' with
              | String h1 (String h2 (String h3 (String h4 r))) =>
                  match decode_uXXXX h1 h2 h3 h4 with
                  | Some ch => prepend ch (scanstring r)
                  | None => None
                  end
              | _ => None
              end
            else
              match unescape e with
              | Some ch => prepend ch (scanstring s'')
              | None => None
              end
        | EmptyString => None
        end
      else if (nat_of_ascii c <? 32)%nat then None
      else prepend c (scanstring s')
  end.

Definition digit_of (c : ascii) : option (Decimal.uint -> Decimal.uint) :=
  (if Ascii.eqb c "0" then Some Decimal.D0
   else if Ascii.eqb c "1" then Some Decimal.D1
   else if Ascii.eqb c "2" then Some Decimal.D2
   else if Ascii.eqb c "3" then Some Decimal.D3
   else if Ascii.eqb c "4" then Some Decimal.D4
   else if Ascii.eqb c "5" then Some Decimal.D5
   else if Ascii.eqb c "6" then Some Decimal.D6
   else if Ascii.eqb c "7" then Some Decimal.D7
   else if Ascii.eqb c "8" then Some Decimal.D8
   else if Ascii.eqb c "9" then Some Decimal.D9
   else None)%char.

Definition is_digit (c : ascii) : bool :=
  match digit_of c with Some _ => true | None => false end.

(** The longest run of digits at the head of the text. *)
Fixpoint scan_digits (s : string) : Decimal.uint * string :=
  match s with
  | EmptyString => (Decimal.Nil, EmptyString)
  | String c s' =>
      match digit_of c with
      | Some digit => let (d, rest) := scan_digits s' in (digit d, rest)
      | None => (Decimal.Nil, s)
      end
  end.

(** The integer part of [NUMBER_RE]: a single [0], or a run of digits that
    does not start with [0]. *)
Definition scan_natural (s : string) : option (Decimal.uint * string) :=
  match s with
  | String c s' =>
      if Ascii.eqb c "0" then Some (Decimal.D0 Decimal.Nil, s')
      else if is_digit c then Some (scan_digits s)
      else None
  | EmptyString => None
  end.

(** Whether [NUMBER_RE] goes on with a fraction or an exponent, which makes
    the number a float. *)
Definition float_follows (s : string) : bool :=
  match s with
  | String c (String d r) =>
      if Ascii.eqb c "." then is_digit d
      else if Ascii.eqb c "e" || Ascii.eqb c "E" then
        if Ascii.eqb d "+" || Ascii.eqb d "-" then
          match r with String d' _ => is_digit d' | EmptyString => false end
        else is_digit d
      else false
  | _ => false
  end.

(** An integer literal; a float is outside the model ([None]). *)
Definition scan_number (s : string) : option (Z * string) :=
  let signed :=
    match s with
    | String c s' =>
        if Ascii.eqb c "-" then
          match scan_natural s' with
          | Some (d, rest) => Some (Decimal.Neg d, rest)
          | None => None
          end
        else
          match scan_natural s with
          | Some (d, rest) => Some (Decimal.Pos d, rest)
          | None => None
          end
    | EmptyString => None
    end in
  match signed with
  | Some (i, rest) =>
      if float_follows rest then None else Some (Z.of_int i, rest)
  | None => None
  end.

(** [s] when the text starts with [word]. *)
Fixpoint expect (word s : string) : option string :=
  match word with
  | EmptyString => Some s
  | String c word' =>
      match s with
      | String c' s' => if Ascii.eqb c c' then expect word' s' else None
      | EmptyString => None
      end
  end.

(** [d[k] = v]: a key already there keeps its place. *)
Fixpoint dict_set (d : dict) (k : string) (v : value) : dict :=
  match d with
  | [] => [(k, v)]
  | (k', v') :: d' =>
      if String.eqb k' k then (k', v) :: d' else (k', v') :: dict_set d' k v
  end.

(** [dict(pairs)] *)
Definition dict_of_pairs (pairs : list (string * value)) : dict :=
  fold_left (fun d kv => dict_set d (fst kv) (snd kv)) pairs [].

(** The scanner: [scan_once] reads one value, [scan_array] the items of an
    array from its first item on, [scan_object] the members of an object
    from the character after the opening quote of a key on.  Every call
    goes with less fuel, and consumes at least one character. *)
Fixpoint scan_once (fuel : nat) (s : string) : option (value * string) :=
  match fuel with
  | O => None
  | S fuel' =>
      match s with
      | EmptyString => None
      | String c s' =>
          if Ascii.eqb c chr_quote then
            match scanstring s' with
            | Some (str, rest) => Some (VStr str, rest)
            | None => None
            end
          else if Ascii.eqb c "{" then
            match skip_ws s' with
            | String c1 s1 =>
                if Ascii.eqb c1 "}" then Some (VDict [], s1)
                else if Ascii.eqb c1 chr_quote then scan_object fuel' s1 []
                else None
            | EmptyString => None
            end
          else if Ascii.eqb c "[" then
            match skip_ws s' with
            | String c1 s1 =>
                if Ascii.eqb c1 "]" then Some (VList [], s1)
                else scan_array fuel' (String c1 s1) []
            | EmptyString => None
            end
          else if Ascii.eqb c "n" then
            match expect "ull" s' with
            | Some rest => Some (VNone, rest)
            | None => None
            end
          else if Ascii.eqb c "t" then
            match expect "rue" s' with
            | Some rest => Some (VBool true, rest)
            | None => None
            end
          else if Ascii.eqb c "f" then
            match expect "alse" s' with
            | Some rest => Some (VBool false, rest)
            | None => None
            end
          else
            match scan_number s with
            | Some (n, rest) => Some (VInt n, rest)
            | None => None
            end
      end
  end
with scan_array (fuel : nat) (s : string) (values : list value)
  : option (value * string) :=
  match fuel with
  | O => None
  | S fuel' =>
      match scan_once fuel' s with
      | Some (v, rest) =>
          match skip_ws rest with
          | String c r =>
              if Ascii.eqb c "]" then Some (VList (values ++ [v]), r)
              else if Ascii.eqb c ","
              then scan_array fuel' (skip_ws r) (values ++ [v])
              else None
          | EmptyString => None
          end
      | None => None
      end
  end
with scan_object (fuel : nat) (s : string) (pairs : list (string * value))
  : option (value * string) :=
  match fuel with
  | O => None
  | S fuel' =>
      match scanstring s with
      | Some (key, rest) =>
          match skip_ws rest with
          | String c r =>
              if Ascii.eqb c ":" then
                match scan_once fuel' (skip_ws r) with
                | Some (v, rest') =>
                    match skip_ws rest' with
                    | String c' r' =>
                        if Ascii.eqb c' "}"
                        then Some (VDict (dict_of_pairs (pairs ++ [(key, v)])),
                                   r')
                        else if Ascii.eqb c' "," then
                          match skip_ws r' with
                          | String q r'' =>
                              if Ascii.eqb q chr_quote
                              then scan_object fuel' r'' (pairs ++ [(key, v)])
                              else None
                          | EmptyString => None
                          end
                        else None
                    | EmptyString => None
                    end
                | None => None
                end
              else None
          | EmptyString => None
          end
      | None => None
      end
  end.

(** [json.loads(s)]: one value, white space around it, nothing else; [None]
    stands for [JSONDecodeError] and for a document outside [value]: one
    with a float, or with the [\uXXXX] of a code point from U+0100 on, which
    [u_json_loads] below reads. *)
Definition json_loads (s : string) : option value :=
  match scan_once (S (String.length s)) (skip_ws s) with
  | Some (v, rest) =>
      match skip_ws rest with
      | EmptyString => Some v
      | String _ _ => None
      end
  | None => None
  end.

(** ** Commands: a state and exception monad over the [world] *)

Definition M (A : Type) : Type := world -> outcome A * world.

Definition ret {A : Type} (a : A) : M A := fun w => (Ret a, w).

Definition raise {A : Type} (e : exn) : M A := fun w => (Raise e, w).

Definition bind {A B : Type} (m : M A) (k : A -> M B) : M B :=
  fun w =>
    match m w with
    | (Ret a, w') => k a w'
    | (Raise e, w') => (Raise e, w')
    end.

Notation "x <- m ;; k" := (bind m (fun x => k))
  (at level 100, m at next level, right associativity).
Notation "m ;;; k" := (bind m (fun _ => k))
  (at level 100, right associativity).

Definition put (m : message) : M unit := fun w => (Ret tt, print m w).

(** [input(prompt)]: the next line the operator types, [EOFError] when
    there is none. *)
Definition input (p : prompt) : M string :=
  fun w =>
    let w1 := print (MsgPrompt p) w in
    match stdin w1 with
    | [] => (Raise (OtherException "EOFError"), w1)
    | line :: rest => (Ret line, set_stdin rest w1)
    end.

(** ** save_users_to_file, open_file_for_review *)

Definition default_filename : string := "non_active_users.json".

Definition save_users_to_file (users : list dict) (filename : string)
  : M unit :=
  fun w =>
    let content := json_dumps (VList (map VDict users)) in
    (Ret tt,
     print (MsgSaved (length users) filename)
       (set_files (<[filename := content]> (files w)) w)).

(** What the program depends on of the operating system: the platform name,
    whether launching a command raises, whether removing a file raises. *)
Record os_env : Type := {
  sys_platform : string;
  subprocess_run : list string -> option exn;
  os_remove : string -> option exn
}.

Definition run_viewer (env : os_env) (command : list string)
    (filename : string) : M unit :=
  fun w =>
    match subprocess_run env command with
    | None => (Ret tt, log_viewer command w)
    | Some e =>
        (Ret tt, print (MsgPleaseReview filename) (print (MsgCouldNotOpen e) w))
    end.

Definition open_file_for_review (env : os_env) (filename : string) : M unit :=
  if String.eqb (sys_platform env) "darwin"
  then run_viewer env ["open -a TextEdit"; filename] filename
  else if String.eqb (sys_platform env) "linux"
  then run_viewer env ["xdg-open"; filename] filename
  else if String.eqb (sys_platform env) "win32"
  then run_viewer env ["start"; filename] filename
  else put (MsgPleaseReview filename).

(** ** delete_user, delete_users_from_file *)

Definition delete_user (s : session) (account_id display_name : value)
  : M bool :=
  fun w =>
    let w1 := log_delete account_id w in
    match session_delete s (length (delete_log w)) account_id with
    | Ret resp =>
        if (status_code resp =? 204)%Z
        then (Ret true, print (MsgDeleted display_name) w1)
        else (Ret false,
              print (MsgDeleteFailed display_name (status_code resp)
                       (text resp)) w1)
    | Raise (RequestException m) =>
        (Ret false,
         print (MsgDeleteError display_name (RequestException m)) w1)
    | Raise e => (Raise e, w1)
    end.

(** The preview of lines 187-188, [i] counting from 1. *)
Fixpoint preview (i : nat) (users : list value) : M unit :=
  match users with
  | [] => ret tt
  | VDict user :: rest =>
      put (MsgPreviewLine i
             (py_get_default user "displayName" (VStr "Unknown"))
             (py_get_default user "emailAddress" (VStr "No email"))) ;;;
      preview (S i) rest
  | _ :: _ => raise (OtherException "AttributeError")
  end.

(** The loop of lines 213-225 with its two counters. *)
Fixpoint delete_loop (s : session) (users : list value)
    (successful_deletions failed_deletions : nat) : M (nat * nat) :=
  match users with
  | [] => ret (successful_deletions, failed_deletions)
  | VDict user :: rest =>
      let account_id := py_get user "accountId" in
      let display_name := py_get_default user "displayName" (VStr "Unknown") in
      if negb (truthy account_id) then
        put (MsgSkipping display_name) ;;;
        delete_loop s rest successful_deletions (S failed_deletions)
      else
        deleted <- delete_user s account_id display_name ;;
        if deleted : bool
        then delete_loop s rest (S successful_deletions) failed_deletions
        else delete_loop s rest successful_deletions (S failed_deletions)
  | _ :: _ => raise (OtherException "AttributeError")
  end.

(** Lines 183-230, once the file is loaded. *)
Definition confirm_and_delete (s : session) (users : list value) : M unit :=
  put (MsgFoundToDelete (length users)) ;;;
  put MsgPreviewHeader ;;;
  preview 1 (firstn 10 users) ;;;
  (if (10 <? length users)%nat
   then put (MsgAndMore (length users - 10))
   else ret tt) ;;;
  put MsgWarning ;;;
  confirm <- input PromptConfirm ;;
  if negb (String.eqb (strip confirm) "DELETE") then put MsgCancelled
  else
    final_confirm <- input (PromptFinal (length users)) ;;
    if negb (String.eqb (lower (strip final_confirm)) "y") then put MsgCancelled
    else
      put MsgStarting ;;;
      counts <- delete_loop s users 0 0 ;;
      put (MsgSummary (fst counts) (snd counts) (length users)).

(** A [str] as the sequence of its characters. *)
Definition characters (s : string) : list value :=
  map (fun c => VStr (String c "")) (list_ascii_of_string s).

Definition delete_users_from_file (s : session) (filename : string) : M unit :=
  fun w =>
    match files w !! filename with
    | None => put (MsgFileNotFound filename) w
    | Some content =>
        match json_loads content with
        | None => raise (OtherException "JSONDecodeError") w
        | Some (VList users) => confirm_and_delete s users w
        | Some (VStr str) => confirm_and_delete s (characters str) w
        | Some (VDict d) =>
            (put (MsgFoundToDelete (length d)) ;;; put MsgPreviewHeader ;;;
             raise (OtherException "TypeError")) w
        | Some _ => raise (OtherException "TypeError") w
        end
    end.

(** ** One round of the menu of [main] (lines 245-290) *)

(** [os.path.exists] and [os.remove] of lines 258-263. *)
Definition remove_existing (env : os_env) (filename : string) : M unit :=
  fun w =>
    match files w !! filename with
    | None => (Ret tt, w)
    | Some _ =>
        match os_remove env filename with
        | None =>
            (Ret tt,
             print (MsgRemoved filename)
               (set_files (delete filename (files w)) w))
        | Some e => (Ret tt, print (MsgRemoveWarning e) w)
        end
    end.

Definition yes_by_default (answer : string) : bool :=
  String.eqb answer "" || String.eqb answer "y" || String.eqb answer "yes".

(** The branch of choice 1; [None] when the fetch runs out of fuel. *)
Definition fetch_option (fuel : nat) (s : session) (env : os_env) (w : world)
  : option (outcome unit * world) :=
  match remove_existing env default_filename w with
  | (Raise e, w1) => Some (Raise e, w1)
  | (Ret _, w1) =>
      match fetch_non_active_users fuel s w1 with
      | None => None
      | Some (Raise e, w2) => Some (Raise e, w2)
      | Some (Ret non_active_users, w2) =>
          match non_active_users with
          | [] => Some (put MsgNoneFound w2)
          | _ :: _ =>
              Some ((save_users_to_file non_active_users default_filename ;;;
                     open_file <- input PromptOpen ;;
                     if yes_by_default (lower (strip open_file))
                     then open_file_for_review env default_filename
                     else ret tt) w2)
          end
      end
  end.

(** One round: the returned boolean says whether the menu comes back. *)
Definition menu_round (fuel : nat) (s : session) (env : os_env) (w : world)
  : option (outcome bool * world) :=
  match (put MsgMenu ;;; input PromptChoice) w with
  | (Raise e, w1) => Some (Raise e, w1)
  | (Ret line, w1) =>
      let choice := strip line in
      if String.eqb choice "1" then
        match fetch_option fuel s env w1 with
        | None => None
        | Some (Raise e, w2) => Some (Raise e, w2)
        | Some (Ret _, w2) => Some (Ret true, w2)
        end
      else if String.eqb choice "2" then
        Some ((open_file_for_review env default_filename ;;; ret true) w1)
      else if String.eqb choice "3" then
        Some ((delete_users_from_file s default_filename ;;; ret true) w1)
      else if String.eqb choice "4" then
        Some ((put MsgGoodbye ;;; ret false) w1)
      else
        Some ((put MsgInvalidChoice ;;; ret true) w1)
  end.

(** * Vocabulary of the statements *)

(** ** The users listing as the fetch sees it *)

(** Request number [i] (from 0) is answered 200 with the page [users]. *)
Definition served (s : session) (i : nat) (users : list dict) : Prop :=
  exists t, session_get s (50 * Z.of_nat i) max_results
            = Ret {| status_code := 200; text := t; json := users |}.

(** Request number [i] is answered with another status than 200, or the
    request raises a [RequestException]. *)
Definition failing (s : session) (i : nat) : Prop :=
  match session_get s (50 * Z.of_nat i) max_results with
  | Ret resp => status_code resp <> 200%Z
  | Raise (RequestException _) => True
  | Raise (OtherException _) => False
  end.

(** The records of the pages [0 .. n-1], in the order received. *)
Definition listing (pages : nat -> list dict) (n : nat) : list dict :=
  concat (map pages (seq 0 n)).

(** The [startAt] and [maxResults] of the requests number [k .. k+n-1]. *)
Definition page_requests (k n : nat) : list (Z * Z) :=
  map (fun i => ((50 * Z.of_nat i)%Z, max_results)) (seq k n).

(** The [active] field holds a boolean when it is there, as the data model
    has it. *)
Definition boolean_active (user : dict) : Prop :=
  match dict_get user "active" with
  | None | Some (VBool _) => True
  | Some _ => False
  end.

(** The worlds that differ at most by what was printed and by the [GET]
    requests sent. *)
Definition same_outside_fetch (w w' : world) : Prop :=
  files w' = files w /\ stdin w' = stdin w
  /\ delete_log w' = delete_log w /\ viewer_log w' = viewer_log w.


(** * Scenarios *)

Definition user_record (account_id display_name email : string)
    (active : bool) (account_type : string) : dict :=
  [ ("accountId", VStr account_id); ("displayName", VStr display_name);
    ("emailAddress", VStr email); ("active", VBool active);
    ("accountType", VStr account_type) ].

Definition active_user : dict :=
  user_record "1" "Active User" "a@ex.com" true "atlassian".
Definition inactive_user : dict :=
  user_record "2" "Inactive User" "i@ex.com" false "atlassian".
Definition former_user : dict :=
  user_record "3" "Former User" "f@ex.com" false "former".

Definition users_page_1 : list dict :=
  [active_user; inactive_user; former_user].

Definition ok_response (users : list dict) : outcome response :=
  Ret {| status_code := 200; text := ""; json := users |}.

Definition status_response (status : Z) (body : string) : outcome response :=
  Ret {| status_code := status; text := body; json := [] |}.

(** The service of the test suite: one page of three users, then nothing;
    the first deletion is answered 204, the following ones 400. *)
Definition test_session : session :=
  {| session_get := fun start_at _ =>
       if (start_at =? 0)%Z then ok_response users_page_1
       else ok_response [];
     session_delete := fun n _ =>
       match n with
       | O => status_response 204 ""
       | S _ => status_response 400 "bad request"
       end |}.

(** A page of exactly 50 records, every other one inactive. *)
Definition full_page : list dict :=
  concat (repeat [active_user; inactive_user] 25).

(** A service with one full page, then the page of three users. *)
Definition two_page_session : session :=
  {| session_get := fun start_at _ =>
       if (start_at =? 0)%Z then ok_response full_page
       else if (start_at =? 50)%Z then ok_response users_page_1
       else ok_response [];
     session_delete := fun _ _ => status_response 204 "" |}.

Definition two_pages (i : nat) : list dict :=
  match i with
  | O => full_page
  | S O => users_page_1
  | _ => []
  end.

(** A service whose second request fails: with status 503, or with a
    connection error. *)
Definition failing_session (error : outcome response) : session :=
  {| session_get := fun start_at _ =>
       if (start_at =? 0)%Z then ok_response full_page else error;
     session_delete := fun _ _ => status_response 204 "" |}.

Definition empty_world : world :=
  {| files := ∅; stdin := []; stdout := []; get_log := [];
     delete_log := []; viewer_log := [] |}.

Definition typing (lines : list string) (w : world) : world :=
  set_stdin lines w.

Definition linux_env : os_env :=
  {| sys_platform := "linux";
     subprocess_run := fun _ => None;
     os_remove := fun _ => None |}.

(** The pages of [test_session]. *)
Definition test_pages (i : nat) : list dict :=
  match i with
  | O => users_page_1
  | S _ => []
  end.

(** A record without the [active] field. *)
Definition user_without_active : dict :=
  [ ("accountId", VStr "9"); ("displayName", VStr "No Flag");
    ("accountType", VStr "atlassian") ].

(** ** Vocabulary of the deletion batch *)

(** The record carries an account id that passes [if not account_id]. *)
Definition has_account_id (user : dict) : bool :=
  truthy (py_get user "accountId").

(** The service answered with status 204. *)
Definition is_204 (reply : outcome response) : bool :=
  match reply with
  | Ret resp => (status_code resp =? 204)%Z
  | Raise _ => false
  end.

(** No [DELETE] call raises anything but a [RequestException]. *)
Definition delete_never_crashes (s : session) : Prop :=
  forall n account_id class,
    session_delete s n account_id <> Raise (OtherException class).

(** The fate of each record of a batch, in order, when [k] [DELETE] calls
    were sent before: [true] for a record deleted, [false] for a record
    skipped or not deleted. *)
Fixpoint verdicts (s : session) (k : nat) (users : list dict) : list bool :=
  match users with
  | [] => []
  | user :: rest =>
      if has_account_id user
      then is_204 (session_delete s k (py_get user "accountId"))
             :: verdicts s (S k) rest
      else false :: verdicts s k rest
  end.

(** The account ids a batch sends a [DELETE] for, in order. *)
Definition attempted_ids (users : list dict) : list value :=
  map (fun user => py_get user "accountId") (List.filter has_account_id users).

Definition count_true (l : list bool) : nat := length (List.filter id l).
Definition count_false (l : list bool) : nat := length (List.filter negb l).

(** Two records to delete, as the file holds them after a fetch. *)
Definition two_users : list dict :=
  [ project inactive_user;
    project (user_record "4" "Other User" "o@ex.com" false "atlassian") ].

(** A record without the [accountId] field. *)
Definition user_without_id : dict :=
  [ ("displayName", VStr "No Id"); ("active", VBool false) ].

(** The world in which [users] were saved and the operator is about to
    type [lines]. *)
Definition saved_world (users : list dict) (lines : list string) : world :=
  typing lines (snd (save_users_to_file users default_filename empty_world)).

(** The worlds that differ at most by what was printed. *)
Definition console_only (w w' : world) : Prop :=
  files w' = files w /\ stdin w' = stdin w /\ get_log w' = get_log w
  /\ delete_log w' = delete_log w /\ viewer_log w' = viewer_log w.

(** The worlds with the same files. *)
Definition same_files (w w' : world) : Prop := files w' = files w.

(** ** Vocabulary of the menu *)

(** The listing ends at request [n], after [n] full pages, by a short page
    or by a failure; [users] is what the fetch has accumulated then. *)
Definition listing_ends (s : session) (pages : nat -> list dict) (n : nat)
    (users : list dict) : Prop :=
  (forall i, i < n -> served s i (pages i) /\ 50 <= length (pages i))
  /\ ((served s n (pages n) /\ length (pages n) < 50
       /\ users = map project (List.filter is_inactive (listing pages (S n))))
      \/ (failing s n
          /\ users = map project (List.filter is_inactive (listing pages n)))).

(** The text [save_users_to_file] writes for [users]. *)
Definition saved_text (users : list dict) : string :=
  json_dumps (VList (map VDict users)).

(** A service without any user. *)
Definition quiet_session : session :=
  {| session_get := fun _ _ => ok_response [];
     session_delete := fun _ _ => status_response 204 "" |}.

(** ** Vocabulary of the round trip through the file *)

Fixpoint distinct (keys : list string) : bool :=
  match keys with
  | [] => true
  | k :: rest => negb (existsb (String.eqb k) rest) && distinct rest
  end.

(** The values Python can hold: the keys of a dictionary are pairwise
    distinct, at every depth. *)
Fixpoint well_formed (v : value) : bool :=
  match v with
  | VList l => forallb well_formed l
  | VDict d =>
      distinct (map fst d) && forallb (fun kv => well_formed (snd kv)) d
  | _ => true
  end.

(** The number of nodes of a value, items counted twice: the fuel its
    text takes to scan. *)
Fixpoint size (v : value) : nat :=
  match v with
  | VList l => S (list_sum (map (fun x => S (size x)) l))
  | VDict d => S (list_sum (map (fun kv => S (size (snd kv))) d))
  | _ => 1
  end.

(** What may follow a value in a text [encode] writes: nothing, a comma,
    or a line break. *)
Definition terminated (rest : string) : Prop :=
  match rest with
  | EmptyString => True
  | String c _ => c = ","%char \/ c = chr_newline
  end.

(** One unfolding of [scanstring], the recursive calls going to [scan]. *)
Definition scanstring_step (scan : string -> option (string * string))
    (s : string) : option (string * string) :=
  match s with
  | EmptyString => None
  | String c s' =>
      if Ascii.eqb c chr_quote then Some ("", s')
      else if Ascii.eqb c chr_backslash then
        match s' with
        | String e s'' =>
            if Ascii.eqb e "u" then
              match s'' with
              | String h1 (String h2 (String h3 (String h4 r))) =>
                  match decode_uXXXX h1 h2 h3 h4 with
                  | Some ch => prepend ch (scan r)
                  | None => None
                  end
              | _ => None
              end
            else
              match unescape e with
              | Some ch => prepend ch (scan s'')
              | None => None
              end
        | EmptyString => None
        end
      else if (nat_of_ascii c <? 32)%nat then None
      else prepend c (scan s')
  end.

(** The text does not go on with a digit. *)
Definition no_digit_ahead (rest : string) : Prop :=
  match rest with
  | EmptyString => True
  | String c _ => is_digit c = false
  end.

(** The characters an integer literal may start with. *)
Definition number_head (c : ascii) : bool :=
  is_digit c || Ascii.eqb c "-".

(** Induction over values, through the items of lists and the members of
    dictionaries. *)
Fixpoint value_induction (P : value -> Prop)
    (HNone : P VNone) (HBool : forall b, P (VBool b))
    (HInt : forall n, P (VInt n)) (HStr : forall s, P (VStr s))
    (HList : forall l, Forall P l -> P (VList l))
    (HDict : forall d, Forall (fun kv => P (snd kv)) d -> P (VDict d))
    (v : value) {struct v} : P v :=
  match v with
  | VNone => HNone
  | VBool b => HBool b
  | VInt n => HInt n
  | VStr s => HStr s
  | VList l =>
      HList l
        ((fix items (l : list value) : Forall P l :=
            match l with
            | [] => @List.Forall_nil _ P
            | x :: l' =>
                @List.Forall_cons _ P x l'
                  (value_induction P HNone HBool HInt HStr HList HDict x)
                  (items l')
            end) l)
  | VDict d =>
      HDict d
        ((fix members (d : list (string * value))
            : Forall (fun kv => P (snd kv)) d :=
            match d with
            | [] => @List.Forall_nil _ _
            | kv :: d' =>
                @List.Forall_cons _ (fun kv => P (snd kv)) kv d'
                  (value_induction P HNone HBool HInt HStr HList HDict (snd kv))
                  (members d')
            end) d)
  end.

(** The text of a member of a dictionary at nesting level [lvl]. *)
Definition member_text (lvl : nat) (kv : string * value) : string :=
  encode_string (fst kv) +:+ ": " +:+ encode lvl (snd kv).

(** A value is read back from its text with any fuel from its size on,
    whatever follows the text. *)
Definition reads_back (v : value) : Prop :=
  forall lvl fuel rest,
    size v <= fuel -> well_formed v = true -> terminated rest ->
    scan_once fuel (encode lvl v +:+ rest) = Some (v, rest).

(** The records are Python dictionaries: distinct keys, at every depth. *)
Definition well_formed_records (users : list dict) : bool :=
  forallb (fun user => well_formed (VDict user)) users.

(** * The rest of the program: credentials, connection test, menu loop *)

(** ** The start of a run and its terminal *)

(** The environment variables read at lines 19, 31 and 41. *)
Record environ : Type := {
  JIRA_DOMAIN : option string;
  JIRA_EMAIL : option string;
  JIRA_API_TOKEN : option string
}.

(** The fields of [JiraUserManager]; of [self.session], what the program
    sets: [auth] and [headers].  [None] is Python's [None]. *)
Record manager : Type := {
  domain : option string;
  email : option string;
  api_token : option string;
  base_url : option string;
  auth : option (option string * option string);
  headers : list (string * string)
}.

(** [__init__]; [default_headers] are the headers of a fresh
    [requests.Session]. *)
Definition new_manager (env : environ)
    (default_headers : list (string * string)) : manager :=
  {| domain := JIRA_DOMAIN env; email := None; api_token := None;
     base_url := None; auth := None; headers := default_headers |}.

(** The questions of [setup_credentials]; the last one is asked through
    [getpass]. *)
Inductive startup_prompt : Type :=
| AskUseStoredEmail (stored : string)
| AskEmail
| AskUseStoredToken
| AskToken.

(** What is printed before the menu. *)
Inductive startup_message : Type :=
| StartBanner
| StartRule
| StartPrompt (p : startup_prompt)
| StartConnecting (url : string)
| StartConnected (name : value)
| StartConnectionFailed (status : Z) (body : string)
| StartConnectionError (e : exn)
| StartCheckCredentials.

(** The terminal before the menu: the lines the operator will type and
    what was shown. *)
Record terminal : Type := {
  typed : list string;
  shown : list startup_message
}.

Definition show (m : startup_message) (t : terminal) : terminal :=
  {| typed := typed t; shown := shown t ++ [m] |}.

(** [input(prompt)] and [getpass.getpass(prompt)] before the menu. *)
Definition ask (p : startup_prompt) (t : terminal)
  : outcome string * terminal :=
  let t1 := show (StartPrompt p) t in
  match typed t1 with
  | [] => (Raise (OtherException "EOFError"), t1)
  | line :: rest => (Ret line, {| typed := rest; shown := shown t1 |})
  end.

(** Truth value of an optional string: [None] and the empty string are
    false. *)
Definition nonempty (o : option string) : bool :=
  match o with
  | Some s => negb (String.eqb s "")
  | None => false
  end.

(** [str(x)] inside an f-string. *)
Definition format_str (o : option string) : string :=
  match o with
  | Some s => s
  | None => "None"
  end.

(** [headers.update] for one header: the names of headers are compared
    without regard to case, and a header already there keeps its place. *)
Fixpoint set_header (hs : list (string * string)) (k v : string)
  : list (string * string) :=
  match hs with
  | [] => [(k, v)]
  | (k', v') :: hs' =>
      if String.eqb (lower k') (lower k) then (k, v) :: hs'
      else (k', v') :: set_header hs' k v
  end.

(** Lines 31-38 ([secret = false]) and 41-48 ([secret = true]): the stored
    value when there is one and the operator takes it, else the value
    already set, else the line typed, stripped unless it is read with
    [getpass]. *)
Definition choose_credential (stored current : option string)
    (ask_stored ask_new : startup_prompt) (secret : bool) (t : terminal)
  : outcome (option string) * terminal :=
  let after_stored :=
    if nonempty stored then
      match ask ask_stored t with
      | (Ret use_stored, t1) =>
          (Ret (if yes_by_default (lower (strip use_stored))
                then stored else current), t1)
      | (Raise e, t1) => (Raise e, t1)
      end
    else (Ret current, t) in
  match after_stored with
  | (Raise e, t1) => (Raise e, t1)
  | (Ret chosen, t1) =>
      if nonempty chosen then (Ret chosen, t1)
      else
        match ask ask_new t1 with
        | (Ret line, t2) =>
            (Ret (Some (if secret then line else strip line)), t2)
        | (Raise e, t2) => (Raise e, t2)
        end
  end.

Definition setup_credentials (env : environ) (m : manager) (t : terminal)
  : outcome manager * terminal :=
  let t0 := show StartRule (show StartBanner t) in
  match choose_credential (JIRA_EMAIL env) (email m)
          (AskUseStoredEmail (format_str (JIRA_EMAIL env))) AskEmail false t0
  with
  | (Raise e, t1) => (Raise e, t1)
  | (Ret new_email, t1) =>
      match choose_credential (JIRA_API_TOKEN env) (api_token m)
              AskUseStoredToken AskToken true t1
      with
      | (Raise e, t2) => (Raise e, t2)
      | (Ret new_token, t2) =>
          let url := "https://" +:+ format_str (domain m)
                     +:+ ".atlassian.net" in
          (Ret {| domain := domain m; email := new_email;
                  api_token := new_token; base_url := Some url;
                  auth := Some (new_email, new_token);
                  headers :=
                    set_header
                      (set_header (headers m) "Content-Type"
                         "application/json")
                      "Accept" "application/json" |},
           show (StartConnecting url) t2)
      end
  end.

(** What [test_connection] reads of the answer to [GET .../myself]:
    [id_json] is the result of [response.json()], which raises when the
    body is no JSON document and returns any JSON value otherwise. *)
Record identity : Type := {
  id_status : Z;
  id_text : string;
  id_json : outcome value
}.

Definition optional_str (o : option string) : value :=
  match o with
  | Some s => VStr s
  | None => VNone
  end.

(** [myself] answers the [GET] from its URL.  Lines 65-66 are inside the
    [try]: a [RequestException] of [response.json()] is caught like one of
    the request, any other exception leaves the function, and so does the
    [AttributeError] of [user_info.get] when the body is no JSON object. *)
Definition test_connection (myself : string -> outcome identity)
    (m : manager) (t : terminal) : outcome bool * terminal :=
  match myself (format_str (base_url m) +:+ "/rest/api/3/myself") with
  | Ret resp =>
      if (id_status resp =? 200)%Z
      then
        match id_json resp with
        | Ret (VDict user_info) =>
            (Ret true,
             show (StartConnected
                     (py_get_default user_info "displayName"
                        (optional_str (email m)))) t)
        | Ret _ => (Raise (OtherException "AttributeError"), t)
        | Raise (RequestException msg) =>
            (Ret false, show (StartConnectionError (RequestException msg)) t)
        | Raise e => (Raise e, t)
        end
      else (Ret false,
            show (StartConnectionFailed (id_status resp) (id_text resp)) t)
  | Raise (RequestException msg) =>
      (Ret false, show (StartConnectionError (RequestException msg)) t)
  | Raise e => (Raise e, t)
  end.

(** ** The menu loop and [main] *)

(** The [while True] of lines 244-290: [rounds] bounds the number of
    rounds, [fuel] the requests of each fetch. *)
Fixpoint menu_loop (rounds fuel : nat) (s : session) (env : os_env)
    (w : world) : option (outcome unit * world) :=
  match rounds with
  | O => None
  | S rounds' =>
      match menu_round fuel s env w with
      | None => None
      | Some (Raise e, w') => Some (Raise e, w')
      | Some (Ret true, w') => menu_loop rounds' fuel s env w'
      | Some (Ret false, w') => Some (Ret tt, w')
      end
  end.

(** The world in which the menu starts: the files of the directory and
    the lines not read yet. *)
Definition menu_world (fs : gmap string string) (lines : list string)
  : world :=
  {| files := fs; stdin := lines; stdout := []; get_log := [];
     delete_log := []; viewer_log := [] |}.

(** [main]: the terminal of the start, and the world of the menu when the
    menu was reached. *)
Definition main (rounds fuel : nat) (vars : environ)
    (default_headers : list (string * string))
    (myself : string -> outcome identity) (s : session) (env : os_env)
    (fs : gmap string string) (lines : list string)
  : option (outcome unit * terminal * option world) :=
  let t0 := {| typed := lines; shown := [] |} in
  match setup_credentials vars (new_manager vars default_headers) t0 with
  | (Raise e, t1) => Some (Raise e, t1, None)
  | (Ret m, t1) =>
      match test_connection myself m t1 with
      | (Raise e, t2) => Some (Raise e, t2, None)
      | (Ret false, t2) => Some (Ret tt, show StartCheckCredentials t2, None)
      | (Ret true, t2) =>
          match menu_loop rounds fuel s env (menu_world fs (typed t2)) with
          | None => None
          | Some (r, w) =>
              Some (r, {| typed := stdin w; shown := shown t2 |}, Some w)
          end
      end
  end.

(** ** Vocabulary and scenarios of the further properties *)

(** The keys of a record the fetch returns, in order. *)
Definition record_keys : list string :=
  ["accountId"; "displayName"; "emailAddress"; "active"; "accountType"].

(** A service that answers every request with a full page. *)
Definition endless_session : session :=
  {| session_get := fun _ _ => ok_response full_page;
     session_delete := fun _ _ => status_response 204 "" |}.

(** A record whose [accountId] is [null], and one whose [accountId] is the
    empty string. *)
Definition user_with_null_id : dict :=
  [ ("accountId", VNone); ("displayName", VStr "Null Id") ].
Definition user_with_empty_id : dict :=
  [ ("accountId", VStr ""); ("displayName", VStr "Empty Id") ].

(** A service whose second [DELETE] crashes. *)
Definition crashing_session : session :=
  {| session_get := fun _ _ => ok_response [];
     session_delete := fun n _ =>
       match n with
       | 1 => Raise (OtherException "ValueError")
       | _ => status_response 204 ""
       end |}.

(** The worlds that differ at most by what was printed, by the lines
    read and by the [DELETE] calls sent. *)
Definition batch_frame (w w' : world) : Prop :=
  files w' = files w /\ get_log w' = get_log w
  /\ viewer_log w' = viewer_log w.

(** The lines of the preview for [users], numbered from [i]. *)
Fixpoint preview_lines (i : nat) (users : list dict) : list message :=
  match users with
  | [] => []
  | user :: rest =>
      MsgPreviewLine i (py_get_default user "displayName" (VStr "Unknown"))
        (py_get_default user "emailAddress" (VStr "No email"))
      :: preview_lines (S i) rest
  end.

(** The world after printing [ms], in order. *)
Definition printed (ms : list message) (w : world) : world :=
  fold_left (fun w0 m => print m w0) ms w.

(** Eleven records to delete. *)
Definition eleven_users : list dict :=
  repeat (project inactive_user) 11.

(** The answers to [GET .../myself] of the scenarios. *)
Definition identity_ok (name : string) : outcome identity :=
  Ret {| id_status := 200; id_text := "";
         id_json := Ret (VDict [("displayName", VStr name)]) |}.

Definition identity_refused : outcome identity :=
  Ret {| id_status := 401; id_text := "Unauthorized";
         id_json := Raise (RequestException "JSONDecodeError") |}.

(** Answers with status 200 whose body is no JSON document, and whose body
    is a JSON list. *)
Definition identity_not_json : outcome identity :=
  Ret {| id_status := 200; id_text := "<html>";
         id_json := Raise (RequestException "JSONDecodeError") |}.

Definition identity_not_an_object : outcome identity :=
  Ret {| id_status := 200; id_text := "[]"; id_json := Ret (VList []) |}.

(** An environment with nothing stored but the domain. *)
Definition bare_environ : environ :=
  {| JIRA_DOMAIN := Some "example"; JIRA_EMAIL := None;
     JIRA_API_TOKEN := None |}.

(** An environment with everything stored. *)
Definition full_environ : environ :=
  {| JIRA_DOMAIN := Some "example"; JIRA_EMAIL := Some "user@example.com";
     JIRA_API_TOKEN := Some "token123" |}.

Definition fresh_terminal (lines : list string) : terminal :=
  {| typed := lines; shown := [] |}.

(** A platform the program has no viewer for. *)
Definition other_env : os_env :=
  {| sys_platform := "freebsd";
     subprocess_run := fun _ => None;
     os_remove := fun _ => None |}.

(** A line that chooses none of the four options. *)
Definition invalid_choice (line : string) : Prop :=
  strip line <> "1" /\ strip line <> "2"
  /\ strip line <> "3" /\ strip line <> "4".

(** The connection test fails: the answer has another status than 200, or
    the request raises a [RequestException]. *)
Definition connection_refused (reply : outcome identity) : Prop :=
  match reply with
  | Ret resp => id_status resp <> 200%Z
  | Raise (RequestException _) => True
  | Raise (OtherException _) => False
  end.

(** The URL of the connection test for a domain. *)
Definition myself_url (vars : environ) : string :=
  ("https://" +:+ format_str (JIRA_DOMAIN vars) +:+ ".atlassian.net")
  +:+ "/rest/api/3/myself".

(** The values of the fields of a record are Python values. *)
Definition well_formed_fields (user : dict) : bool :=
  forallb (fun kv => well_formed (snd kv)) user.

(** A character of plain ASCII text: a line feed or a printable character
    (0x20 to 0x7E). *)
Definition plain_char (c : ascii) : bool :=
  Ascii.eqb c chr_newline
  || ((32 <=? nat_of_ascii c) && (nat_of_ascii c <=? 126))%nat.

Fixpoint plain_text (s : string) : bool :=
  match s with
  | EmptyString => true
  | String c s' => plain_char c && plain_text s'
  end.

(** A record with characters outside ASCII in a name. *)
Definition accented_user : dict :=
  [ ("accountId", VStr "5");
    ("displayName", VStr (String "201" (String "233" (String "009" "x")))) ].

(** * Records whose strings hold any code point *)

(** A Python [str] is a sequence of code points from U+0000 to U+10FFFF, the
    surrogates U+D800..U+DFFF among them.  A [uvalue] is a [value] whose
    strings are lists of code points.  The text of a file stays a [string]:
    [json.dump] writes ASCII only. *)

Unset Elimination Schemes.
Inductive uvalue : Type :=
| UNone
| UBool (b : bool)
| UInt (n : Z)
| UStr (s : list N)
| UList (l : list uvalue)
| UDict (d : list (list N * uvalue)).
Set Elimination Schemes.

Abbreviation udict := (list (list N * uvalue)).

Definition max_code_point : N := 0x10FFFF%N.

Definition code_point (c : N) : bool := (c <=? max_code_point)%N.

Definition is_high_surrogate (c : N) : bool :=
  ((0xD800 <=? c) && (c <=? 0xDBFF))%N.

Definition is_low_surrogate (c : N) : bool :=
  ((0xDC00 <=? c) && (c <=? 0xDFFF))%N.

(** [==] on strings. *)
Fixpoint ustring_eqb (a b : list N) : bool :=
  match a, b with
  | [], [] => true
  | x :: a', y :: b' => (x =? y)%N && ustring_eqb a' b'
  | _, _ => false
  end.

(** ** [json.dump] with [ensure_ascii=True] *)

(** ['{0:04x}'.format(n)], for [n] below 0x10000. *)
Definition hex4 (n : N) : string :=
  String (hex_digit (N.to_nat (n / 4096)))
    (String (hex_digit (N.to_nat ((n / 256) mod 16)))
       (String (hex_digit (N.to_nat ((n / 16) mod 16)))
          (String (hex_digit (N.to_nat (n mod 16))) ""))).

Definition u_escape (n : N) : string :=
  String chr_backslash (String "u" (hex4 n)).

(** One code point of a string in [py_encode_basestring_ascii]: below
    U+0100 it is written as [escape_char] writes the character; from there
    to U+FFFF, the surrogates included, as one [\uXXXX]; above, as the
    [\uXXXX] of its high and of its low surrogate. *)
Definition u_escape_char (c : N) : string :=
  if (c <? 0x100)%N then escape_char (ascii_of_N c)
  else if (c <? 0x10000)%N then u_escape c
  else
    let n := (c - 0x10000)%N in
    let s1 := N.lor 0xD800 (N.land (N.shiftr n 10) 0x3FF) in
    let s2 := N.lor 0xDC00 (N.land n 0x3FF) in
    u_escape s1 +:+ u_escape s2.

Fixpoint u_escape_chars (s : list N) : string :=
  match s with
  | [] => EmptyString
  | c :: s' => u_escape_char c +:+ u_escape_chars s'
  end.

Definition u_encode_string (s : list N) : string :=
  String chr_quote (u_escape_chars s +:+ String chr_quote "").

(** The layout of [encode]; the text of an integer is that of
    [int.__repr__], for the integers it converts (see [max_str_digits]). *)
Fixpoint u_encode (lvl : nat) (v : uvalue) : string :=
  match v with
  | UNone => "null"
  | UBool true => "true"
  | UBool false => "false"
  | UInt n => DecimalString.NilZero.string_of_int (Z.to_int n)
  | UStr s => u_encode_string s
  | UList [] => "[]"
  | UList l =>
      "[" +:+ newline_indent (S lvl)
      +:+ join_items (S lvl) (map (u_encode (S lvl)) l)
      +:+ newline_indent lvl +:+ "]"
  | UDict [] => "{}"
  | UDict d =>
      "{" +:+ newline_indent (S lvl)
      +:+ join_items (S lvl)
            (map (fun kv => u_encode_string (fst kv) +:+ ": "
                            +:+ u_encode (S lvl) (snd kv)) d)
      +:+ newline_indent lvl +:+ "}"
  end.

(** [json.dumps(obj, indent=2)] *)
Definition u_json_dumps (v : uvalue) : string := u_encode 0 v.

(** ** [json.load] *)

(** [int(esc, 16)] in [_decode_uXXXX]: the number of four hexadecimal
    digits, [None] for anything else. *)
Definition hex4_value (h1 h2 h3 h4 : ascii) : option N :=
  match hex_value h1, hex_value h2, hex_value h3, hex_value h4 with
  | Some a, Some b, Some c, Some d =>
      Some (N.of_nat (((a * 16 + b) * 16 + c) * 16 + d))
  | _, _, _, _ => None
  end.

(** The code point of a high and a low surrogate. *)
Definition join_surrogates (uni uni2 : N) : N :=
  (0x10000 + N.lor (N.shiftl (uni - 0xD800) 10) (uni2 - 0xDC00))%N.

Definition u_prepend (c : N) (r : option (list N * string))
  : option (list N * string) :=
  match r with
  | Some (s, rest) => Some (c :: s, rest)
  | None => None
  end.

(** [py_scanstring] in strict mode, from the character after the opening
    quote: the string and the text after its closing quote.  A [\uXXXX] of
    a high surrogate that is followed by the [\uXXXX] of a low surrogate
    makes one code point with it; followed by any other text it stands for
    itself, and the text that follows is scanned on its own. *)
Fixpoint u_scanstring (s : string) : option (list N * string) :=
  match s with
  | EmptyString => None
  | String c s' =>
      if Ascii.eqb c chr_quote then Some ([], s')
      else if Ascii.eqb c chr_backslash then
        match s' with
        | String e s'' =>
            if Ascii.eqb e "u" then
              match s'' with
              | String h1 (String h2 (String h3 (String h4 r))) =>
                  match hex4_value h1 h2 h3 h4 with
                  | None => None
                  | Some uni =>
                      if is_high_surrogate uni then
                        match r with
                        | String b r0 =>
                            if Ascii.eqb b chr_backslash then
                              match r0 with
                              | String u r1 =>
                                  if Ascii.eqb u "u" then
                                    match r1 with
                                    | String k1 (String k2 (String k3
                                        (String k4 r2))) =>
                                        match hex4_value k1 k2 k3 k4 with
                                        | None => None
                                        | Some uni2 =>
                                            if is_low_surrogate uni2
                                            then u_prepend
                                                   (join_surrogates uni uni2)
                                                   (u_scanstring r2)
                                            else u_prepend uni (u_scanstring r)
                                        end
                                    | _ => None
                                    end
                                  else u_prepend uni (u_scanstring r)
                              | EmptyString => u_prepend uni (u_scanstring r)
                              end
                            else u_prepend uni (u_scanstring r)
                        | EmptyString => u_prepend uni (u_scanstring r)
                        end
                      else u_prepend uni (u_scanstring r)
                  end
              | _ => None
              end
            else
              match unescape e with
              | Some ch => u_prepend (N_of_ascii ch) (u_scanstring s'')
              | None => None
              end
        | EmptyString => None
        end
      else if (nat_of_ascii c <? 32)%nat then None
      else u_prepend (N_of_ascii c) (u_scanstring s')
  end.

(** [d[k] = v] and [dict(pairs)]. *)
Fixpoint u_dict_set (d : udict) (k : list N) (v : uvalue) : udict :=
  match d with
  | [] => [(k, v)]
  | (k', v') :: d' =>
      if ustring_eqb k' k then (k', v) :: d' else (k', v') :: u_dict_set d' k v
  end.

Definition u_dict_of_pairs (pairs : list (list N * uvalue)) : udict :=
  fold_left (fun d kv => u_dict_set d (fst kv) (snd kv)) pairs [].

(** The scanner of [scan_once], with [u_scanstring] for the strings and
    the keys. *)
Fixpoint u_scan_once (fuel : nat) (s : string) : option (uvalue * string) :=
  match fuel with
  | O => None
  | S fuel' =>
      match s with
      | EmptyString => None
      | String c s' =>
          if Ascii.eqb c chr_quote then
            match u_scanstring s' with
            | Some (str, rest) => Some (UStr str, rest)
            | None => None
            end
          else if Ascii.eqb c "{" then
            match skip_ws s' with
            | String c1 s1 =>
                if Ascii.eqb c1 "}" then Some (UDict [], s1)
                else if Ascii.eqb c1 chr_quote then u_scan_object fuel' s1 []
                else None
            | EmptyString => None
            end
          else if Ascii.eqb c "[" then
            match skip_ws s' with
            | String c1 s1 =>
                if Ascii.eqb c1 "]" then Some (UList [], s1)
                else u_scan_array fuel' (String c1 s1) []
            | EmptyString => None
            end
          else if Ascii.eqb c "n" then
            match expect "ull" s' with
            | Some rest => Some (UNone, rest)
            | None => None
            end
          else if Ascii.eqb c "t" then
            match expect "rue" s' with
            | Some rest => Some (UBool true, rest)
            | None => None
            end
          else if Ascii.eqb c "f" then
            match expect "alse" s' with
            | Some rest => Some (UBool false, rest)
            | None => None
            end
          else
            match scan_number s with
            | Some (n, rest) => Some (UInt n, rest)
            | None => None
            end
      end
  end
with u_scan_array (fuel : nat) (s : string) (values : list uvalue)
  : option (uvalue * string) :=
  match fuel with
  | O => None
  | S fuel' =>
      match u_scan_once fuel' s with
      | Some (v, rest) =>
          match skip_ws rest with
          | String c r =>
              if Ascii.eqb c "]" then Some (UList (values ++ [v]), r)
              else if Ascii.eqb c ","
              then u_scan_array fuel' (skip_ws r) (values ++ [v])
              else None
          | EmptyString => None
          end
      | None => None
      end
  end
with u_scan_object (fuel : nat) (s : string) (pairs : list (list N * uvalue))
  : option (uvalue * string) :=
  match fuel with
  | O => None
  | S fuel' =>
      match u_scanstring s with
      | Some (key, rest) =>
          match skip_ws rest with
          | String c r =>
              if Ascii.eqb c ":" then
                match u_scan_once fuel' (skip_ws r) with
                | Some (v, rest') =>
                    match skip_ws rest' with
                    | String c' r' =>
                        if Ascii.eqb c' "}"
                        then Some (UDict (u_dict_of_pairs (pairs ++ [(key, v)])),
                                   r')
                        else if Ascii.eqb c' "," then
                          match skip_ws r' with
                          | String q r'' =>
                              if Ascii.eqb q chr_quote
                              then u_scan_object fuel' r'' (pairs ++ [(key, v)])
                              else None
                          | EmptyString => None
                          end
                        else None
                    | EmptyString => None
                    end
                | None => None
                end
              else None
          | EmptyString => None
          end
      | None => None
      end
  end.

(** [json.loads(s)]: one value, white space around it, nothing else; [None]
    stands for [JSONDecodeError] and for a document with a float. *)
Definition u_json_loads (s : string) : option uvalue :=
  match u_scan_once (S (String.length s)) (skip_ws s) with
  | Some (v, rest) =>
      match skip_ws rest with
      | EmptyString => Some v
      | String _ _ => None
      end
  | None => None
  end.

(** ** save_users_to_file and the reading of lines 176-178 *)

(** [save_users_to_file] on records with strings of any code point. *)
Definition u_save_users_to_file (users : list udict) (filename : string)
  : M unit :=
  fun w =>
    let content := u_json_dumps (UList (map UDict users)) in
    (Ret tt,
     print (MsgSaved (length users) filename)
       (set_files (<[filename := content]> (files w)) w)).

(** [with open(filename, 'r') as f: users = json.load(f)]; [None] when the
    file is not there or is not read. *)
Definition u_json_load (filename : string) (w : world) : option uvalue :=
  match files w !! filename with
  | Some content => u_json_loads content
  | None => None
  end.

(** ** Vocabulary of the round trip *)

(** No high surrogate of the string is followed at once by a low one. *)
Fixpoint no_surrogate_pair (s : list N) : bool :=
  match s with
  | c :: s' =>
      match s' with
      | d :: _ => negb (is_high_surrogate c && is_low_surrogate d)
      | [] => true
      end && no_surrogate_pair s'
  | [] => true
  end.

Fixpoint u_distinct (keys : list (list N)) : bool :=
  match keys with
  | [] => true
  | k :: rest => negb (existsb (ustring_eqb k) rest) && u_distinct rest
  end.

(** The values Python can hold: every code point of a string is at most
    U+10FFFF, and the keys of a dictionary are pairwise distinct, at every
    depth. *)
Fixpoint u_well_formed (v : uvalue) : bool :=
  match v with
  | UStr s => forallb code_point s
  | UList l => forallb u_well_formed l
  | UDict d =>
      u_distinct (map fst d)
      && forallb (fun kv => forallb code_point (fst kv)
                            && u_well_formed (snd kv)) d
  | _ => true
  end.

(** No string of the value, a key or not, has a surrogate pair. *)
Fixpoint pair_free (v : uvalue) : bool :=
  match v with
  | UStr s => no_surrogate_pair s
  | UList l => forallb pair_free l
  | UDict d =>
      forallb (fun kv => no_surrogate_pair (fst kv) && pair_free (snd kv)) d
  | _ => true
  end.

Fixpoint u_size (v : uvalue) : nat :=
  match v with
  | UList l => S (list_sum (map (fun x => S (u_size x)) l))
  | UDict d => S (list_sum (map (fun kv => S (u_size (snd kv))) d))
  | _ => 1
  end.

(** The number of digits up to which [str] and [int] convert an integer, by
    default ([sys.int_info.default_max_str_digits]); beyond it [json.dump]
    raises a [ValueError], which [u_encode] leaves out. *)
Definition max_str_digits : Z := 4300.

Fixpoint ints_within_limit (v : uvalue) : bool :=
  match v with
  | UInt n => (Z.abs n <? 10 ^ max_str_digits)%Z
  | UList l => forallb ints_within_limit l
  | UDict d => forallb (fun kv => ints_within_limit (snd kv)) d
  | _ => true
  end.

(** The records are Python dictionaries; none has a surrogate pair; their
    integers are within the limit. *)
Definition u_well_formed_records (users : list udict) : bool :=
  forallb (fun user => u_well_formed (UDict user)) users.

Definition pair_free_records (users : list udict) : bool :=
  forallb (fun user => pair_free (UDict user)) users.

Definition ints_within_limit_records (users : list udict) : bool :=
  forallb (fun user => ints_within_limit (UDict user)) users.

(** The text [save_users_to_file] writes for [users]. *)
Definition u_saved_text (users : list udict) : string :=
  u_json_dumps (UList (map UDict users)).

Fixpoint uvalue_induction (P : uvalue -> Prop)
    (HNone : P UNone) (HBool : forall b, P (UBool b))
    (HInt : forall n, P (UInt n)) (HStr : forall s, P (UStr s))
    (HList : forall l, Forall P l -> P (UList l))
    (HDict : forall d, Forall (fun kv => P (snd kv)) d -> P (UDict d))
    (v : uvalue) {struct v} : P v :=
  match v with
  | UNone => HNone
  | UBool b => HBool b
  | UInt n => HInt n
  | UStr s => HStr s
  | UList l =>
      HList l
        ((fix items (l : list uvalue) : Forall P l :=
            match l with
            | [] => @List.Forall_nil _ P
            | x :: l' =>
                @List.Forall_cons _ P x l'
                  (uvalue_induction P HNone HBool HInt HStr HList HDict x)
                  (items l')
            end) l)
  | UDict d =>
      HDict d
        ((fix members (d : list (list N * uvalue))
            : Forall (fun kv => P (snd kv)) d :=
            match d with
            | [] => @List.Forall_nil _ _
            | kv :: d' =>
                @List.Forall_cons _ (fun kv => P (snd kv)) kv d'
                  (uvalue_induction P HNone HBool HInt HStr HList HDict (snd kv))
                  (members d')
            end) d)
  end.

Definition u_member_text (lvl : nat) (kv : list N * uvalue) : string :=
  u_encode_string (fst kv) +:+ ": " +:+ u_encode lvl (snd kv).

(** A value without surrogate pairs is read back from its text with any
    fuel from its size on, whatever follows the text. *)
Definition u_reads_back (v : uvalue) : Prop :=
  forall lvl fuel rest,
    u_size v <= fuel -> u_well_formed v = true -> pair_free v = true ->
    terminated rest ->
    u_scan_once fuel (u_encode lvl v +:+ rest) = Some (v, rest).

(** What follows a high surrogate in the text, [scan] reading on. *)
Definition after_high_surrogate (scan : string -> option (list N * string))
    (uni : N) (r : string) : option (list N * string) :=
  match r with
  | String b r0 =>
      if Ascii.eqb b chr_backslash then
        match r0 with
        | String u r1 =>
            if Ascii.eqb u "u" then
              match r1 with
              | String k1 (String k2 (String k3 (String k4 r2))) =>
                  match hex4_value k1 k2 k3 k4 with
                  | None => None
                  | Some uni2 =>
                      if is_low_surrogate uni2
                      then u_prepend (join_surrogates uni uni2) (scan r2)
                      else u_prepend uni (scan r)
                  end
              | _ => None
              end
            else u_prepend uni (scan r)
        | EmptyString => u_prepend uni (scan r)
        end
      else u_prepend uni (scan r)
  | EmptyString => u_prepend uni (scan r)
  end.

(** One unfolding of [u_scanstring], the recursive calls going to [scan]. *)
Definition u_scanstring_step (scan : string -> option (list N * string))
    (s : string) : option (list N * string) :=
  match s with
  | EmptyString => None
  | String c s' =>
      if Ascii.eqb c chr_quote then Some ([], s')
      else if Ascii.eqb c chr_backslash then
        match s' with
        | String e s'' =>
            if Ascii.eqb e "u" then
              match s'' with
              | String h1 (String h2 (String h3 (String h4 r))) =>
                  match hex4_value h1 h2 h3 h4 with
                  | None => None
                  | Some uni =>
                      if is_high_surrogate uni
                      then after_high_surrogate scan uni r
                      else u_prepend uni (scan r)
                  end
              | _ => None
              end
            else
              match unescape e with
              | Some ch => u_prepend (N_of_ascii ch) (scan s'')
              | None => None
              end
        | EmptyString => None
        end
      else if (nat_of_ascii c <? 32)%nat then None
      else u_prepend (N_of_ascii c) (scan s')
  end.

(** The text does not go on with the [\uXXXX] of a low surrogate, nor with
    a [\u] that is no escape. *)
Definition no_low_surrogate_ahead (r : string) : bool :=
  match r with
  | String b r0 =>
      if Ascii.eqb b chr_backslash then
        match r0 with
        | String u r1 =>
            if Ascii.eqb u "u" then
              match r1 with
              | String k1 (String k2 (String k3 (String k4 _))) =>
                  match hex4_value k1 k2 k3 k4 with
                  | None => false
                  | Some uni2 => negb (is_low_surrogate uni2)
                  end
              | _ => false
              end
            else true
        | EmptyString => true
        end
      else true
  | EmptyString => true
  end.

(** ** A string and a value as strings of code points *)

Fixpoint widen_string (s : string) : list N :=
  match s with
  | EmptyString => []
  | String c s' => N_of_ascii c :: widen_string s'
  end.

Fixpoint widen (v : value) : uvalue :=
  match v with
  | VNone => UNone
  | VBool b => UBool b
  | VInt n => UInt n
  | VStr s => UStr (widen_string s)
  | VList l => UList (map widen l)
  | VDict d => UDict (map (fun kv => (widen_string (fst kv), widen (snd kv))) d)
  end.

Definition widen_record (user : dict) : udict :=
  map (fun kv => (widen_string (fst kv), widen (snd kv))) user.

(** ** Scenarios of the round trip *)

(** The one character U+1F600, and the two surrogates that are written
    like it. *)
Definition grinning_face : list N := [0x1F600%N].
Definition two_surrogates : list N := [0xD83D%N; 0xDE00%N].

Definition user_named (name : list N) : udict :=
  [ (widen_string "accountId", UStr (widen_string "7"));
    (widen_string "displayName", UStr name) ].

(** A name in Polish, a lone surrogate and a character beyond U+FFFF. *)
Definition wide_name : list N :=
  [0x141%N; 0xF3%N; 0x64%N; 0x17A%N; 0x20%N; 0xD83D%N; 0x41%N; 0x1F600%N].

(** A record with a number and a list among its fields. *)
Definition user_with_groups : udict :=
  [ (widen_string "accountId", UStr (widen_string "8"));
    (widen_string "displayName", UStr wide_name);
    (widen_string "logins", UInt (-12));
    (widen_string "groups",
     UList [UStr (widen_string "staff"); UNone; UBool false; UDict []]) ].
(** * Properties *)

Lemma same_outside_fetch_refl w : same_outside_fetch w w.
Proof. repeat split. Qed.

Lemma same_outside_fetch_trans w1 w2 w3 :
  same_outside_fetch w1 w2 -> same_outside_fetch w2 w3 ->
  same_outside_fetch w1 w3.
Proof.
  unfold same_outside_fetch.
  intros (? & ? & ? & ?) (? & ? & ? & ?).
  repeat split; congruence.
Qed.

Lemma same_outside_fetch_print m w : same_outside_fetch w (print m w).
Proof. repeat split. Qed.

Lemma same_outside_fetch_log_get a b w : same_outside_fetch w (log_get a b w).
Proof. repeat split. Qed.

Create HintDb fetch.
#[local] Hint Resolve same_outside_fetch_refl same_outside_fetch_print
  same_outside_fetch_log_get : fetch.

(** The [for] loop appends the projections of the inactive records, in
    order. *)
Lemma collect_inactive_spec users acc :
  collect_inactive users acc
  = acc ++ map project (List.filter is_inactive users).
Proof.
  revert acc. induction users as [|user rest IH]; intros acc; simpl.
  - now rewrite app_nil_r.
  - destruct (is_inactive user); simpl.
    + rewrite IH, <- app_assoc. reflexivity.
    + apply IH.
Qed.

Lemma listing_S pages n : listing pages (S n) = listing pages n ++ pages n.
Proof.
  unfold listing. rewrite seq_S, map_app, concat_app. simpl.
  now rewrite app_nil_r.
Qed.

Lemma page_requests_S k n :
  page_requests k (S n)
  = page_requests k n ++ [((50 * Z.of_nat (k + n))%Z, max_results)].
Proof. unfold page_requests. now rewrite seq_S, map_app. Qed.

Lemma filter_listing_S pages n :
  map project (List.filter is_inactive (listing pages (S n)))
  = map project (List.filter is_inactive (listing pages n))
    ++ map project (List.filter is_inactive (pages n)).
Proof. now rewrite listing_S, List.filter_app, map_app. Qed.

(** What is inactive, whatever the fields hold: [active] is there and
    false in the sense of truth value testing, [accountType] is not the
    string [former]. *)
Lemma is_inactive_spec user :
  is_inactive user = true
  <-> (exists v, dict_get user "active" = Some v /\ truthy v = false)
      /\ dict_get user "accountType" <> Some (VStr "former").
Proof.
  unfold is_inactive, py_get, py_get_default.
  rewrite andb_true_iff, !negb_true_iff. split.
  - intros [Hact Htype]. split.
    + destruct (dict_get user "active") as [v|]; [eauto | discriminate].
    + intros E. rewrite E in Htype. discriminate.
  - intros [(v & Ev & Hv) Htype]. rewrite Ev. split; [exact Hv|].
    destruct (dict_get user "accountType") as [[| | |t| |]|]; simpl; trivial.
    destruct (String.eqb_spec t "former"); [subst; congruence | reflexivity].
Qed.

Lemma is_inactive_boolean user :
  boolean_active user ->
  (is_inactive user = true
   <-> dict_get user "active" = Some (VBool false)
       /\ dict_get user "accountType" <> Some (VStr "former")).
Proof.
  intros Hbool. rewrite is_inactive_spec. unfold boolean_active in Hbool.
  split.
  - intros [(v & Ev & Hv) Htype]. split; [|exact Htype].
    rewrite Ev in *. destruct v; try contradiction.
    simpl in Hv. now subst.
  - intros [Ev Htype]. split; [|exact Htype].
    exists (VBool false). now split.
Qed.

(** [n] full pages from request [k] on: the loop goes through them and
    is left at request [k + n] with their inactive records appended. *)
Lemma fetch_loop_full_pages s pages n :
  forall k fuel acc w,
    (forall i, i < n -> served s (k + i) (pages (k + i))
                        /\ 50 <= length (pages (k + i))) ->
    exists w',
      fetch_loop (n + fuel) s (50 * Z.of_nat k) acc w
      = fetch_loop fuel s (50 * Z.of_nat (k + n))
          (acc ++ map project
                    (List.filter is_inactive (concat (map pages (seq k n))))) w'
      /\ get_log w' = get_log w ++ page_requests k n
      /\ same_outside_fetch w w'.
Proof.
  induction n as [|n IH]; intros k fuel acc w Hfull.
  - exists w. simpl. rewrite Nat.add_0_r, !app_nil_r.
    auto with fetch.
  - destruct (Hfull 0) as [[t Hget] Hlen]; [lia|].
    rewrite Nat.add_0_r in Hget, Hlen.
    assert (Hfullpage :
              (Z.of_nat (length (pages k)) <? max_results)%Z = false)
      by (apply Z.ltb_ge; unfold max_results; lia).
    assert (Hstep :
      fetch_loop (S n + fuel) s (50 * Z.of_nat k) acc w
      = fetch_loop (n + fuel) s (50 * Z.of_nat (S k))
          (collect_inactive (pages k) acc)
          (print (MsgProcessed (50 * Z.of_nat (S k))
                    (length (collect_inactive (pages k) acc)))
             (log_get (50 * Z.of_nat k) max_results w))).
    { change (S n + fuel) with (S (n + fuel)).
      cbn [fetch_loop]. rewrite Hget. cbn [status_code json text].
      change (negb (200 =? 200)%Z) with false. cbv iota.
      destruct (pages k) as [|u page] eqn:Epage; [simpl in Hlen; lia|].
      rewrite <- Epage in *. rewrite Hfullpage.
      replace (50 * Z.of_nat k + max_results)%Z with (50 * Z.of_nat (S k))%Z
        by (unfold max_results; lia).
      reflexivity. }
    rewrite Hstep. clear Hstep.
    destruct (IH (S k) fuel (collect_inactive (pages k) acc)
                (print (MsgProcessed (50 * Z.of_nat (S k))
                          (length (collect_inactive (pages k) acc)))
                   (log_get (50 * Z.of_nat k) max_results w)))
      as (w' & Hrun & Hlog & Hsame).
    { intros i Hi. replace (S k + i) with (k + S i) by lia.
      apply Hfull. lia. }
    exists w'. split; [|split].
    + rewrite Hrun. replace (S k + n) with (k + S n) by lia.
      f_equal. rewrite collect_inactive_spec.
      cbn [seq map concat]. rewrite List.filter_app, map_app, app_assoc.
      reflexivity.
    + rewrite Hlog. cbn [get_log print log_get].
      unfold page_requests. cbn [seq map]. rewrite <- app_assoc.
      reflexivity.
    + eapply same_outside_fetch_trans; [|exact Hsame].
      repeat split.
Qed.

(** A page of fewer than 50 records ends the loop once the page is
    processed. *)
Lemma fetch_loop_short_page s k users fuel acc w :
  served s k users -> length users < 50 ->
  exists w',
    fetch_loop (S fuel) s (50 * Z.of_nat k) acc w
    = Some (None, acc ++ map project (List.filter is_inactive users), w')
    /\ get_log w' = get_log w ++ page_requests k 1
    /\ same_outside_fetch w w'.
Proof.
  intros [t Hget] Hlen. cbn [fetch_loop]. rewrite Hget.
  cbn [status_code json text]. change (negb (200 =? 200)%Z) with false.
  cbv iota.
  assert (Hshort : (Z.of_nat (length users) <? max_results)%Z = true)
    by (apply Z.ltb_lt; unfold max_results; lia).
  destruct users as [|u rest] eqn:Eusers.
  - eexists. split; [|split].
    + simpl. rewrite app_nil_r. reflexivity.
    + reflexivity.
    + repeat split.
  - rewrite <- Eusers in *. rewrite Hshort. eexists. split; [|split].
    + rewrite collect_inactive_spec. reflexivity.
    + reflexivity.
    + repeat split.
Qed.

(** A failing request ends the loop with the accumulator as it is; the
    loop is left normally or by a [RequestException]. *)
Lemma fetch_loop_failing s k fuel acc w :
  failing s k ->
  exists how w',
    fetch_loop (S fuel) s (50 * Z.of_nat k) acc w = Some (how, acc, w')
    /\ (how = None \/ exists m, how = Some (RequestException m))
    /\ get_log w' = get_log w ++ page_requests k 1
    /\ same_outside_fetch w w'.
Proof.
  unfold failing. intros Hfail. cbn [fetch_loop].
  destruct (session_get s (50 * Z.of_nat k) max_results) as [resp|[m|c]].
  - apply Z.eqb_neq in Hfail. rewrite Hfail. cbn [negb].
    do 2 eexists. split; [reflexivity|]. split; [now left|].
    split; [reflexivity | repeat split].
  - do 2 eexists. split; [reflexivity|]. split; [right; eauto|].
    split; [reflexivity | repeat split].
  - contradiction.
Qed.

Lemma page_requests_app k n m :
  page_requests k (n + m) = page_requests k n ++ page_requests (k + n) m.
Proof. unfold page_requests. now rewrite seq_app, map_app. Qed.

(** A listing of [n] full pages and a short one: the fetch returns the
    inactive records of the [n + 1] pages after [n + 1] requests. *)
Lemma fetch_short_page_run s pages n fuel w :
  (forall i, i < n -> served s i (pages i) /\ 50 <= length (pages i)) ->
  served s n (pages n) -> length (pages n) < 50 ->
  n < fuel ->
  exists w',
    fetch_non_active_users fuel s w
    = Some (Ret (map project (List.filter is_inactive (listing pages (S n)))),
            w')
    /\ get_log w' = get_log w ++ page_requests 0 (S n)
    /\ same_outside_fetch w w'.
Proof.
  intros Hfull Hlast Hshort Hfuel.
  destruct (fetch_loop_full_pages s pages n 0 (fuel - n) []
              (print MsgFetching w)) as (w1 & Hrun & Hlog1 & Hsame1).
  { intros i Hi. simpl. now apply Hfull. }
  replace (n + (fuel - n)) with fuel in Hrun by lia.
  destruct (fuel - n) as [|fuel'] eqn:Efuel; [lia|].
  simpl "+" in Hrun. change (50 * Z.of_nat 0)%Z with 0%Z in Hrun.
  destruct (fetch_loop_short_page s n (pages n) fuel'
              ([] ++ map project
                       (List.filter is_inactive
                          (concat (map pages (seq 0 n))))) w1
              Hlast Hshort) as (w2 & Hend & Hlog2 & Hsame2).
  rewrite Hend in Hrun.
  exists (print
            (MsgFound
               (length (map project
                          (List.filter is_inactive (listing pages (S n))))))
            w2).
  split; [|split].
  - unfold fetch_non_active_users. rewrite Hrun.
    rewrite filter_listing_S. reflexivity.
  - cbn [get_log print]. rewrite Hlog2, Hlog1. cbn [get_log print].
    rewrite <- app_assoc. f_equal.
    replace (S n) with (n + 1) by lia. now rewrite page_requests_app.
  - eapply same_outside_fetch_trans; [|apply same_outside_fetch_print].
    eapply same_outside_fetch_trans; [|exact Hsame2].
    eapply same_outside_fetch_trans; [|exact Hsame1].
    apply same_outside_fetch_print.
Qed.

(** A listing of [n] full pages and a failing request: the fetch returns
    the inactive records of the [n] pages after [n + 1] requests. *)
Lemma fetch_failing_run s pages n fuel w :
  (forall i, i < n -> served s i (pages i) /\ 50 <= length (pages i)) ->
  failing s n ->
  n < fuel ->
  exists w',
    fetch_non_active_users fuel s w
    = Some (Ret (map project (List.filter is_inactive (listing pages n))), w')
    /\ get_log w' = get_log w ++ page_requests 0 (S n)
    /\ same_outside_fetch w w'.
Proof.
  intros Hfull Hfail Hfuel.
  destruct (fetch_loop_full_pages s pages n 0 (fuel - n) []
              (print MsgFetching w)) as (w1 & Hrun & Hlog1 & Hsame1).
  { intros i Hi. simpl. now apply Hfull. }
  replace (n + (fuel - n)) with fuel in Hrun by lia.
  destruct (fuel - n) as [|fuel'] eqn:Efuel; [lia|].
  simpl "+" in Hrun. change (50 * Z.of_nat 0)%Z with 0%Z in Hrun.
  destruct (fetch_loop_failing s n fuel'
              ([] ++ map project
                       (List.filter is_inactive
                          (concat (map pages (seq 0 n))))) w1 Hfail)
    as (how & w2 & Hend & Hhow & Hlog2 & Hsame2).
  rewrite Hend in Hrun.
  assert (Hlogs : get_log w2 = get_log w ++ page_requests 0 (S n)).
  { rewrite Hlog2, Hlog1. cbn [get_log print].
    rewrite <- app_assoc. f_equal.
    replace (S n) with (n + 1) by lia. now rewrite page_requests_app. }
  assert (Hsame : same_outside_fetch w w2).
  { eapply same_outside_fetch_trans; [|exact Hsame2].
    eapply same_outside_fetch_trans; [|exact Hsame1].
    apply same_outside_fetch_print. }
  unfold fetch_non_active_users. rewrite Hrun.
  destruct Hhow as [-> | [m ->]]; eexists; (split; [reflexivity|]);
    (split; [exact Hlogs|]).
  - eapply same_outside_fetch_trans; [exact Hsame|].
    apply same_outside_fetch_print.
  - eapply same_outside_fetch_trans; [exact Hsame|].
    eapply same_outside_fetch_trans; apply same_outside_fetch_print.
Qed.

Lemma is_inactive_former user :
  dict_get user "accountType" = Some (VStr "former") ->
  is_inactive user = false.
Proof.
  intros E. unfold is_inactive, py_get, py_get_default. rewrite E.
  simpl. apply andb_false_r.
Qed.

(** ** The fetch: filter, pagination, partial results *)

(** C1: over a listing that ends (full pages, then a short one), the fetch
    returns the projections of exactly the records for which the test of
    lines 107-110 holds, in the order received; for a record whose [active]
    field is a boolean that test holds iff [active] is [false] and
    [accountType] is not ['former']; a ['former'] record never passes it;
    the projection keeps the [accountId]. *)
Theorem fetch_keeps_exactly_the_inactive_records s pages n fuel w :
  (forall i, i < n -> served s i (pages i) /\ 50 <= length (pages i)) ->
  served s n (pages n) -> length (pages n) < 50 ->
  n < fuel ->
  (exists w',
     fetch_non_active_users fuel s w
     = Some (Ret (map project
                    (List.filter is_inactive (listing pages (S n)))), w'))
  /\ (forall user,
        boolean_active user ->
        (is_inactive user = true
         <-> dict_get user "active" = Some (VBool false)
             /\ dict_get user "accountType" <> Some (VStr "former")))
  /\ (forall user,
        dict_get user "accountType" = Some (VStr "former") ->
        is_inactive user = false)
  /\ (forall user,
        dict_get (project user) "accountId" = Some (py_get user "accountId")).
Proof.
  intros Hfull Hlast Hshort Hfuel. split; [|split; [|split]].
  - destruct (fetch_short_page_run s pages n fuel w Hfull Hlast Hshort Hfuel)
      as (w' & Hrun & _).
    now exists w'.
  - apply is_inactive_boolean.
  - apply is_inactive_former.
  - reflexivity.
Qed.

Lemma fetch_keeps_exactly_the_inactive_records_witness :
  (exists w',
     fetch_non_active_users 1 test_session empty_world
     = Some (Ret (map project
                    (List.filter is_inactive (listing test_pages 1))), w'))
  /\ (forall user,
        boolean_active user ->
        (is_inactive user = true
         <-> dict_get user "active" = Some (VBool false)
             /\ dict_get user "accountType" <> Some (VStr "former")))
  /\ (forall user,
        dict_get user "accountType" = Some (VStr "former") ->
        is_inactive user = false)
  /\ (forall user,
        dict_get (project user) "accountId" = Some (py_get user "accountId")).
Proof.
  apply (fetch_keeps_exactly_the_inactive_records
           test_session test_pages 0 1 empty_world).
  - intros i Hi. lia.
  - exists "". reflexivity.
  - simpl. lia.
  - lia.
Defined.

(** The scenario of the test suite: of the three users of the page, the
    fetch returns the inactive one that is not ['former'], with its id. *)
Example fetch_test_scenario :
  exists w',
    fetch_non_active_users 2 test_session empty_world
    = Some (Ret [inactive_user], w')
    /\ get_log w' = [(0%Z, 50%Z)].
Proof. eexists. split; reflexivity. Qed.

(** C3: when the service serves [n] pages of exactly 50 records and then a
    page of fewer than 50 (possibly none), the fetch returns after exactly
    [n + 1] requests, with [startAt] 0, 50, ..., [50 * n] in this order and
    [maxResults] 50: one more request after each full page, none after the
    first short one. *)
Theorem fetch_pages_until_first_short_page s pages n fuel w :
  (forall i, i < n -> served s i (pages i) /\ length (pages i) = 50) ->
  served s n (pages n) -> length (pages n) < 50 ->
  n < fuel ->
  exists result w',
    fetch_non_active_users fuel s w = Some (Ret result, w')
    /\ get_log w'
       = get_log w ++ map (fun i => ((50 * Z.of_nat i)%Z, 50%Z)) (seq 0 (S n)).
Proof.
  intros Hfull Hlast Hshort Hfuel.
  destruct (fetch_short_page_run s pages n fuel w) as (w' & Hrun & Hlog & _);
    trivial.
  - intros i Hi. destruct (Hfull i Hi) as [Hserved Hlen].
    split; [exact Hserved | lia].
  - eauto.
Qed.

Lemma fetch_pages_until_first_short_page_witness :
  exists result w',
    fetch_non_active_users 2 two_page_session empty_world
    = Some (Ret result, w')
    /\ get_log w'
       = get_log empty_world
         ++ map (fun i => ((50 * Z.of_nat i)%Z, 50%Z)) (seq 0 2).
Proof.
  apply (fetch_pages_until_first_short_page
           two_page_session two_pages 1 2 empty_world).
  - intros i Hi. assert (i = 0) as -> by lia.
    split; [exists ""; reflexivity | reflexivity].
  - exists "". reflexivity.
  - simpl. lia.
  - lia.
Defined.

(** C5: when, after [n] full pages, a request is answered with another
    status than 200 or raises a [RequestException], the fetch sends no
    further request and returns normally the inactive records of the [n]
    pages processed so far. *)
Theorem fetch_returns_partial_results_on_error s pages n fuel w :
  (forall i, i < n -> served s i (pages i) /\ 50 <= length (pages i)) ->
  failing s n ->
  n < fuel ->
  exists w',
    fetch_non_active_users fuel s w
    = Some (Ret (map project (List.filter is_inactive (listing pages n))), w')
    /\ get_log w' = get_log w ++ page_requests 0 (S n).
Proof.
  intros Hfull Hfail Hfuel.
  destruct (fetch_failing_run s pages n fuel w Hfull Hfail Hfuel)
    as (w' & Hrun & Hlog & _).
  eauto.
Qed.

Lemma fetch_returns_partial_results_on_error_witness :
  (exists w',
     fetch_non_active_users 2
       (failing_session (status_response 503 "unavailable")) empty_world
     = Some (Ret (map project (List.filter is_inactive (listing two_pages 1))),
             w')
     /\ get_log w' = get_log empty_world ++ page_requests 0 2)
  /\ (exists w',
     fetch_non_active_users 2
       (failing_session (Raise (RequestException "connection refused")))
       empty_world
     = Some (Ret (map project (List.filter is_inactive (listing two_pages 1))),
             w')
     /\ get_log w' = get_log empty_world ++ page_requests 0 2).
Proof.
  split.
  - apply (fetch_returns_partial_results_on_error
             (failing_session (status_response 503 "unavailable"))
             two_pages 1 2 empty_world).
    + intros i Hi. assert (i = 0) as -> by lia.
      split; [exists ""; reflexivity | simpl; lia].
    + unfold failing. simpl. lia.
    + lia.
  - apply (fetch_returns_partial_results_on_error
             (failing_session (Raise (RequestException "connection refused")))
             two_pages 1 2 empty_world).
    + intros i Hi. assert (i = 0) as -> by lia.
      split; [exists ""; reflexivity | simpl; lia].
    + unfold failing. simpl. exact I.
    + lia.
Defined.

(** C10: a record without the [active] field fails the test of lines
    107-110 whatever its [accountType] is, and adds nothing to the
    accumulator wherever it stands in a page. *)
Theorem record_without_active_is_excluded user :
  dict_get user "active" = None ->
  is_inactive user = false
  /\ forall before after acc,
       collect_inactive (before ++ user :: after) acc
       = collect_inactive (before ++ after) acc.
Proof.
  intros Hnone.
  assert (Hfalse : is_inactive user = false).
  { unfold is_inactive, py_get_default. rewrite Hnone. reflexivity. }
  split; [exact Hfalse|].
  intros before after acc. rewrite !collect_inactive_spec.
  rewrite !List.filter_app. simpl. now rewrite Hfalse.
Qed.

Lemma record_without_active_is_excluded_witness :
  is_inactive user_without_active = false
  /\ forall before after acc,
       collect_inactive (before ++ user_without_active :: after) acc
       = collect_inactive (before ++ after) acc.
Proof.
  apply (record_without_active_is_excluded user_without_active).
  reflexivity.
Defined.

(** ** Commands *)

Lemma bind_unfold {A B} (m : M A) (k : A -> M B) w :
  bind m k w
  = match m w with
    | (Ret a, w') => k a w'
    | (Raise e, w') => (Raise e, w')
    end.
Proof. reflexivity. Qed.

Lemma bind_assoc {A B C} (m : M A) (k : A -> M B) (h : B -> M C) w :
  bind (bind m k) h w = bind m (fun a => bind (k a) h) w.
Proof.
  rewrite !bind_unfold. destruct (m w) as [[a|e] w']; reflexivity.
Qed.

Lemma bind_ext {A B} (m : M A) (k k' : A -> M B) w :
  (forall a w', k a w' = k' a w') -> bind m k w = bind m k' w.
Proof.
  intros Hk. rewrite !bind_unfold. destruct (m w) as [[a|e] w']; auto.
Qed.

(** ** delete_user *)

(** C4: [delete_user] sends one [DELETE] for the account id and returns
    [True] iff the reply is a response of status 204; on a response of any
    other status and on a [RequestException] it returns [False], raising
    nothing. *)
Theorem delete_user_succeeds_iff_204 s account_id display_name w :
  let reply := session_delete s (length (delete_log w)) account_id in
  let result := delete_user s account_id display_name w in
  (fst result = Ret true
   <-> exists resp, reply = Ret resp /\ status_code resp = 204%Z)
  /\ (forall resp,
        reply = Ret resp -> status_code resp <> 204%Z ->
        fst result = Ret false)
  /\ (forall msg, reply = Raise (RequestException msg) -> fst result = Ret false)
  /\ delete_log (snd result) = delete_log w ++ [account_id].
Proof.
  cbv zeta. unfold delete_user.
  destruct (session_delete s (length (delete_log w)) account_id)
    as [resp|[msg|class]].
  - destruct (Z.eqb_spec (status_code resp) 204) as [E|NE]; cbn [fst snd];
      (split; [|split; [|split]]); try reflexivity; try discriminate.
    + split; [intros _; now exists resp | reflexivity].
    + intros r [= <-] Hne. contradiction.
    + split; [discriminate | intros (r & [= <-] & E); contradiction].
  - cbn [fst snd]. (split; [|split; [|split]]);
      try reflexivity; try discriminate.
    split; [discriminate | intros (r & Er & _); discriminate].
  - cbn [fst snd]. (split; [|split; [|split]]);
      try reflexivity; try discriminate.
    split; [discriminate | intros (r & Er & _); discriminate].
Qed.

(** The two calls of the test suite: 204, then 400. *)
Example delete_user_test_scenario :
  fst (delete_user test_session (VStr "acc-1") (VStr "User One") empty_world)
  = Ret true
  /\ fst (delete_user test_session (VStr "acc-2") (VStr "User Two")
            (log_delete (VStr "acc-1") empty_world))
     = Ret false.
Proof. split; reflexivity. Qed.

(** ** The deletion batch *)

Lemma console_only_refl w : console_only w w.
Proof. repeat split. Qed.

Lemma console_only_trans w1 w2 w3 :
  console_only w1 w2 -> console_only w2 w3 -> console_only w1 w3.
Proof.
  unfold console_only.
  intros (? & ? & ? & ? & ?) (? & ? & ? & ? & ?).
  repeat split; congruence.
Qed.

Lemma console_only_print m w : console_only w (print m w).
Proof. repeat split. Qed.

Lemma put_eq m w : put m w = (Ret tt, print m w).
Proof. reflexivity. Qed.

Lemma input_line p w line rest :
  stdin w = line :: rest ->
  input p w = (Ret line, set_stdin rest (print (MsgPrompt p) w)).
Proof. intros E. unfold input. cbn [stdin print]. now rewrite E. Qed.

Lemma input_eof p w :
  stdin w = [] ->
  input p w = (Raise (OtherException "EOFError"), print (MsgPrompt p) w).
Proof. intros E. unfold input. cbn [stdin print]. now rewrite E. Qed.

(** The preview prints, and nothing else; over records it goes through. *)
Lemma preview_console_only users :
  forall i w, console_only w (snd (preview i users w)).
Proof.
  induction users as [|user rest IH]; intros i w; simpl.
  - apply console_only_refl.
  - destruct user; try apply console_only_refl.
    rewrite bind_unfold, put_eq.
    eapply console_only_trans; [apply console_only_print | apply IH].
Qed.

Lemma preview_records users :
  forall i w, fst (preview i (map VDict users) w) = Ret tt.
Proof.
  induction users as [|user rest IH]; intros i w; simpl.
  - reflexivity.
  - rewrite bind_unfold, put_eq. apply IH.
Qed.

(** The loop over two stretches of records is the loop over the first,
    then over the second with the counters the first one left. *)
Lemma delete_loop_app s before after :
  forall successful failed w,
    delete_loop s (before ++ after) successful failed w
    = (counts <- delete_loop s before successful failed ;;
       delete_loop s after (fst counts) (snd counts)) w.
Proof.
  induction before as [|user rest IH]; intros successful failed w.
  - reflexivity.
  - cbn [app delete_loop]. destruct user; try reflexivity.
    destruct (negb (truthy (py_get d "accountId"))).
    + rewrite bind_assoc, !bind_unfold, put_eq. apply IH.
    + rewrite bind_assoc, !bind_unfold.
      destruct (delete_user s _ _ w) as [[[|]|e] w']; try reflexivity;
        apply IH.
Qed.

Lemma delete_user_same_files s account_id display_name w :
  files (snd (delete_user s account_id display_name w)) = files w
  /\ stdin (snd (delete_user s account_id display_name w)) = stdin w.
Proof.
  unfold delete_user.
  destruct (session_delete s _ account_id) as [resp|[msg|class]];
    [destruct (status_code resp =? 204)%Z|..]; split; reflexivity.
Qed.

(** The loop touches no file and reads no line. *)
Lemma delete_loop_same_files s users :
  forall successful failed w,
    files (snd (delete_loop s users successful failed w)) = files w
    /\ stdin (snd (delete_loop s users successful failed w)) = stdin w.
Proof.
  induction users as [|user rest IH]; intros successful failed w.
  - split; reflexivity.
  - cbn [delete_loop]. destruct user; try (split; reflexivity).
    destruct (negb (truthy (py_get d "accountId"))).
    + rewrite bind_unfold, put_eq.
      destruct (IH successful (S failed)
                  (print (MsgSkipping
                            (py_get_default d "displayName" (VStr "Unknown")))
                     w)) as [Hf Hs].
      split; [rewrite Hf | rewrite Hs]; reflexivity.
    + rewrite bind_unfold.
      pose proof (delete_user_same_files s (py_get d "accountId")
                    (py_get_default d "displayName" (VStr "Unknown")) w)
        as [Hf Hs].
      destruct (delete_user s _ _ w) as [[[|]|e] w']; cbn [snd] in *.
      * destruct (IH (S successful) failed w') as [Hf' Hs'].
        split; congruence.
      * destruct (IH successful (S failed) w') as [Hf' Hs'].
        split; congruence.
      * split; assumption.
Qed.

Lemma count_true_cons b l :
  count_true (b :: l) = (if b then 1 else 0) + count_true l.
Proof. unfold count_true. simpl. destruct b; reflexivity. Qed.

Lemma count_false_cons b l :
  count_false (b :: l) = (if b then 0 else 1) + count_false l.
Proof. unfold count_false. simpl. destruct b; reflexivity. Qed.

Lemma count_true_false l : count_true l + count_false l = length l.
Proof.
  induction l as [|b l IH]; [reflexivity|].
  rewrite count_true_cons, count_false_cons. simpl length.
  destruct b; lia.
Qed.

Lemma verdicts_length s users : forall k, length (verdicts s k users) = length users.
Proof.
  induction users as [|user rest IH]; intros k; simpl; [reflexivity|].
  destruct (has_account_id user); simpl; now rewrite IH.
Qed.

Lemma counts_eq (a a' b b' : nat) (w : world) :
  a = a' -> b = b' ->
  (Ret (a, b), w) = (@Ret (nat * nat) (a', b'), w).
Proof. now intros -> ->. Qed.

(** Over records, when no call crashes, the loop returns: every record
    with an account id is sent for deletion, in order, and each record
    adds one to the counter its verdict names. *)
Lemma delete_loop_verdicts s users :
  delete_never_crashes s ->
  forall successful failed w,
    exists w',
      delete_loop s (map VDict users) successful failed w
      = (Ret (successful
                + count_true (verdicts s (length (delete_log w)) users),
              failed
                + count_false (verdicts s (length (delete_log w)) users)),
         w')
      /\ delete_log w' = delete_log w ++ attempted_ids users.
Proof.
  intros Hsafe.
  induction users as [|user rest IH]; intros successful failed w.
  - exists w. simpl. unfold count_true, count_false, attempted_ids. simpl.
    rewrite !Nat.add_0_r, app_nil_r. split; reflexivity.
  - cbn [map delete_loop verdicts]. unfold attempted_ids. cbn [List.filter].
    unfold has_account_id at 1 2 3.
    destruct (truthy (py_get user "accountId")) eqn:Hid; cbn [negb].
    + rewrite bind_unfold. unfold delete_user.
      pose proof (Hsafe (length (delete_log w)) (py_get user "accountId"))
        as Hreply.
      destruct (session_delete s (length (delete_log w))
                  (py_get user "accountId")) as [resp|[msg|class]];
        [|
         |exfalso; now apply (Hreply class)].
      * cbn [is_204].
        destruct (status_code resp =? 204)%Z;
          [ destruct (IH (S successful) failed
                        (print (MsgDeleted
                                  (py_get_default user "displayName"
                                     (VStr "Unknown")))
                           (log_delete (py_get user "accountId") w)))
              as (w' & Hrun & Hlog)
          | destruct (IH successful (S failed)
                        (print (MsgDeleteFailed
                                  (py_get_default user "displayName"
                                     (VStr "Unknown"))
                                  (status_code resp) (text resp))
                           (log_delete (py_get user "accountId") w)))
              as (w' & Hrun & Hlog) ];
          cbn [delete_log print log_delete] in Hrun, Hlog;
          rewrite length_app in Hrun; cbn [length] in Hrun;
          replace (length (delete_log w) + 1) with (S (length (delete_log w)))
            in Hrun by lia;
          exists w'; rewrite Hrun, count_true_cons, count_false_cons;
          (split; [apply counts_eq; lia|]);
          rewrite Hlog; cbn [map]; rewrite <- app_assoc; reflexivity.
      * cbn [is_204].
        destruct (IH successful (S failed)
                    (print (MsgDeleteError
                              (py_get_default user "displayName"
                                 (VStr "Unknown"))
                              (RequestException msg))
                       (log_delete (py_get user "accountId") w)))
          as (w' & Hrun & Hlog).
        cbn [delete_log print log_delete] in Hrun, Hlog.
        rewrite length_app in Hrun. cbn [length] in Hrun.
        replace (length (delete_log w) + 1) with (S (length (delete_log w)))
          in Hrun by lia.
        exists w'. rewrite Hrun, count_true_cons, count_false_cons.
        split; [apply counts_eq; lia|].
        rewrite Hlog. cbn [map]. rewrite <- app_assoc. reflexivity.
    + rewrite bind_unfold, put_eq.
      destruct (IH successful (S failed)
                  (print (MsgSkipping
                            (py_get_default user "displayName"
                               (VStr "Unknown"))) w))
        as (w' & Hrun & Hlog).
      cbn [delete_log print] in Hrun, Hlog.
      exists w'. rewrite Hrun, count_true_cons, count_false_cons.
      split; [apply counts_eq; lia | exact Hlog].
Qed.

Ltac run_puts := repeat (rewrite bind_unfold, put_eq; cbv beta iota).

(** What happens before the first question: printing only. *)
Lemma announce_console_only (users : list value) w :
  console_only w
    (snd ((put (MsgFoundToDelete (length users)) ;;;
           put MsgPreviewHeader ;;;
           preview 1 (firstn 10 users) ;;;
           (if (10 <? length users)%nat
            then put (MsgAndMore (length users - 10))
            else ret tt) ;;;
           put MsgWarning) w)).
Proof.
  run_puts. rewrite bind_unfold.
  pose proof (preview_console_only (firstn 10 users) 1
                (print MsgPreviewHeader
                   (print (MsgFoundToDelete (length users)) w))) as Hprev.
  destruct (preview 1 (firstn 10 users) _) as [[[]|e] w1]; cbn [snd] in *.
  - rewrite bind_unfold.
    destruct (10 <? length users)%nat; rewrite ?put_eq; cbn [ret snd];
      repeat (eapply console_only_trans; [|apply console_only_print]);
      exact Hprev.
  - exact Hprev.
Qed.

Lemma announce_records (users : list dict) w :
  fst ((put (MsgFoundToDelete (length (map VDict users))) ;;;
        put MsgPreviewHeader ;;;
        preview 1 (firstn 10 (map VDict users)) ;;;
        (if (10 <? length (map VDict users))%nat
         then put (MsgAndMore (length (map VDict users) - 10))
         else ret tt) ;;;
        put MsgWarning) w) = Ret tt.
Proof.
  run_puts. rewrite bind_unfold.
  rewrite List.firstn_map.
  pose proof (preview_records (firstn 10 users) 1
                (print MsgPreviewHeader
                   (print (MsgFoundToDelete (length (map VDict users))) w)))
    as Hprev.
  destruct (preview 1 (map VDict (firstn 10 users)) _) as [[[]|e] w1];
    cbn [fst] in Hprev; [|discriminate].
  rewrite bind_unfold.
  destruct (10 <? length (map VDict users))%nat; reflexivity.
Qed.

(** The batch is the announcement followed by the two questions. *)
Lemma confirm_and_delete_split s users w :
  confirm_and_delete s users w
  = ((put (MsgFoundToDelete (length users)) ;;;
      put MsgPreviewHeader ;;;
      preview 1 (firstn 10 users) ;;;
      (if (10 <? length users)%nat
       then put (MsgAndMore (length users - 10))
       else ret tt) ;;;
      put MsgWarning) ;;;
     confirm <- input PromptConfirm ;;
     if negb (String.eqb (strip confirm) "DELETE") then put MsgCancelled
     else
       final_confirm <- input (PromptFinal (length users)) ;;
       if negb (String.eqb (lower (strip final_confirm)) "y")
       then put MsgCancelled
       else
         put MsgStarting ;;;
         counts <- delete_loop s users 0 0 ;;
         put (MsgSummary (fst counts) (snd counts) (length users))) w.
Proof.
  unfold confirm_and_delete. symmetry.
  do 4 (rewrite bind_assoc; apply bind_ext; intros ? ?).
  reflexivity.
Qed.

(** Whatever the file holds and whatever is typed: no file is written,
    and a [DELETE] call is sent only after the two confirmations. *)
Lemma confirm_and_delete_gates s users w :
  files (snd (confirm_and_delete s users w)) = files w
  /\ (delete_log (snd (confirm_and_delete s users w)) = delete_log w
      \/ exists line1 line2 rest,
           stdin w = line1 :: line2 :: rest
           /\ strip line1 = "DELETE" /\ lower (strip line2) = "y").
Proof.
  rewrite confirm_and_delete_split, bind_unfold.
  pose proof (announce_console_only users w) as Hann.
  destruct ((put (MsgFoundToDelete (length users)) ;;; _) w)
    as [[[]|e] w1]; cbn [snd] in Hann;
    destruct Hann as (Hfiles & Hstdin & _ & Hlog & _);
    [|cbn [snd]; split; [exact Hfiles | left; exact Hlog]].
  rewrite bind_unfold.
  destruct (stdin w) as [|line1 rest1] eqn:Hin;
    [rewrite (input_eof _ _ Hstdin); cbn [snd];
     split; [exact Hfiles | left; exact Hlog]|].
  rewrite (input_line _ _ _ _ Hstdin). cbv beta iota.
  destruct (String.eqb_spec (strip line1) "DELETE") as [E1|NE1]; cbn [negb];
    [|rewrite put_eq; cbn [snd]; split; [exact Hfiles | left; exact Hlog]].
  rewrite bind_unfold.
  destruct rest1 as [|line2 rest];
    [rewrite input_eof by reflexivity; cbn [snd];
     split; [exact Hfiles | left; exact Hlog]|].
  rewrite (input_line _ _ line2 rest) by reflexivity. cbv beta iota.
  destruct (String.eqb_spec (lower (strip line2)) "y") as [E2|NE2];
    cbn [negb];
    [|rewrite put_eq; cbn [snd]; split; [exact Hfiles | left; exact Hlog]].
  split; [|right; now exists line1, line2, rest].
  run_puts. rewrite bind_unfold.
  match goal with
  | |- context [delete_loop s users 0 0 ?w0] =>
      pose proof (delete_loop_same_files s users 0 0 w0) as [Hloop _];
      destruct (delete_loop s users 0 0 w0) as [[counts|e] w2]
  end; cbn [snd] in *; rewrite ?put_eq; cbn [snd files print];
    rewrite Hloop; exact Hfiles.
Qed.

(** Over records, with a service that does not crash and an operator who
    confirms twice, the batch runs to its summary. *)
Lemma confirm_and_delete_confirmed s users w line1 line2 rest :
  delete_never_crashes s ->
  stdin w = line1 :: line2 :: rest ->
  strip line1 = "DELETE" -> lower (strip line2) = "y" ->
  exists out w',
    confirm_and_delete s (map VDict users) w = (Ret tt, w')
    /\ stdout w'
       = out ++ [MsgSummary
                   (count_true (verdicts s (length (delete_log w)) users))
                   (count_false (verdicts s (length (delete_log w)) users))
                   (length users)]
    /\ delete_log w' = delete_log w ++ attempted_ids users.
Proof.
  intros Hsafe Hin E1 E2.
  rewrite confirm_and_delete_split, bind_unfold.
  pose proof (announce_console_only (map VDict users) w) as Hann.
  pose proof (announce_records users w) as Hret.
  destruct ((put (MsgFoundToDelete (length (map VDict users))) ;;; _) w)
    as [[[]|e] w1]; cbn [fst snd] in Hann, Hret; [|discriminate].
  destruct Hann as (Hfiles & Hstdin & _ & Hlog & _).
  rewrite Hin in Hstdin.
  rewrite bind_unfold, (input_line _ _ _ _ Hstdin). cbv beta iota.
  rewrite E1. change (negb ("DELETE" =? "DELETE")%string) with false.
  cbv iota.
  rewrite bind_unfold, (input_line _ _ line2 rest) by reflexivity.
  cbv beta iota.
  rewrite E2. change (negb ("y" =? "y")%string) with false. cbv iota.
  run_puts. rewrite bind_unfold.
  match goal with
  | |- context [delete_loop s (map VDict users) 0 0 ?w0] =>
      destruct (delete_loop_verdicts s users Hsafe 0 0 w0)
        as (w2 & Hrun & Hlog2);
      rewrite Hrun; cbn [delete_log print set_stdin] in Hrun, Hlog2
  end.
  rewrite put_eq. cbn [fst snd].
  exists (stdout w2), (print
    (MsgSummary (0 + count_true (verdicts s (length (delete_log w1)) users))
       (0 + count_false (verdicts s (length (delete_log w1)) users))
       (length (map VDict users))) w2).
  cbn [set_stdin print delete_log stdout].
  rewrite length_map, Hlog. cbn [Nat.add].
  repeat split. rewrite Hlog2, Hlog. reflexivity.
Qed.

Lemma delete_users_from_file_gates s filename w :
  files (snd (delete_users_from_file s filename w)) = files w
  /\ (delete_log (snd (delete_users_from_file s filename w)) = delete_log w
      \/ exists line1 line2 rest,
           stdin w = line1 :: line2 :: rest
           /\ strip line1 = "DELETE" /\ lower (strip line2) = "y").
Proof.
  unfold delete_users_from_file.
  destruct (files w !! filename) as [content|];
    [|split; [reflexivity | left; reflexivity]].
  destruct (json_loads content) as [[| | | | |]|];
    try (split; [reflexivity | left; reflexivity]);
    apply confirm_and_delete_gates.
Qed.

(** C2 as stated fails: answers that differ from the literals ([DELETE]
    with blanks around it, a capital [Y]) let the batch go on. *)
Lemma other_answers_pass_the_gates :
  ~ (forall s filename w line1 line2 rest,
       stdin w = line1 :: line2 :: rest ->
       line1 <> "DELETE" \/ line2 <> "y" ->
       delete_log (snd (delete_users_from_file s filename w)) = delete_log w).
Proof.
  intros Hclaim.
  specialize (Hclaim test_session default_filename
                (saved_world two_users ["  DELETE "; "Y"])
                "  DELETE " "Y" [] eq_refl).
  assert (Hsent :
    delete_log (snd (delete_users_from_file test_session default_filename
                       (saved_world two_users ["  DELETE "; "Y"])))
    = [VStr "2"; VStr "4"]) by (vm_compute; reflexivity).
  rewrite Hsent in Hclaim.
  discriminate Hclaim. left. discriminate.
Qed.

(** C2, amended: [delete_users_from_file] writes no file, and it sends a
    [DELETE] call only when the first answer, once stripped of the white
    space around it, is [DELETE] and the second one, once stripped and put
    in lower case, is [y]; with any other answers no call is sent. *)
Theorem deletes_only_after_both_confirmations s filename w :
  let w' := snd (delete_users_from_file s filename w) in
  files w' = files w
  /\ (delete_log w' <> delete_log w ->
      exists line1 line2 rest,
        stdin w = line1 :: line2 :: rest
        /\ strip line1 = "DELETE" /\ lower (strip line2) = "y").
Proof.
  cbv zeta. destruct (delete_users_from_file_gates s filename w)
    as [Hfiles [Hlog|Hgates]].
  - split; [exact Hfiles | intros Hne; contradiction].
  - split; [exact Hfiles | intros _; exact Hgates].
Qed.

Lemma deletes_only_after_both_confirmations_witness :
  exists line1 line2 rest,
    stdin (saved_world two_users ["DELETE"; "y"]) = line1 :: line2 :: rest
    /\ strip line1 = "DELETE" /\ lower (strip line2) = "y".
Proof.
  apply (deletes_only_after_both_confirmations test_session default_filename
           (saved_world two_users ["DELETE"; "y"])).
  vm_compute. discriminate.
Defined.

(** Typing anything but [DELETE] first: no call, as the test of the
    specification asks. *)
Example wrong_first_answer_deletes_nothing :
  delete_log (snd (delete_users_from_file test_session default_filename
                     (saved_world two_users ["delete"; "y"]))) = []
  /\ delete_log (snd (delete_users_from_file test_session default_filename
                        (saved_world two_users ["DELETE"; "yes"]))) = [].
Proof. split; vm_compute; reflexivity. Qed.

(** C6: when the file holds [n] records, the operator confirms twice and
    no call crashes, the batch returns after printing, last, a summary whose
    counts are the numbers of records deleted and of records skipped or not
    deleted, so that successes + failures = [n] = total; every record with
    an account id was sent for deletion, in order, whatever happened to the
    records before it.  In the scenario of two records answered 204 and 400
    the summary is 1, 1, 2. *)
Theorem deletion_summary_counts_every_record :
  (forall s filename w content users line1 line2 rest,
     delete_never_crashes s ->
     files w !! filename = Some content ->
     json_loads content = Some (VList (map VDict users)) ->
     stdin w = line1 :: line2 :: rest ->
     strip line1 = "DELETE" -> lower (strip line2) = "y" ->
     exists out successful failed w',
       delete_users_from_file s filename w = (Ret tt, w')
       /\ stdout w' = out ++ [MsgSummary successful failed (length users)]
       /\ successful = count_true (verdicts s (length (delete_log w)) users)
       /\ failed = count_false (verdicts s (length (delete_log w)) users)
       /\ successful + failed = length users
       /\ delete_log w' = delete_log w ++ attempted_ids users)
  /\ (exists out w',
        delete_users_from_file test_session default_filename
          (saved_world two_users ["DELETE"; "y"]) = (Ret tt, w')
        /\ stdout w' = out ++ [MsgSummary 1 1 2]
        /\ delete_log w' = [VStr "2"; VStr "4"]).
Proof.
  split.
  - intros s filename w content users line1 line2 rest
      Hsafe Hfile Hload Hin E1 E2.
    destruct (confirm_and_delete_confirmed s users w line1 line2 rest
                Hsafe Hin E1 E2) as (out & w' & Hrun & Hout & Hlog).
    exists out, (count_true (verdicts s (length (delete_log w)) users)),
      (count_false (verdicts s (length (delete_log w)) users)), w'.
    unfold delete_users_from_file. rewrite Hfile, Hload.
    repeat split; trivial.
    rewrite count_true_false. apply verdicts_length.
  - exists (List.removelast
              (stdout (snd (delete_users_from_file test_session
                              default_filename
                              (saved_world two_users ["DELETE"; "y"]))))),
      (snd (delete_users_from_file test_session default_filename
              (saved_world two_users ["DELETE"; "y"]))).
    split; [|split]; vm_compute; reflexivity.
Qed.

Lemma deletion_summary_counts_every_record_witness :
  exists out successful failed w',
    delete_users_from_file test_session default_filename
      (saved_world two_users ["DELETE"; "y"]) = (Ret tt, w')
    /\ stdout w' = out ++ [MsgSummary successful failed (length two_users)]
    /\ successful = count_true (verdicts test_session 0 two_users)
    /\ failed = count_false (verdicts test_session 0 two_users)
    /\ successful + failed = length two_users
    /\ delete_log w' = [] ++ attempted_ids two_users.
Proof.
  apply (proj1 deletion_summary_counts_every_record
           test_session default_filename
           (saved_world two_users ["DELETE"; "y"])
           (json_dumps (VList (map VDict two_users)))
           two_users "DELETE" "y" []).
  - intros [|n] account_id class; discriminate.
  - reflexivity.
  - vm_compute. reflexivity.
  - reflexivity.
  - reflexivity.
  - reflexivity.
Defined.

(** C8: a record without [accountId], wherever it stands in the batch, is
    passed over once the records before it are done: a line is printed, no
    [DELETE] call is sent, the failure counter goes up by one, and the loop
    goes on with the records after it. *)
Theorem record_without_account_id_is_skipped user :
  dict_get user "accountId" = None ->
  forall s before after successful failed w,
    delete_loop s (before ++ VDict user :: after) successful failed w
    = (counts <- delete_loop s before successful failed ;;
       put (MsgSkipping (py_get_default user "displayName" (VStr "Unknown"))) ;;;
       delete_loop s after (fst counts) (S (snd counts))) w
    /\ delete_loop s [VDict user] successful failed w
       = (Ret (successful, S failed),
          print (MsgSkipping
                   (py_get_default user "displayName" (VStr "Unknown"))) w)
    /\ delete_log
         (print (MsgSkipping
                   (py_get_default user "displayName" (VStr "Unknown"))) w)
       = delete_log w.
Proof.
  intros Hnone s before after successful failed w.
  assert (Hid : negb (truthy (py_get user "accountId")) = true).
  { unfold py_get, py_get_default. now rewrite Hnone. }
  split; [|split].
  - rewrite delete_loop_app. apply bind_ext. intros counts w'.
    cbn [delete_loop]. now rewrite Hid.
  - cbn [delete_loop]. now rewrite Hid.
  - reflexivity.
Qed.

Lemma record_without_account_id_is_skipped_witness :
  delete_loop test_session
    (map VDict two_users ++ VDict user_without_id :: map VDict two_users)
    0 0 empty_world
  = (counts <- delete_loop test_session (map VDict two_users) 0 0 ;;
     put (MsgSkipping
            (py_get_default user_without_id "displayName" (VStr "Unknown"))) ;;;
     delete_loop test_session (map VDict two_users)
       (fst counts) (S (snd counts))) empty_world
  /\ delete_loop test_session [VDict user_without_id] 0 0 empty_world
     = (Ret (0, 1),
        print (MsgSkipping
                 (py_get_default user_without_id "displayName"
                    (VStr "Unknown"))) empty_world)
  /\ delete_log
       (print (MsgSkipping
                 (py_get_default user_without_id "displayName"
                    (VStr "Unknown"))) empty_world)
     = delete_log empty_world.
Proof.
  apply (record_without_account_id_is_skipped user_without_id).
  reflexivity.
Defined.

(** A batch of three records, the second one without an id: two calls,
    for the first and the third, and two failures in the summary. *)
Example batch_with_a_record_without_id :
  let w := snd (delete_users_from_file test_session default_filename
                  (saved_world
                     [project inactive_user; user_without_id;
                      project active_user]
                     ["DELETE"; "y"])) in
  delete_log w = [VStr "2"; VStr "1"]
  /\ List.last (stdout w) MsgMenu = MsgSummary 1 2 3.
Proof. split; vm_compute; reflexivity. Qed.

(** ** The fetch option of the menu *)

Lemma fetch_listing_ends s pages n users fuel w :
  listing_ends s pages n users -> n < fuel ->
  exists w',
    fetch_non_active_users fuel s w = Some (Ret users, w')
    /\ same_outside_fetch w w'.
Proof.
  intros [Hfull [(Hlast & Hshort & ->) | (Hfail & ->)]] Hfuel.
  - destruct (fetch_short_page_run s pages n fuel w Hfull Hlast Hshort Hfuel)
      as (w' & Hrun & _ & Hsame).
    eauto.
  - destruct (fetch_failing_run s pages n fuel w Hfull Hfail Hfuel)
      as (w' & Hrun & _ & Hsame).
    eauto.
Qed.

(** The file after the removal of lines 258-263. *)
Lemma remove_existing_file env filename w :
  fst (remove_existing env filename w) = Ret tt
  /\ files (snd (remove_existing env filename w)) !! filename
     = match os_remove env filename with
       | None => None
       | Some _ => files w !! filename
       end.
Proof.
  unfold remove_existing.
  destruct (files w !! filename) as [old|] eqn:Hold.
  - destruct (os_remove env filename) as [e|]; cbn [fst snd files print].
    + split; [reflexivity | exact Hold].
    + split; [reflexivity|]. cbn [set_files files].
      apply lookup_delete_eq.
  - cbn [fst snd]. split; [reflexivity|].
    rewrite Hold. now destruct (os_remove env filename).
Qed.

Lemma open_file_for_review_same_files env filename w :
  files (snd (open_file_for_review env filename w)) = files w.
Proof.
  unfold open_file_for_review, run_viewer.
  repeat match goal with
         | |- context [if ?b then _ else _] => destruct b
         | |- context [subprocess_run ?e ?c] => destruct (subprocess_run e c)
         end; reflexivity.
Qed.

(** What the fetch option leaves in the file. *)
Lemma fetch_option_file fuel s env w pages n users :
  listing_ends s pages n users -> n < fuel ->
  exists result w',
    fetch_option fuel s env w = Some (result, w')
    /\ files w' !! default_filename
       = match users with
         | _ :: _ => Some (saved_text users)
         | [] =>
             match os_remove env default_filename with
             | None => None
             | Some _ => files w !! default_filename
             end
         end.
Proof.
  intros Hends Hfuel. unfold fetch_option.
  destruct (remove_existing_file env default_filename w) as [Hret Hfile].
  destruct (remove_existing env default_filename w) as [r w1].
  cbn [fst snd] in Hret, Hfile. subst r.
  destruct (fetch_listing_ends s pages n users fuel w1 Hends Hfuel)
    as (w2 & Hrun & Hsame).
  rewrite Hrun. destruct Hsame as (Hfiles & _).
  destruct users as [|user rest].
  - rewrite put_eq. do 2 eexists. split; [reflexivity|].
    cbn [snd files print]. now rewrite Hfiles.
  - rewrite bind_unfold. unfold save_users_to_file. cbv beta iota zeta.
    rewrite bind_unfold.
    match goal with
    | |- context [input PromptOpen ?w0] =>
        assert (Hsaved : files w0 !! default_filename
                         = Some (saved_text (user :: rest)))
          by (cbn [files print set_files]; apply lookup_insert_eq);
        assert (Hin : files (snd (input PromptOpen w0)) = files w0)
          by (unfold input; destruct (stdin _); reflexivity);
        destruct (input PromptOpen w0) as [[answer|e] w3]
    end; cbn [snd] in Hin.
    + destruct (yes_by_default (lower (strip answer))).
      * pose proof (open_file_for_review_same_files env default_filename w3)
          as Hopen.
        destruct (open_file_for_review env default_filename w3) as [r4 w4].
        cbn [snd] in Hopen. exists r4, w4. split; [reflexivity|].
        rewrite Hopen, Hin. exact Hsaved.
      * exists (Ret tt), w3. split; [reflexivity|].
        rewrite Hin. exact Hsaved.
    + exists (Raise e), w3. split; [reflexivity|]. rewrite Hin. exact Hsaved.
Qed.

(** C9 as stated fails: when the fetch accumulates nothing, nothing is
    saved, and the file removed beforehand is not there afterwards. *)
Lemma empty_fetch_leaves_no_file :
  ~ (forall fuel s env w pages n users line rest result w',
       stdin w = line :: rest -> strip line = "1" ->
       listing_ends s pages n users -> n < fuel ->
       menu_round fuel s env w = Some (result, w') ->
       files w' !! default_filename = Some (saved_text users)).
Proof.
  intros Hclaim.
  assert (Hends : listing_ends quiet_session (fun _ => []) 0 []).
  { split; [intros i Hi; lia|]. left.
    split; [exists ""; reflexivity|]. split; [simpl; lia | reflexivity]. }
  specialize (Hclaim 1 quiet_session linux_env (saved_world two_users ["1"])
                (fun _ => []) 0 [] "1" [] _ _
                eq_refl eq_refl Hends (Nat.lt_0_succ 0) eq_refl).
  vm_compute in Hclaim. discriminate Hclaim.
Qed.

(** C9, amended: when the operator selects the fetch option and the
    listing ends, a file [non_active_users.json] that exists is removed
    first (a failure to remove it is only reported), then the fetch runs;
    when it has accumulated at least one inactive user the list is saved and
    the file afterwards holds exactly that list; when it has accumulated
    none nothing is written, so that no file is left, or the old one where
    it could not be removed. *)
Theorem fetch_option_saves_a_non_empty_list
    fuel s env w pages n users line rest :
  stdin w = line :: rest -> strip line = "1" ->
  listing_ends s pages n users -> n < fuel ->
  exists result w',
    menu_round fuel s env w = Some (result, w')
    /\ files w' !! default_filename
       = match users with
         | _ :: _ => Some (saved_text users)
         | [] =>
             match os_remove env default_filename with
             | None => None
             | Some _ => files w !! default_filename
             end
         end.
Proof.
  intros Hin Hchoice Hends Hfuel. unfold menu_round.
  rewrite bind_unfold, put_eq. cbv beta iota.
  rewrite (input_line _ _ line rest) by exact Hin.
  rewrite Hchoice. change ("1" =? "1")%string with true. cbv iota.
  match goal with
  | |- context [fetch_option fuel s env ?w1] =>
      destruct (fetch_option_file fuel s env w1 pages n users Hends Hfuel)
        as (result & w' & Hrun & Hfile)
  end.
  rewrite Hrun. cbn [files set_stdin print] in Hfile.
  destruct result as [[]|e]; do 2 eexists; (split; [reflexivity|]);
    exact Hfile.
Qed.

Lemma fetch_option_saves_a_non_empty_list_witness :
  exists result w',
    menu_round 1 test_session linux_env
      (saved_world two_users ["1"; "n"]) = Some (result, w')
    /\ files w' !! default_filename
       = match map project (List.filter is_inactive (listing test_pages 1))
         with
         | _ :: _ =>
             Some (saved_text
                     (map project
                        (List.filter is_inactive (listing test_pages 1))))
         | [] =>
             match os_remove linux_env default_filename with
             | None => None
             | Some _ =>
                 files (saved_world two_users ["1"; "n"]) !! default_filename
             end
         end.
Proof.
  apply (fetch_option_saves_a_non_empty_list 1 test_session linux_env
           (saved_world two_users ["1"; "n"]) test_pages 0
           (map project (List.filter is_inactive (listing test_pages 1)))
           "1" ["n"]).
  - reflexivity.
  - reflexivity.
  - split; [intros i Hi; lia|]. left.
    split; [exists ""; reflexivity|]. split; [simpl; lia | reflexivity].
  - lia.
Defined.

(** The same round, run: the file that held two users holds the one
    inactive user of the listing. *)
Example fetch_option_test_scenario :
  exists w',
    menu_round 1 test_session linux_env (saved_world two_users ["1"; "n"])
    = Some (Ret true, w')
    /\ files w' !! default_filename = Some (saved_text [inactive_user])
    /\ get_log w' = [(0%Z, 50%Z)].
Proof. eexists. split; [|split]; vm_compute; reflexivity. Qed.

(** ** The round trip through [json.dump] and [json.load] *)

Lemma append_cons (x : ascii) (a b : string) :
  String x a +:+ b = String x (a +:+ b).
Proof. reflexivity. Qed.

Lemma append_nil_l (b : string) : "" +:+ b = b.
Proof. reflexivity. Qed.

Lemma append_assoc (a b c : string) : (a +:+ b) +:+ c = a +:+ (b +:+ c).
Proof.
  induction a as [|x a IH]; [reflexivity|].
  rewrite !append_cons. now rewrite IH.
Qed.

Lemma append_nil_r (a : string) : a +:+ "" = a.
Proof.
  induction a as [|x a IH]; [reflexivity|].
  rewrite append_cons. now rewrite IH.
Qed.

Lemma length_append (a b : string) :
  String.length (a +:+ b) = String.length a + String.length b.
Proof.
  induction a as [|x a IH]; [reflexivity|].
  rewrite append_cons. cbn [String.length]. now rewrite IH.
Qed.

(** Scanning the escape of a character gives the character back. *)
Lemma scanstring_unfold s : scanstring s = scanstring_step scanstring s.
Proof. destruct s; reflexivity. Qed.

Lemma scanstring_step_escape_char scan c t :
  scanstring_step scan (escape_char c +:+ t) = prepend c (scan t).
Proof.
  destruct c as [[] [] [] [] [] [] [] []]; vm_compute; reflexivity.
Qed.

Lemma scanstring_escape_char c t :
  scanstring (escape_char c +:+ t) = prepend c (scanstring t).
Proof. rewrite scanstring_unfold. apply scanstring_step_escape_char. Qed.

Lemma scanstring_escape_chars s rest :
  scanstring (escape_chars s +:+ String chr_quote rest) = Some (s, rest).
Proof.
  induction s as [|c s IH]; [reflexivity|].
  cbn [escape_chars]. rewrite append_assoc, scanstring_escape_char, IH.
  reflexivity.
Qed.

(** A string literal is read back, from the character after its opening
    quote. *)
Lemma scanstring_encode_string s rest :
  exists text,
    encode_string s +:+ rest = String chr_quote text
    /\ scanstring text = Some (s, rest).
Proof.
  exists (escape_chars s +:+ String chr_quote rest). split.
  - unfold encode_string. rewrite append_cons. now rewrite append_assoc.
  - apply scanstring_escape_chars.
Qed.

(** *** Integers *)

Lemma terminated_no_digit rest : terminated rest -> no_digit_ahead rest.
Proof.
  destruct rest as [|c r]; [trivial|]. simpl. intros [-> | ->]; reflexivity.
Qed.

Lemma terminated_no_float rest : terminated rest -> float_follows rest = false.
Proof.
  destruct rest as [|c [|d r]]; try reflexivity.
  simpl. intros [-> | ->]; reflexivity.
Qed.

Lemma scan_digits_no_digit rest :
  no_digit_ahead rest -> scan_digits rest = (Decimal.Nil, rest).
Proof.
  destruct rest as [|c r]; [reflexivity|]. simpl. unfold is_digit.
  now destruct (digit_of c).
Qed.

(** The digits [string_of_uint] writes are the digits [scan_digits]
    reads. *)
Lemma scan_digits_string_of_uint d rest :
  no_digit_ahead rest ->
  scan_digits (DecimalString.NilEmpty.string_of_uint d +:+ rest) = (d, rest).
Proof.
  intros Hrest.
  induction d as [|d IH|d IH|d IH|d IH|d IH|d IH|d IH|d IH|d IH|d IH];
    cbn [DecimalString.NilEmpty.string_of_uint];
    [ now apply scan_digits_no_digit | .. ];
    rewrite append_cons; cbn [scan_digits]; rewrite IH; reflexivity.
Qed.

(** The decimal digits of a positive number do not start with 0. *)
Lemma to_uint_head p : forall d, Pos.to_uint p <> Decimal.D0 d.
Proof.
  intros d Hd.
  assert (Hnorm : Decimal.unorm (Pos.to_uint p) = Pos.to_uint p).
  { rewrite <- (DecimalPos.Unsigned.to_of (Pos.to_uint p)).
    now rewrite DecimalPos.Unsigned.of_to. }
  rewrite Hd in Hnorm. unfold Decimal.unorm in Hnorm.
  cbn [Decimal.nzhead] in Hnorm.
  destruct (Decimal.nzhead d) eqn:Hhead; try discriminate.
  - injection Hnorm as <-.
    now apply (DecimalPos.Unsigned.to_uint_nonzero p).
  - exact (DecimalFacts.nzhead_nonzero d _ Hhead).
Qed.

Lemma scan_natural_to_uint p rest :
  no_digit_ahead rest ->
  scan_natural (DecimalString.NilZero.string_of_uint (Pos.to_uint p) +:+ rest)
  = Some (Pos.to_uint p, rest).
Proof.
  intros Hrest.
  pose proof (to_uint_head p) as Hhead.
  pose proof (scan_digits_string_of_uint (Pos.to_uint p) rest Hrest) as Hscan.
  pose proof (DecimalPos.Unsigned.to_uint_nonnil p) as Hnil.
  destruct (Pos.to_uint p) as [|d|d|d|d|d|d|d|d|d|d];
    [ contradiction | now elim (Hhead d) | .. ];
    cbn [DecimalString.NilZero.string_of_uint
           DecimalString.NilEmpty.string_of_uint] in *;
    rewrite append_cons in *; unfold scan_natural;
    match goal with
    | |- context [Ascii.eqb ?c "0"] =>
        change (Ascii.eqb c "0") with false;
        change (is_digit c) with true
    end; cbv iota; rewrite Hscan; reflexivity.
Qed.

Lemma string_of_uint_head p :
  exists c t,
    DecimalString.NilZero.string_of_uint (Pos.to_uint p) = String c t
    /\ is_digit c = true.
Proof.
  pose proof (DecimalPos.Unsigned.to_uint_nonnil p) as Hnil.
  destruct (Pos.to_uint p); [contradiction|..];
    cbn [DecimalString.NilZero.string_of_uint
           DecimalString.NilEmpty.string_of_uint];
    do 2 eexists; split; reflexivity.
Qed.

(** The text of an integer starts like a number and is read back. *)
Lemma scan_number_string_of_int n rest :
  terminated rest ->
  scan_number (DecimalString.NilZero.string_of_int (Z.to_int n) +:+ rest)
  = Some (n, rest).
Proof.
  intros Hrest.
  pose proof (terminated_no_digit rest Hrest) as Hdigit.
  pose proof (terminated_no_float rest Hrest) as Hfloat.
  rewrite <- (DecimalZ.of_to n) at 2.
  destruct n as [|p|p]; cbn [Z.to_int DecimalString.NilZero.string_of_int].
  - change (DecimalString.NilZero.string_of_uint (Decimal.D0 Decimal.Nil))
      with "0".
    rewrite append_cons, append_nil_l. unfold scan_number, scan_natural.
    change (Ascii.eqb "0" "-") with false.
    change (Ascii.eqb "0" "0") with true. cbv iota.
    now rewrite Hfloat.
  - pose proof (scan_natural_to_uint p rest Hdigit) as Hscan.
    destruct (string_of_uint_head p) as (c & t & Htext & Hc).
    rewrite Htext in *. rewrite append_cons in *. unfold scan_number.
    assert (Hminus : Ascii.eqb c "-" = false).
    { destruct (Ascii.eqb_spec c "-") as [-> |]; [discriminate | reflexivity]. }
    rewrite Hminus, Hscan. now rewrite Hfloat.
  - rewrite append_cons. unfold scan_number.
    change (Ascii.eqb "-" "-") with true. cbv iota.
    rewrite (scan_natural_to_uint p rest Hdigit). now rewrite Hfloat.
Qed.

Lemma string_of_int_head n :
  exists c t,
    DecimalString.NilZero.string_of_int (Z.to_int n) = String c t
    /\ number_head c = true.
Proof.
  destruct n as [|p|p]; cbn [Z.to_int DecimalString.NilZero.string_of_int].
  - do 2 eexists. split; reflexivity.
  - destruct (string_of_uint_head p) as (c & t & -> & Hc).
    exists c, t. split; [reflexivity|]. unfold number_head. now rewrite Hc.
  - do 2 eexists. split; reflexivity.
Qed.

(** A character a number starts with is none of the characters another
    value starts with, nor white space, nor a closing bracket. *)
Lemma number_head_other c :
  number_head c = true ->
  Ascii.eqb c chr_quote = false /\ Ascii.eqb c "{" = false
  /\ Ascii.eqb c "[" = false /\ Ascii.eqb c "n" = false
  /\ Ascii.eqb c "t" = false /\ Ascii.eqb c "f" = false
  /\ is_json_ws c = false /\ Ascii.eqb c "]" = false.
Proof.
  destruct c as [[] [] [] [] [] [] [] []]; intros H;
    first [ discriminate H | repeat split; reflexivity ].
Qed.

(** *** White space and the first character of a value *)

Lemma skip_ws_head c t : is_json_ws c = false -> skip_ws (String c t) = String c t.
Proof. intros H. cbn [skip_ws]. now rewrite H. Qed.

Lemma skip_ws_spaces k s : skip_ws (spaces k +:+ s) = skip_ws s.
Proof.
  induction k as [|k IH]; [reflexivity|].
  cbn [spaces]. rewrite !append_cons. cbn [skip_ws].
  change (is_json_ws " ") with true. cbv iota. exact IH.
Qed.

Lemma skip_ws_newline_indent k s : skip_ws (newline_indent k +:+ s) = skip_ws s.
Proof.
  unfold newline_indent. rewrite append_cons. cbn [skip_ws].
  change (is_json_ws chr_newline) with true. cbv iota.
  apply skip_ws_spaces.
Qed.

Lemma terminated_newline_indent k s : terminated (newline_indent k +:+ s).
Proof. unfold newline_indent. rewrite append_cons. simpl. now right. Qed.

Lemma terminated_comma s : terminated ("," +:+ s).
Proof. rewrite append_cons. simpl. now left. Qed.

Lemma encode_list_cons lvl x l :
  encode lvl (VList (x :: l))
  = "[" +:+ newline_indent (S lvl)
    +:+ join_items (S lvl) (map (encode (S lvl)) (x :: l))
    +:+ newline_indent lvl +:+ "]".
Proof. reflexivity. Qed.

Lemma encode_dict_cons lvl kv d :
  encode lvl (VDict (kv :: d))
  = "{" +:+ newline_indent (S lvl)
    +:+ join_items (S lvl) (map (member_text (S lvl)) (kv :: d))
    +:+ newline_indent lvl +:+ "}".
Proof. reflexivity. Qed.

(** The text of a value starts with a character that is neither white
    space nor a closing bracket. *)
Lemma encode_head lvl v :
  exists c t,
    encode lvl v = String c t
    /\ is_json_ws c = false /\ Ascii.eqb c "]" = false.
Proof.
  destruct v as [|[|]|n|s|[|x l]|[|kv d]];
    try (do 2 eexists; split; [reflexivity | split; reflexivity]).
  - cbn [encode]. destruct (string_of_int_head n) as (c & t & -> & Hc).
    exists c, t. split; [reflexivity|].
    now destruct (number_head_other c Hc) as (_ & _ & _ & _ & _ & _ & ? & ?).
Qed.

Lemma join_items_cons lvl x y l :
  join_items lvl (x :: y :: l)
  = x +:+ "," +:+ newline_indent lvl +:+ join_items lvl (y :: l).
Proof. reflexivity. Qed.

(** So do the items of a list. *)
Lemma join_items_head lvl x l rest :
  exists c t,
    join_items lvl (map (encode lvl) (x :: l)) +:+ rest = String c t
    /\ is_json_ws c = false /\ Ascii.eqb c "]" = false.
Proof.
  destruct (encode_head lvl x) as (c & t & Hx & Hws & Hclose).
  destruct l as [|y l]; cbn [map].
  - cbn [join_items]. rewrite Hx, append_cons. eauto.
  - rewrite join_items_cons, Hx, !append_cons. eauto.
Qed.

(** *** Lists and dictionaries *)

Ltac take_branch :=
  repeat match goal with
         | |- context [if true then ?a else ?b] =>
             change (if true then a else b) with a
         | |- context [if false then ?a else ?b] =>
             change (if false then a else b) with b
         end.

Lemma scan_array_S fuel s values :
  scan_array (S fuel) s values
  = match scan_once fuel s with
    | Some (v, rest) =>
        match skip_ws rest with
        | String c r =>
            if Ascii.eqb c "]" then Some (VList (values ++ [v]), r)
            else if Ascii.eqb c ","
            then scan_array fuel (skip_ws r) (values ++ [v])
            else None
        | EmptyString => None
        end
    | None => None
    end.
Proof. reflexivity. Qed.

Lemma scan_object_S fuel s pairs :
  scan_object (S fuel) s pairs
  = match scanstring s with
    | Some (key, rest) =>
        match skip_ws rest with
        | String c r =>
            if Ascii.eqb c ":" then
              match scan_once fuel (skip_ws r) with
              | Some (v, rest') =>
                  match skip_ws rest' with
                  | String c' r' =>
                      if Ascii.eqb c' "}"
                      then Some (VDict (dict_of_pairs (pairs ++ [(key, v)])),
                                 r')
                      else if Ascii.eqb c' "," then
                        match skip_ws r' with
                        | String q r'' =>
                            if Ascii.eqb q chr_quote
                            then scan_object fuel r'' (pairs ++ [(key, v)])
                            else None
                        | EmptyString => None
                        end
                      else None
                  | EmptyString => None
                  end
              | None => None
              end
            else None
        | EmptyString => None
        end
    | None => None
    end.
Proof. reflexivity. Qed.

Lemma scan_once_list fuel s :
  scan_once (S fuel) (String "[" s)
  = match skip_ws s with
    | String c1 s1 =>
        if Ascii.eqb c1 "]" then Some (VList [], s1)
        else scan_array fuel (String c1 s1) []
    | EmptyString => None
    end.
Proof. reflexivity. Qed.

Lemma scan_once_dict fuel s :
  scan_once (S fuel) (String "{" s)
  = match skip_ws s with
    | String c1 s1 =>
        if Ascii.eqb c1 "}" then Some (VDict [], s1)
        else if Ascii.eqb c1 chr_quote then scan_object fuel s1 []
        else None
    | EmptyString => None
    end.
Proof. reflexivity. Qed.

Lemma scan_once_string fuel s :
  scan_once (S fuel) (String chr_quote s)
  = match scanstring s with
    | Some (str, rest) => Some (VStr str, rest)
    | None => None
    end.
Proof. reflexivity. Qed.

Lemma scan_once_number fuel c s :
  number_head c = true ->
  scan_once (S fuel) (String c s)
  = match scan_number (String c s) with
    | Some (n, rest) => Some (VInt n, rest)
    | None => None
    end.
Proof.
  intros Hc.
  destruct (number_head_other c Hc)
    as (H1 & H2 & H3 & H4 & H5 & H6 & _ & _).
  cbn [scan_once]. now rewrite H1, H2, H3, H4, H5, H6.
Qed.

(** The items of a list, each one read back, are read back together, from
    the first item to the closing bracket. *)
Lemma scan_array_items lvl k rest :
  forall items item acc fuel,
    Forall reads_back (item :: items) ->
    forallb well_formed (item :: items) = true ->
    list_sum (map (fun x => S (size x)) (item :: items)) <= fuel ->
    scan_array fuel
      (join_items k (map (encode k) (item :: items))
       +:+ newline_indent lvl +:+ "]" +:+ rest) acc
    = Some (VList (acc ++ item :: items), rest).
Proof.
  induction items as [|next items IH]; intros item acc fuel Hread Hwf Hfuel;
    inversion Hread as [|? ? Hitem Hothers]; subst;
    cbn [forallb] in Hwf; apply andb_true_iff in Hwf as [Hwf_item Hwf_others];
    unfold list_sum in *; cbn [map fold_right] in Hfuel;
    (destruct fuel as [|fuel]; [lia|]); rewrite scan_array_S;
    assert (Hsize : size item <= fuel) by lia.
  - cbn [map join_items].
    rewrite (Hitem k fuel _ Hsize Hwf_item
               (terminated_newline_indent lvl _)).
    rewrite skip_ws_newline_indent, append_cons, skip_ws_head by reflexivity.
    change (Ascii.eqb "]" "]") with true. cbv iota. reflexivity.
  - cbn [map]. rewrite join_items_cons, !append_assoc.
    change (encode k next :: map (encode k) items)
      with (map (encode k) (next :: items)).
    rewrite (Hitem k fuel _ Hsize Hwf_item (terminated_comma _)).
    rewrite append_cons, skip_ws_head by reflexivity.
    change (Ascii.eqb "," "]") with false.
    change (Ascii.eqb "," ",") with true. cbv iota.
    rewrite append_nil_l, skip_ws_newline_indent.
    destruct (join_items_head k next items
                (newline_indent lvl +:+ "]" +:+ rest))
      as (c & t & Htext & Hws & _).
    rewrite Htext, skip_ws_head by exact Hws. rewrite <- Htext.
    rewrite (IH next (acc ++ [item]) fuel Hothers Hwf_others).
    + now rewrite <- app_assoc.
    + cbn [map fold_right]. lia.
Qed.

Lemma member_text_split k key v rest :
  member_text k (key, v) +:+ rest
  = String chr_quote
      (escape_chars key
       +:+ String chr_quote (String ":" (String " " (encode k v +:+ rest)))).
Proof.
  unfold member_text, encode_string. cbn [fst snd].
  rewrite !append_assoc, append_cons, append_assoc. reflexivity.
Qed.

Lemma join_members_split k member members rest :
  exists text,
    join_items k (map (member_text k) (member :: members)) +:+ rest
    = String chr_quote text.
Proof.
  destruct member as [key v]. destruct members as [|next members]; cbn [map].
  - cbn [join_items]. rewrite member_text_split. eauto.
  - rewrite join_items_cons, append_assoc, member_text_split. eauto.
Qed.

Lemma string_cons_inj c (a b : string) : String c a = String c b -> a = b.
Proof. now intros [= ->]. Qed.

(** The members of a dictionary, each value read back, are read back
    together, from the first key to the closing brace. *)
Lemma scan_object_members lvl k rest :
  forall members member pairs fuel text,
    Forall (fun kv => reads_back (snd kv)) (member :: members) ->
    forallb (fun kv => well_formed (snd kv)) (member :: members) = true ->
    list_sum (map (fun kv => S (size (snd kv))) (member :: members)) <= fuel ->
    join_items k (map (member_text k) (member :: members))
    +:+ newline_indent lvl +:+ "}" +:+ rest = String chr_quote text ->
    scan_object fuel text pairs
    = Some (VDict (dict_of_pairs (pairs ++ member :: members)), rest).
Proof.
  induction members as [|next members IH];
    intros [key v] pairs fuel text Hread Hwf Hfuel Htext;
    inversion Hread as [|? ? Hitem Hothers]; subst;
    cbn [forallb snd] in Hwf, Hitem;
    apply andb_true_iff in Hwf as [Hwf_item Hwf_others];
    unfold list_sum in *; cbn [map fold_right snd] in Hfuel;
    (destruct fuel as [|fuel]; [lia|]); rewrite scan_object_S;
    assert (Hsize : size v <= fuel) by lia;
    destruct (encode_head k v) as (c & t & Hhead & Hws & _).
  - cbn [map join_items] in Htext. rewrite member_text_split in Htext.
    apply string_cons_inj in Htext. subst text.
    rewrite scanstring_escape_chars, skip_ws_head by reflexivity.
    change (Ascii.eqb ":" ":") with true. take_branch.
    cbn [skip_ws]. change (is_json_ws " ") with true. take_branch.
    rewrite Hhead, append_cons, skip_ws_head by exact Hws.
    rewrite <- append_cons, <- Hhead.
    rewrite (Hitem k fuel _ Hsize Hwf_item (terminated_newline_indent lvl _)).
    rewrite skip_ws_newline_indent, append_cons, skip_ws_head by reflexivity.
    change (Ascii.eqb "}" "}") with true. take_branch. reflexivity.
  - cbn [map] in Htext. rewrite join_items_cons, !append_assoc in Htext.
    change (member_text k next :: map (member_text k) members)
      with (map (member_text k) (next :: members)) in Htext.
    rewrite member_text_split in Htext. apply string_cons_inj in Htext. subst text.
    rewrite scanstring_escape_chars, skip_ws_head by reflexivity.
    change (Ascii.eqb ":" ":") with true. take_branch.
    cbn [skip_ws]. change (is_json_ws " ") with true. take_branch.
    rewrite Hhead, append_cons, skip_ws_head by exact Hws.
    rewrite <- append_cons, <- Hhead.
    rewrite (Hitem k fuel _ Hsize Hwf_item (terminated_comma _)).
    rewrite append_cons, skip_ws_head by reflexivity.
    change (Ascii.eqb "," "}") with false.
    change (Ascii.eqb "," ",") with true. take_branch.
    rewrite append_nil_l, skip_ws_newline_indent.
    destruct (join_members_split k next members
                (newline_indent lvl +:+ "}" +:+ rest)) as (text' & Htext').
    change (member_text k next :: map (member_text k) members)
      with (map (member_text k) (next :: members)).
    rewrite Htext', skip_ws_head by reflexivity.
    change (Ascii.eqb chr_quote chr_quote) with true. take_branch.
    rewrite (IH next (pairs ++ [(key, v)]) fuel text' Hothers Hwf_others).
    + now rewrite <- app_assoc.
    + cbn [map fold_right]. lia.
    + exact Htext'.
Qed.

(** *** Dictionaries keep their members *)

Lemma existsb_eqb_In k keys :
  existsb (String.eqb k) keys = true <-> In k keys.
Proof.
  rewrite existsb_exists. split.
  - intros (k' & Hin & Heq). apply String.eqb_eq in Heq. now subst.
  - intros Hin. exists k. split; [exact Hin | apply String.eqb_refl].
Qed.

Lemma distinct_NoDup keys : distinct keys = true <-> List.NoDup keys.
Proof.
  induction keys as [|k keys IH]; cbn [distinct].
  - split; [constructor | reflexivity].
  - rewrite andb_true_iff, negb_true_iff, IH. split.
    + intros [Hfresh Hrest]. constructor; [|exact Hrest].
      intros Hin. apply existsb_eqb_In in Hin. congruence.
    + intros Hnodup. inversion Hnodup as [|? ? Hfresh Hrest]; subst.
      split; [|exact Hrest].
      destruct (existsb (String.eqb k) keys) eqn:E; [|reflexivity].
      apply existsb_eqb_In in E. contradiction.
Qed.

(** Setting a key that is not there adds it at the end. *)
Lemma dict_set_fresh d k v :
  ~ In k (map fst d) -> dict_set d k v = d ++ [(k, v)].
Proof.
  induction d as [|[k' v'] d IH]; intros Hfresh; [reflexivity|].
  cbn [dict_set app]. cbn [map fst In] in Hfresh.
  destruct (String.eqb_spec k' k) as [-> | Hne]; [tauto|].
  rewrite IH by tauto. reflexivity.
Qed.

Lemma dict_of_pairs_app acc pairs :
  List.NoDup (map fst (acc ++ pairs)) ->
  fold_left (fun d kv => dict_set d (fst kv) (snd kv)) pairs acc
  = acc ++ pairs.
Proof.
  revert acc. induction pairs as [|[k v] pairs IH]; intros acc Hnodup.
  - now rewrite app_nil_r.
  - cbn [fold_left fst snd].
    rewrite dict_set_fresh.
    + rewrite IH; rewrite <- app_assoc; [reflexivity | exact Hnodup].
    + rewrite map_app in Hnodup. cbn [map fst] in Hnodup.
      apply List.NoDup_remove_2 in Hnodup.
      intros Hin. apply Hnodup. apply in_or_app. now left.
Qed.

(** Building a dictionary from members with distinct keys keeps them as
    they are. *)
Lemma dict_of_pairs_distinct d :
  distinct (map fst d) = true -> dict_of_pairs d = d.
Proof.
  intros Hdistinct. unfold dict_of_pairs.
  apply (dict_of_pairs_app [] d). now apply distinct_NoDup.
Qed.

(** *** Every value is read back from its text *)

Theorem scan_once_encode v : reads_back v.
Proof.
  induction v as [| b | n | s | l IH | d IH] using value_induction;
    intros lvl fuel rest Hfuel Hwf Hrest;
    (destruct fuel as [|fuel];
     [destruct l || destruct d || idtac; cbn [size] in Hfuel; lia |]).
  - reflexivity.
  - destruct b; reflexivity.
  - cbn [encode].
    destruct (string_of_int_head n) as (c & t & Htext & Hc).
    rewrite Htext, append_cons, (scan_once_number fuel c _ Hc).
    rewrite <- append_cons, <- Htext.
    now rewrite (scan_number_string_of_int n rest Hrest).
  - cbn [encode].
    destruct (scanstring_encode_string s rest) as (text & -> & Hscan).
    now rewrite scan_once_string, Hscan.
  - destruct l as [|x l]; [reflexivity|].
    rewrite encode_list_cons, !append_assoc, append_cons, append_nil_l.
    rewrite scan_once_list, skip_ws_newline_indent.
    destruct (join_items_head (S lvl) x l
                (newline_indent lvl +:+ "]" +:+ rest))
      as (c & t & Htext & Hws & Hclose).
    rewrite Htext, skip_ws_head, Hclose by exact Hws. rewrite <- Htext.
    cbn [well_formed] in Hwf. cbn [size] in Hfuel.
    rewrite (scan_array_items lvl (S lvl) rest l x [] fuel IH Hwf);
      [reflexivity | lia].
  - destruct d as [|kv d]; [reflexivity|].
    rewrite encode_dict_cons, !append_assoc, append_cons, append_nil_l.
    rewrite scan_once_dict, skip_ws_newline_indent.
    destruct (join_members_split (S lvl) kv d
                (newline_indent lvl +:+ "}" +:+ rest)) as (text & Htext).
    rewrite Htext, skip_ws_head by reflexivity.
    change (Ascii.eqb chr_quote "}") with false.
    change (Ascii.eqb chr_quote chr_quote) with true. take_branch.
    cbn [well_formed] in Hwf. apply andb_true_iff in Hwf as [Hkeys Hwf].
    cbn [size] in Hfuel.
    rewrite (scan_object_members lvl (S lvl) rest d kv [] fuel text IH Hwf);
      [|lia | exact Htext].
    cbn [app]. now rewrite dict_of_pairs_distinct.
Qed.

(** *** The fuel [json_loads] gives is enough *)

Lemma newline_indent_length k : 1 <= String.length (newline_indent k).
Proof. unfold newline_indent. cbn [String.length]. lia. Qed.

Lemma join_items_length k texts :
  list_sum (map (fun t => S (String.length t)) texts)
  <= S (String.length (join_items k texts)).
Proof.
  unfold list_sum.
  induction texts as [|x [|y texts] IH].
  - cbn. lia.
  - cbn [map fold_right join_items]. lia.
  - rewrite join_items_cons, !length_append.
    pose proof (newline_indent_length k).
    cbn [map fold_right String.length] in *. lia.
Qed.

Lemma list_sum_map_le {A} (f g : A -> nat) l :
  Forall (fun x => f x <= g x) l ->
  list_sum (map f l) <= list_sum (map g l).
Proof.
  unfold list_sum.
  induction 1 as [|x l Hx _ IH]; cbn [map fold_right]; lia.
Qed.

Lemma size_le_length v : forall lvl, size v <= String.length (encode lvl v).
Proof.
  induction v as [| b | n | s | l IH | d IH] using value_induction;
    intros lvl.
  - cbn. lia.
  - destruct b; cbn; lia.
  - cbn [encode size].
    destruct (string_of_int_head n) as (c & t & -> & _).
    cbn [String.length]. lia.
  - cbn [encode size]. unfold encode_string. cbn [String.length]. lia.
  - destruct l as [|x l]; [cbn; lia|].
    rewrite encode_list_cons, !length_append. cbn [size].
    pose proof (newline_indent_length (S lvl)).
    pose proof (newline_indent_length lvl).
    pose proof (join_items_length (S lvl) (map (encode (S lvl)) (x :: l)))
      as Hjoin.
    rewrite map_map in Hjoin.
    pose proof (list_sum_map_le (fun x => S (size x))
                  (fun x => S (String.length (encode (S lvl) x))) (x :: l))
      as Hsum.
    assert (Hle : list_sum (map (fun x => S (size x)) (x :: l))
                  <= list_sum
                       (map (fun x => S (String.length (encode (S lvl) x)))
                          (x :: l))).
    { apply Hsum. eapply Forall_impl; [exact IH|].
      intros y Hy. cbv beta. specialize (Hy (S lvl)). lia. }
    cbn [String.length]. lia.
  - destruct d as [|kv d]; [cbn; lia|].
    rewrite encode_dict_cons, !length_append. cbn [size].
    pose proof (newline_indent_length (S lvl)).
    pose proof (newline_indent_length lvl).
    pose proof (join_items_length (S lvl)
                  (map (member_text (S lvl)) (kv :: d))) as Hjoin.
    rewrite map_map in Hjoin.
    assert (Hle : list_sum (map (fun kv => S (size (snd kv))) (kv :: d))
                  <= list_sum
                       (map (fun kv =>
                               S (String.length (member_text (S lvl) kv)))
                          (kv :: d))).
    { apply list_sum_map_le. eapply Forall_impl; [exact IH|].
      intros y Hy. cbv beta in *. specialize (Hy (S lvl)).
      unfold member_text. rewrite !length_append. lia. }
    cbn [String.length]. lia.
Qed.

(** [json.loads(json.dumps(v, indent=2))] is [v]. *)
Theorem json_loads_dumps v :
  well_formed v = true -> json_loads (json_dumps v) = Some v.
Proof.
  intros Hwf. unfold json_loads, json_dumps.
  destruct (encode_head 0 v) as (c & t & Htext & Hws & _).
  rewrite Htext at 2. rewrite skip_ws_head by exact Hws. rewrite <- Htext.
  rewrite <- (append_nil_r (encode 0 v)) at 2.
  rewrite (scan_once_encode v 0 _ "" ); trivial.
  - pose proof (size_le_length v 0). lia.
  - exact I.
Qed.

(** ** The round trip with strings of any code point *)

(** Linear arithmetic with divisions by constants. *)
Ltac div_lia := zify; Z.to_euclidean_division_equations; lia.

Lemma hex_value_hex_digit k :
  k < 16 -> hex_value (hex_digit k) = Some k.
Proof.
  intros Hk. do 16 (destruct k as [|k]; [reflexivity|]). lia.
Qed.

(** The four digits of a number below 0x10000 are read back as it. *)
Lemma hex4_read n t :
  (n < 0x10000)%N ->
  exists h1 h2 h3 h4,
    hex4 n +:+ t = String h1 (String h2 (String h3 (String h4 t)))
    /\ hex4_value h1 h2 h3 h4 = Some n.
Proof.
  intros Hn. unfold hex4. do 4 eexists. split; [reflexivity|].
  unfold hex4_value.
  assert (H1 : (n / 4096 < 16)%N) by (apply N.Div0.div_lt_upper_bound; lia).
  assert (H2 : ((n / 256) mod 16 < 16)%N) by (apply N.mod_lt; lia).
  assert (H3 : ((n / 16) mod 16 < 16)%N) by (apply N.mod_lt; lia).
  assert (H4 : (n mod 16 < 16)%N) by (apply N.mod_lt; lia).
  rewrite !hex_value_hex_digit by lia.
  f_equal. div_lia.
Qed.

(** A number below 1024 fills the ten low bits that a shift leaves
    empty. *)
Lemma lor_shiftl_low a b :
  (b < 1024)%N -> N.lor (N.shiftl a 10) b = (a * 1024 + b)%N.
Proof.
  intros Hb.
  assert (Hland : N.land (N.shiftl a 10) b = 0%N).
  { apply N.bits_inj. intros i. rewrite N.land_spec, N.bits_0.
    destruct (N.lt_ge_cases i 10) as [Hi|Hi].
    - now rewrite N.shiftl_spec_low.
    - rewrite <- (N.mod_small b (2 ^ 10)) by exact Hb.
      rewrite N.mod_pow2_bits_high by exact Hi. apply andb_false_r. }
  rewrite <- N.lxor_lor by exact Hland.
  rewrite <- N.add_nocarry_lxor by exact Hland.
  now rewrite N.shiftl_mul_pow2.
Qed.

(** The surrogates of a code point above U+FFFF. *)
Lemma surrogates_of_code_point c :
  (0x10000 <= c)%N -> (c <= max_code_point)%N ->
  N.lor 0xD800 (N.land (N.shiftr (c - 0x10000) 10) 0x3FF)
  = (0xD800 + (c - 0x10000) / 1024)%N
  /\ N.lor 0xDC00 (N.land (c - 0x10000) 0x3FF)
     = (0xDC00 + (c - 0x10000) mod 1024)%N.
Proof.
  unfold max_code_point. intros Hlow Hhigh.
  change 0x3FF%N with (N.ones 10). rewrite !N.land_ones, N.shiftr_div_pow2.
  change 0xD800%N with (N.shiftl 54 10).
  change 0xDC00%N with (N.shiftl 55 10).
  change (2 ^ 10)%N with 1024%N.
  assert (Hdiv : ((c - 0x10000) / 1024 < 1024)%N)
    by (apply N.Div0.div_lt_upper_bound; lia).
  rewrite (N.mod_small _ _ Hdiv).
  rewrite !lor_shiftl_low by (exact Hdiv || (apply N.mod_lt; lia)).
  split; reflexivity.
Qed.

Lemma join_surrogates_of_code_point c :
  (0x10000 <= c)%N -> (c <= max_code_point)%N ->
  join_surrogates (0xD800 + (c - 0x10000) / 1024)
    (0xDC00 + (c - 0x10000) mod 1024) = c.
Proof.
  unfold max_code_point, join_surrogates. intros Hlow Hhigh.
  replace (0xD800 + (c - 0x10000) / 1024 - 0xD800)%N
    with ((c - 0x10000) / 1024)%N by div_lia.
  replace (0xDC00 + (c - 0x10000) mod 1024 - 0xDC00)%N
    with ((c - 0x10000) mod 1024)%N by div_lia.
  rewrite lor_shiftl_low by (apply N.mod_lt; lia).
  div_lia.
Qed.

Lemma u_scanstring_unfold s :
  u_scanstring s = u_scanstring_step u_scanstring s.
Proof. destruct s; reflexivity. Qed.

(** A character below U+0100 is read back from its escape. *)
Lemma u_scanstring_step_escape_char scan c t :
  u_scanstring_step scan (escape_char c +:+ t) = u_prepend (N_of_ascii c) (scan t).
Proof.
  destruct c as [[] [] [] [] [] [] [] []]; vm_compute; reflexivity.
Qed.

(** Its escape is not that of a low surrogate. *)
Lemma no_low_surrogate_ahead_escape_char c t :
  no_low_surrogate_ahead (escape_char c +:+ t) = true.
Proof.
  destruct c as [[] [] [] [] [] [] [] []]; vm_compute; reflexivity.
Qed.

Lemma u_scanstring_u_escape n t :
  (n < 0x10000)%N ->
  u_scanstring (u_escape n +:+ t)
  = if is_high_surrogate n
    then after_high_surrogate u_scanstring n t
    else u_prepend n (u_scanstring t).
Proof.
  intros Hn. unfold u_escape. rewrite !append_cons.
  destruct (hex4_read n t Hn) as (h1 & h2 & h3 & h4 & -> & Hvalue).
  rewrite u_scanstring_unfold. unfold u_scanstring_step.
  change (Ascii.eqb chr_backslash chr_quote) with false.
  change (Ascii.eqb chr_backslash chr_backslash) with true.
  change (Ascii.eqb "u" "u") with true. take_branch.
  rewrite Hvalue. reflexivity.
Qed.

Lemma no_low_surrogate_ahead_u_escape n t :
  (n < 0x10000)%N ->
  no_low_surrogate_ahead (u_escape n +:+ t) = negb (is_low_surrogate n).
Proof.
  intros Hn. unfold u_escape. rewrite !append_cons.
  destruct (hex4_read n t Hn) as (h1 & h2 & h3 & h4 & -> & Hvalue).
  unfold no_low_surrogate_ahead.
  change (Ascii.eqb chr_backslash chr_backslash) with true.
  change (Ascii.eqb "u" "u") with true. take_branch.
  rewrite Hvalue. reflexivity.
Qed.

(** A high surrogate stands for itself when no low surrogate follows. *)
Lemma after_high_surrogate_alone scan uni r :
  no_low_surrogate_ahead r = true ->
  after_high_surrogate scan uni r = u_prepend uni (scan r).
Proof.
  unfold no_low_surrogate_ahead, after_high_surrogate.
  destruct r as [|b [|u r1]]; try reflexivity;
    destruct (Ascii.eqb b chr_backslash); try reflexivity.
  destruct (Ascii.eqb u "u"); [|reflexivity].
  destruct r1 as [|k1 [|k2 [|k3 [|k4 r2]]]]; try discriminate.
  destruct (hex4_value k1 k2 k3 k4) as [uni2|]; [|discriminate].
  now destruct (is_low_surrogate uni2).
Qed.

(** Scanning the escape of a code point gives the code point back, unless
    it is a high surrogate with a low surrogate after it. *)
Lemma u_scanstring_escape_char c t :
  code_point c = true ->
  (is_high_surrogate c = true -> no_low_surrogate_ahead t = true) ->
  u_scanstring (u_escape_char c +:+ t) = u_prepend c (u_scanstring t).
Proof.
  intros Hc Hahead. apply N.leb_le in Hc. unfold u_escape_char.
  destruct (N.ltb_spec c 0x100) as [Hsmall|Hsmall].
  - rewrite u_scanstring_unfold, u_scanstring_step_escape_char.
    now rewrite N_ascii_embedding.
  - destruct (N.ltb_spec c 0x10000) as [Hbmp|Hbmp].
    + rewrite u_scanstring_u_escape by exact Hbmp.
      destruct (is_high_surrogate c); [|reflexivity].
      now apply after_high_surrogate_alone, Hahead.
    + cbv zeta.
      destruct (surrogates_of_code_point c Hbmp Hc) as [-> ->].
      unfold max_code_point in Hc.
      assert (Hdiv : ((c - 0x10000) / 1024 < 1024)%N) by div_lia.
      assert (Hmod : ((c - 0x10000) mod 1024 < 1024)%N) by div_lia.
      rewrite append_assoc, u_scanstring_u_escape by div_lia.
      assert (Hhigh : is_high_surrogate (0xD800 + (c - 0x10000) / 1024) = true).
      { unfold is_high_surrogate. apply andb_true_iff.
        split; apply N.leb_le; div_lia. }
      rewrite Hhigh. unfold u_escape. rewrite !append_cons.
      destruct (hex4_read (0xDC00 + (c - 0x10000) mod 1024) t)
        as (h1 & h2 & h3 & h4 & -> & Hvalue); [div_lia|].
      unfold after_high_surrogate.
      change (Ascii.eqb chr_backslash chr_backslash) with true.
      change (Ascii.eqb "u" "u") with true. take_branch.
      rewrite Hvalue.
      assert (Hlow : is_low_surrogate (0xDC00 + (c - 0x10000) mod 1024) = true).
      { unfold is_low_surrogate. apply andb_true_iff.
        split; apply N.leb_le; div_lia. }
      rewrite Hlow.
      now rewrite (join_surrogates_of_code_point c Hbmp Hc).
Qed.

(** The escape of a code point that is no low surrogate does not look like
    one. *)
Lemma no_low_surrogate_ahead_u_escape_char c t :
  code_point c = true -> is_low_surrogate c = false ->
  no_low_surrogate_ahead (u_escape_char c +:+ t) = true.
Proof.
  intros Hc Hlow. apply N.leb_le in Hc. unfold u_escape_char.
  destruct (N.ltb_spec c 0x100) as [Hsmall|Hsmall];
    [apply no_low_surrogate_ahead_escape_char|].
  destruct (N.ltb_spec c 0x10000) as [Hbmp|Hbmp].
  - rewrite no_low_surrogate_ahead_u_escape by exact Hbmp. now rewrite Hlow.
  - cbv zeta. destruct (surrogates_of_code_point c Hbmp Hc) as [-> _].
    unfold max_code_point in Hc.
    assert (Hdiv : ((c - 0x10000) / 1024 < 1024)%N) by div_lia.
    rewrite append_assoc, no_low_surrogate_ahead_u_escape by div_lia.
    unfold is_low_surrogate. apply negb_true_iff, andb_false_iff. left.
    apply N.leb_gt. div_lia.
Qed.

(** A string without surrogate pairs is read back from its escapes. *)
Lemma u_scanstring_escape_chars s rest :
  forallb code_point s = true -> no_surrogate_pair s = true ->
  u_scanstring (u_escape_chars s +:+ String chr_quote rest) = Some (s, rest).
Proof.
  induction s as [|c s IH]; intros Hpoints Hpairs; [reflexivity|].
  cbn [forallb] in Hpoints. apply andb_true_iff in Hpoints as [Hc Hpoints].
  cbn [no_surrogate_pair] in Hpairs.
  apply andb_true_iff in Hpairs as [Hpair Hpairs].
  cbn [u_escape_chars]. rewrite append_assoc.
  rewrite u_scanstring_escape_char, (IH Hpoints Hpairs); [reflexivity | exact Hc |].
  intros Hhigh. destruct s as [|d s]; [reflexivity|].
  cbn [forallb] in Hpoints. apply andb_true_iff in Hpoints as [Hd _].
  cbn [u_escape_chars]. rewrite append_assoc.
  apply no_low_surrogate_ahead_u_escape_char; [exact Hd|].
  rewrite Hhigh in Hpair. now apply negb_true_iff in Hpair.
Qed.

Lemma u_scanstring_encode_string s rest :
  forallb code_point s = true -> no_surrogate_pair s = true ->
  exists text,
    u_encode_string s +:+ rest = String chr_quote text
    /\ u_scanstring text = Some (s, rest).
Proof.
  intros Hpoints Hpairs.
  exists (u_escape_chars s +:+ String chr_quote rest). split.
  - unfold u_encode_string. rewrite append_cons. now rewrite append_assoc.
  - now apply u_scanstring_escape_chars.
Qed.

(** *** Lists and dictionaries *)

Lemma u_encode_list_cons lvl x l :
  u_encode lvl (UList (x :: l))
  = "[" +:+ newline_indent (S lvl)
    +:+ join_items (S lvl) (map (u_encode (S lvl)) (x :: l))
    +:+ newline_indent lvl +:+ "]".
Proof. reflexivity. Qed.

Lemma u_encode_dict_cons lvl kv d :
  u_encode lvl (UDict (kv :: d))
  = "{" +:+ newline_indent (S lvl)
    +:+ join_items (S lvl) (map (u_member_text (S lvl)) (kv :: d))
    +:+ newline_indent lvl +:+ "}".
Proof. reflexivity. Qed.

Lemma u_encode_head lvl v :
  exists c t,
    u_encode lvl v = String c t
    /\ is_json_ws c = false /\ Ascii.eqb c "]" = false.
Proof.
  destruct v as [|[|]|n|s|[|x l]|[|kv d]];
    try (do 2 eexists; split; [reflexivity | split; reflexivity]).
  - cbn [u_encode]. destruct (string_of_int_head n) as (c & t & -> & Hc).
    exists c, t. split; [reflexivity|].
    now destruct (number_head_other c Hc) as (_ & _ & _ & _ & _ & _ & ? & ?).
Qed.

Lemma u_join_items_head lvl x l rest :
  exists c t,
    join_items lvl (map (u_encode lvl) (x :: l)) +:+ rest = String c t
    /\ is_json_ws c = false /\ Ascii.eqb c "]" = false.
Proof.
  destruct (u_encode_head lvl x) as (c & t & Hx & Hws & Hclose).
  destruct l as [|y l]; cbn [map].
  - cbn [join_items]. rewrite Hx, append_cons. eauto.
  - rewrite join_items_cons, Hx, !append_cons. eauto.
Qed.

Lemma u_scan_array_S fuel s values :
  u_scan_array (S fuel) s values
  = match u_scan_once fuel s with
    | Some (v, rest) =>
        match skip_ws rest with
        | String c r =>
            if Ascii.eqb c "]" then Some (UList (values ++ [v]), r)
            else if Ascii.eqb c ","
            then u_scan_array fuel (skip_ws r) (values ++ [v])
            else None
        | EmptyString => None
        end
    | None => None
    end.
Proof. reflexivity. Qed.

Lemma u_scan_object_S fuel s pairs :
  u_scan_object (S fuel) s pairs
  = match u_scanstring s with
    | Some (key, rest) =>
        match skip_ws rest with
        | String c r =>
            if Ascii.eqb c ":" then
              match u_scan_once fuel (skip_ws r) with
              | Some (v, rest') =>
                  match skip_ws rest' with
                  | String c' r' =>
                      if Ascii.eqb c' "}"
                      then Some (UDict (u_dict_of_pairs (pairs ++ [(key, v)])),
                                 r')
                      else if Ascii.eqb c' "," then
                        match skip_ws r' with
                        | String q r'' =>
                            if Ascii.eqb q chr_quote
                            then u_scan_object fuel r'' (pairs ++ [(key, v)])
                            else None
                        | EmptyString => None
                        end
                      else None
                  | EmptyString => None
                  end
              | None => None
              end
            else None
        | EmptyString => None
        end
    | None => None
    end.
Proof. reflexivity. Qed.

Lemma u_scan_once_list fuel s :
  u_scan_once (S fuel) (String "[" s)
  = match skip_ws s with
    | String c1 s1 =>
        if Ascii.eqb c1 "]" then Some (UList [], s1)
        else u_scan_array fuel (String c1 s1) []
    | EmptyString => None
    end.
Proof. reflexivity. Qed.

Lemma u_scan_once_dict fuel s :
  u_scan_once (S fuel) (String "{" s)
  = match skip_ws s with
    | String c1 s1 =>
        if Ascii.eqb c1 "}" then Some (UDict [], s1)
        else if Ascii.eqb c1 chr_quote then u_scan_object fuel s1 []
        else None
    | EmptyString => None
    end.
Proof. reflexivity. Qed.

Lemma u_scan_once_string fuel s :
  u_scan_once (S fuel) (String chr_quote s)
  = match u_scanstring s with
    | Some (str, rest) => Some (UStr str, rest)
    | None => None
    end.
Proof. reflexivity. Qed.

Lemma u_scan_once_number fuel c s :
  number_head c = true ->
  u_scan_once (S fuel) (String c s)
  = match scan_number (String c s) with
    | Some (n, rest) => Some (UInt n, rest)
    | None => None
    end.
Proof.
  intros Hc.
  destruct (number_head_other c Hc)
    as (H1 & H2 & H3 & H4 & H5 & H6 & _ & _).
  cbn [u_scan_once]. now rewrite H1, H2, H3, H4, H5, H6.
Qed.

(** The items of a list are read back together, and so are the members of
    a dictionary. *)
Lemma u_scan_array_items lvl k rest :
  forall items item acc fuel,
    Forall u_reads_back (item :: items) ->
    forallb u_well_formed (item :: items) = true ->
    forallb pair_free (item :: items) = true ->
    list_sum (map (fun x => S (u_size x)) (item :: items)) <= fuel ->
    u_scan_array fuel
      (join_items k (map (u_encode k) (item :: items))
       +:+ newline_indent lvl +:+ "]" +:+ rest) acc
    = Some (UList (acc ++ item :: items), rest).
Proof.
  induction items as [|next items IH];
    intros item acc fuel Hread Hwf Hfree Hfuel;
    inversion Hread as [|? ? Hitem Hothers]; subst;
    cbn [forallb] in Hwf; apply andb_true_iff in Hwf as [Hwf_item Hwf_others];
    cbn [forallb] in Hfree;
    apply andb_true_iff in Hfree as [Hfree_item Hfree_others];
    unfold list_sum in *; cbn [map fold_right] in Hfuel;
    (destruct fuel as [|fuel]; [lia|]); rewrite u_scan_array_S;
    assert (Hsize : u_size item <= fuel) by lia.
  - cbn [map join_items].
    rewrite (Hitem k fuel _ Hsize Hwf_item Hfree_item
               (terminated_newline_indent lvl _)).
    rewrite skip_ws_newline_indent, append_cons, skip_ws_head by reflexivity.
    change (Ascii.eqb "]" "]") with true. cbv iota. reflexivity.
  - cbn [map]. rewrite join_items_cons, !append_assoc.
    change (u_encode k next :: map (u_encode k) items)
      with (map (u_encode k) (next :: items)).
    rewrite (Hitem k fuel _ Hsize Hwf_item Hfree_item (terminated_comma _)).
    rewrite append_cons, skip_ws_head by reflexivity.
    change (Ascii.eqb "," "]") with false.
    change (Ascii.eqb "," ",") with true. cbv iota.
    rewrite append_nil_l, skip_ws_newline_indent.
    destruct (u_join_items_head k next items
                (newline_indent lvl +:+ "]" +:+ rest))
      as (c & t & Htext & Hws & _).
    rewrite Htext, skip_ws_head by exact Hws. rewrite <- Htext.
    rewrite (IH next (acc ++ [item]) fuel Hothers Hwf_others Hfree_others).
    + now rewrite <- app_assoc.
    + cbn [map fold_right]. lia.
Qed.

Lemma u_member_text_split k key v rest :
  u_member_text k (key, v) +:+ rest
  = String chr_quote
      (u_escape_chars key
       +:+ String chr_quote (String ":" (String " " (u_encode k v +:+ rest)))).
Proof.
  unfold u_member_text, u_encode_string. cbn [fst snd].
  rewrite !append_assoc, append_cons, append_assoc. reflexivity.
Qed.

Lemma u_join_members_split k member members rest :
  exists text,
    join_items k (map (u_member_text k) (member :: members)) +:+ rest
    = String chr_quote text.
Proof.
  destruct member as [key v]. destruct members as [|next members]; cbn [map].
  - cbn [join_items]. rewrite u_member_text_split. eauto.
  - rewrite join_items_cons, append_assoc, u_member_text_split. eauto.
Qed.

Lemma u_scan_object_members lvl k rest :
  forall members member pairs fuel text,
    Forall (fun kv => u_reads_back (snd kv)) (member :: members) ->
    forallb (fun kv => forallb code_point (fst kv) && u_well_formed (snd kv))
      (member :: members) = true ->
    forallb (fun kv => no_surrogate_pair (fst kv) && pair_free (snd kv))
      (member :: members) = true ->
    list_sum (map (fun kv => S (u_size (snd kv))) (member :: members)) <= fuel ->
    join_items k (map (u_member_text k) (member :: members))
    +:+ newline_indent lvl +:+ "}" +:+ rest = String chr_quote text ->
    u_scan_object fuel text pairs
    = Some (UDict (u_dict_of_pairs (pairs ++ member :: members)), rest).
Proof.
  induction members as [|next members IH];
    intros [key v] pairs fuel text Hread Hwf Hfree Hfuel Htext;
    inversion Hread as [|? ? Hitem Hothers]; subst;
    cbn [forallb fst snd] in Hwf, Hfree, Hitem;
    apply andb_true_iff in Hwf as [Hwf_item Hwf_others];
    apply andb_true_iff in Hwf_item as [Hkey Hwf_item];
    apply andb_true_iff in Hfree as [Hfree_item Hfree_others];
    apply andb_true_iff in Hfree_item as [Hkey_free Hfree_item];
    unfold list_sum in *; cbn [map fold_right snd] in Hfuel;
    (destruct fuel as [|fuel]; [lia|]); rewrite u_scan_object_S;
    assert (Hsize : u_size v <= fuel) by lia;
    destruct (u_encode_head k v) as (c & t & Hhead & Hws & _).
  - cbn [map join_items] in Htext. rewrite u_member_text_split in Htext.
    apply string_cons_inj in Htext. subst text.
    rewrite (u_scanstring_escape_chars key _ Hkey Hkey_free).
    rewrite skip_ws_head by reflexivity.
    change (Ascii.eqb ":" ":") with true. take_branch.
    cbn [skip_ws]. change (is_json_ws " ") with true. take_branch.
    rewrite Hhead, append_cons, skip_ws_head by exact Hws.
    rewrite <- append_cons, <- Hhead.
    rewrite (Hitem k fuel _ Hsize Hwf_item Hfree_item
               (terminated_newline_indent lvl _)).
    rewrite skip_ws_newline_indent, append_cons, skip_ws_head by reflexivity.
    change (Ascii.eqb "}" "}") with true. take_branch. reflexivity.
  - cbn [map] in Htext. rewrite join_items_cons, !append_assoc in Htext.
    change (u_member_text k next :: map (u_member_text k) members)
      with (map (u_member_text k) (next :: members)) in Htext.
    rewrite u_member_text_split in Htext. apply string_cons_inj in Htext. subst text.
    rewrite (u_scanstring_escape_chars key _ Hkey Hkey_free).
    rewrite skip_ws_head by reflexivity.
    change (Ascii.eqb ":" ":") with true. take_branch.
    cbn [skip_ws]. change (is_json_ws " ") with true. take_branch.
    rewrite Hhead, append_cons, skip_ws_head by exact Hws.
    rewrite <- append_cons, <- Hhead.
    rewrite (Hitem k fuel _ Hsize Hwf_item Hfree_item (terminated_comma _)).
    rewrite append_cons, skip_ws_head by reflexivity.
    change (Ascii.eqb "," "}") with false.
    change (Ascii.eqb "," ",") with true. take_branch.
    rewrite append_nil_l, skip_ws_newline_indent.
    destruct (u_join_members_split k next members
                (newline_indent lvl +:+ "}" +:+ rest)) as (text' & Htext').
    change (u_member_text k next :: map (u_member_text k) members)
      with (map (u_member_text k) (next :: members)).
    rewrite Htext', skip_ws_head by reflexivity.
    change (Ascii.eqb chr_quote chr_quote) with true. take_branch.
    rewrite (IH next (pairs ++ [(key, v)]) fuel text' Hothers Hwf_others
               Hfree_others).
    + now rewrite <- app_assoc.
    + cbn [map fold_right]. lia.
    + exact Htext'.
Qed.

(** *** Dictionaries keep their members *)

Lemma ustring_eqb_spec a : forall b, reflect (a = b) (ustring_eqb a b).
Proof.
  induction a as [|x a IH]; intros [|y b]; cbn [ustring_eqb];
    try (constructor; congruence).
  destruct (N.eqb_spec x y) as [-> | Hne]; cbn [andb].
  - destruct (IH b) as [-> | Hne]; constructor; congruence.
  - constructor. congruence.
Qed.

Lemma u_existsb_eqb_In k keys :
  existsb (ustring_eqb k) keys = true <-> In k keys.
Proof.
  rewrite existsb_exists. split.
  - intros (k' & Hin & Heq).
    destruct (ustring_eqb_spec k k'); [now subst | discriminate].
  - intros Hin. exists k. split; [exact Hin|].
    destruct (ustring_eqb_spec k k); [reflexivity | contradiction].
Qed.

Lemma u_distinct_NoDup keys : u_distinct keys = true <-> List.NoDup keys.
Proof.
  induction keys as [|k keys IH]; cbn [u_distinct].
  - split; [constructor | reflexivity].
  - rewrite andb_true_iff, negb_true_iff, IH. split.
    + intros [Hfresh Hrest]. constructor; [|exact Hrest].
      intros Hin. apply u_existsb_eqb_In in Hin. congruence.
    + intros Hnodup. inversion Hnodup as [|? ? Hfresh Hrest]; subst.
      split; [|exact Hrest].
      destruct (existsb (ustring_eqb k) keys) eqn:E; [|reflexivity].
      apply u_existsb_eqb_In in E. contradiction.
Qed.

Lemma u_dict_set_fresh d k v :
  ~ In k (map fst d) -> u_dict_set d k v = d ++ [(k, v)].
Proof.
  induction d as [|[k' v'] d IH]; intros Hfresh; [reflexivity|].
  cbn [u_dict_set app]. cbn [map fst In] in Hfresh.
  destruct (ustring_eqb_spec k' k) as [-> | Hne]; [tauto|].
  rewrite IH by tauto. reflexivity.
Qed.

Lemma u_dict_of_pairs_app acc pairs :
  List.NoDup (map fst (acc ++ pairs)) ->
  fold_left (fun d kv => u_dict_set d (fst kv) (snd kv)) pairs acc
  = acc ++ pairs.
Proof.
  revert acc. induction pairs as [|[k v] pairs IH]; intros acc Hnodup.
  - now rewrite app_nil_r.
  - cbn [fold_left fst snd].
    rewrite u_dict_set_fresh.
    + rewrite IH; rewrite <- app_assoc; [reflexivity | exact Hnodup].
    + rewrite map_app in Hnodup. cbn [map fst] in Hnodup.
      apply List.NoDup_remove_2 in Hnodup.
      intros Hin. apply Hnodup. apply in_or_app. now left.
Qed.

Lemma u_dict_of_pairs_distinct d :
  u_distinct (map fst d) = true -> u_dict_of_pairs d = d.
Proof.
  intros Hdistinct. unfold u_dict_of_pairs.
  apply (u_dict_of_pairs_app [] d). now apply u_distinct_NoDup.
Qed.

(** *** Every value without surrogate pairs is read back from its text *)

Theorem u_scan_once_encode v : u_reads_back v.
Proof.
  induction v as [| b | n | s | l IH | d IH] using uvalue_induction;
    intros lvl fuel rest Hfuel Hwf Hfree Hrest;
    (destruct fuel as [|fuel];
     [destruct l || destruct d || idtac; cbn [u_size] in Hfuel; lia |]).
  - reflexivity.
  - destruct b; reflexivity.
  - cbn [u_encode].
    destruct (string_of_int_head n) as (c & t & Htext & Hc).
    rewrite Htext, append_cons, (u_scan_once_number fuel c _ Hc).
    rewrite <- append_cons, <- Htext.
    now rewrite (scan_number_string_of_int n rest Hrest).
  - cbn [u_encode].
    destruct (u_scanstring_encode_string s rest Hwf Hfree)
      as (text & -> & Hscan).
    now rewrite u_scan_once_string, Hscan.
  - destruct l as [|x l]; [reflexivity|].
    rewrite u_encode_list_cons, !append_assoc, append_cons, append_nil_l.
    rewrite u_scan_once_list, skip_ws_newline_indent.
    destruct (u_join_items_head (S lvl) x l
                (newline_indent lvl +:+ "]" +:+ rest))
      as (c & t & Htext & Hws & Hclose).
    rewrite Htext, skip_ws_head, Hclose by exact Hws. rewrite <- Htext.
    cbn [u_well_formed] in Hwf. cbn [pair_free] in Hfree.
    cbn [u_size] in Hfuel.
    rewrite (u_scan_array_items lvl (S lvl) rest l x [] fuel IH Hwf Hfree);
      [reflexivity | lia].
  - destruct d as [|kv d]; [reflexivity|].
    rewrite u_encode_dict_cons, !append_assoc, append_cons, append_nil_l.
    rewrite u_scan_once_dict, skip_ws_newline_indent.
    destruct (u_join_members_split (S lvl) kv d
                (newline_indent lvl +:+ "}" +:+ rest)) as (text & Htext).
    rewrite Htext, skip_ws_head by reflexivity.
    change (Ascii.eqb chr_quote "}") with false.
    change (Ascii.eqb chr_quote chr_quote) with true. take_branch.
    cbn [u_well_formed] in Hwf. apply andb_true_iff in Hwf as [Hkeys Hwf].
    cbn [pair_free] in Hfree. cbn [u_size] in Hfuel.
    rewrite (u_scan_object_members lvl (S lvl) rest d kv [] fuel text IH Hwf
               Hfree);
      [|lia | exact Htext].
    cbn [app]. now rewrite u_dict_of_pairs_distinct.
Qed.

Lemma u_size_le_length v : forall lvl, u_size v <= String.length (u_encode lvl v).
Proof.
  induction v as [| b | n | s | l IH | d IH] using uvalue_induction;
    intros lvl.
  - cbn. lia.
  - destruct b; cbn; lia.
  - cbn [u_encode u_size].
    destruct (string_of_int_head n) as (c & t & -> & _).
    cbn [String.length]. lia.
  - cbn [u_encode u_size]. unfold u_encode_string. cbn [String.length]. lia.
  - destruct l as [|x l]; [cbn; lia|].
    rewrite u_encode_list_cons, !length_append. cbn [u_size].
    pose proof (newline_indent_length (S lvl)).
    pose proof (newline_indent_length lvl).
    pose proof (join_items_length (S lvl) (map (u_encode (S lvl)) (x :: l)))
      as Hjoin.
    rewrite map_map in Hjoin.
    pose proof (list_sum_map_le (fun x => S (u_size x))
                  (fun x => S (String.length (u_encode (S lvl) x))) (x :: l))
      as Hsum.
    assert (Hle : list_sum (map (fun x => S (u_size x)) (x :: l))
                  <= list_sum
                       (map (fun x => S (String.length (u_encode (S lvl) x)))
                          (x :: l))).
    { apply Hsum. eapply Forall_impl; [exact IH|].
      intros y Hy. cbv beta. specialize (Hy (S lvl)). lia. }
    cbn [String.length]. lia.
  - destruct d as [|kv d]; [cbn; lia|].
    rewrite u_encode_dict_cons, !length_append. cbn [u_size].
    pose proof (newline_indent_length (S lvl)).
    pose proof (newline_indent_length lvl).
    pose proof (join_items_length (S lvl)
                  (map (u_member_text (S lvl)) (kv :: d))) as Hjoin.
    rewrite map_map in Hjoin.
    assert (Hle : list_sum (map (fun kv => S (u_size (snd kv))) (kv :: d))
                  <= list_sum
                       (map (fun kv =>
                               S (String.length (u_member_text (S lvl) kv)))
                          (kv :: d))).
    { apply list_sum_map_le. eapply Forall_impl; [exact IH|].
      intros y Hy. cbv beta in *. specialize (Hy (S lvl)).
      unfold u_member_text. rewrite !length_append. lia. }
    cbn [String.length]. lia.
Qed.

(** [json.loads(json.dumps(v, indent=2))] is [v] when no string of [v] has a
    high surrogate with a low surrogate after it. *)
Theorem u_json_loads_dumps v :
  u_well_formed v = true -> pair_free v = true ->
  u_json_loads (u_json_dumps v) = Some v.
Proof.
  intros Hwf Hfree. unfold u_json_loads, u_json_dumps.
  destruct (u_encode_head 0 v) as (c & t & Htext & Hws & _).
  rewrite Htext at 2. rewrite skip_ws_head by exact Hws. rewrite <- Htext.
  rewrite <- (append_nil_r (u_encode 0 v)) at 2.
  rewrite (u_scan_once_encode v 0 _ "" ); trivial.
  - pose proof (u_size_le_length v 0). lia.
  - exact I.
Qed.

(** ** The strings of [value] among the strings of code points *)

(** On the strings of [value], whose code points are below U+0100, the two
    encoders write the same text. *)
Lemma u_escape_chars_widen s : u_escape_chars (widen_string s) = escape_chars s.
Proof.
  induction s as [|c s IH]; [reflexivity|].
  cbn [widen_string u_escape_chars escape_chars]. rewrite IH.
  unfold u_escape_char.
  destruct (N.ltb_spec (N_of_ascii c) 0x100) as [_|Hc].
  - now rewrite ascii_N_embedding.
  - pose proof (N_ascii_bounded c). lia.
Qed.

Lemma u_encode_widen v : forall lvl, u_encode lvl (widen v) = encode lvl v.
Proof.
  induction v as [| b | n | s | l IH | d IH] using value_induction;
    intros lvl; try reflexivity.
  - cbn [widen u_encode encode]. unfold u_encode_string, encode_string.
    now rewrite u_escape_chars_widen.
  - assert (Hitems : forall k,
              map (u_encode k) (map widen l) = map (encode k) l).
    { intros k. induction IH as [|x l Hx _ IHl]; [reflexivity|].
      cbn [map]. now rewrite Hx, IHl. }
    destruct l as [|x l]; [reflexivity|].
    cbn [widen]. cbn [map u_encode encode]. cbn [map] in Hitems.
    now rewrite <- Hitems.
  - assert (Hmembers : forall k,
              map (fun kv => u_encode_string (fst kv) +:+ ": "
                             +:+ u_encode k (snd kv))
                (map (fun kv => (widen_string (fst kv), widen (snd kv))) d)
              = map (fun kv => encode_string (fst kv) +:+ ": "
                               +:+ encode k (snd kv)) d).
    { intros k. induction IH as [|kv d Hkv _ IHd]; [reflexivity|].
      cbn [map fst snd]. rewrite Hkv, IHd.
      unfold u_encode_string, encode_string.
      now rewrite u_escape_chars_widen. }
    destruct d as [|kv d]; [reflexivity|].
    cbn [widen]. cbn [map u_encode encode]. cbn [map] in Hmembers.
    now rewrite <- Hmembers.
Qed.

(** [save_users_to_file] is [u_save_users_to_file] on the records of
    [value]. *)
Lemma save_users_to_file_widen users filename w :
  save_users_to_file users filename w
  = u_save_users_to_file (map widen_record users) filename w.
Proof.
  unfold save_users_to_file, u_save_users_to_file. cbv zeta.
  rewrite length_map. do 4 f_equal.
  unfold json_dumps, u_json_dumps.
  rewrite <- (u_encode_widen (VList (map VDict users)) 0).
  cbn [widen]. now rewrite !map_map.
Qed.

(** A string of [value] has no surrogate at all. *)
Lemma widen_string_code_points s :
  forallb code_point (widen_string s) = true
  /\ no_surrogate_pair (widen_string s) = true.
Proof.
  induction s as [|c s [IHpoints IHpairs]]; [split; reflexivity|].
  pose proof (N_ascii_bounded c) as Hc.
  cbn [widen_string forallb no_surrogate_pair]. rewrite IHpoints, IHpairs.
  split.
  - rewrite andb_true_r. apply N.leb_le. unfold max_code_point. lia.
  - rewrite andb_true_r. destruct (widen_string s); [reflexivity|].
    apply negb_true_iff, andb_false_iff. left.
    apply andb_false_iff. left. apply N.leb_gt. lia.
Qed.

(** What [json_loads] reads, [u_json_loads] reads as the same value: the
    first is the second kept to the documents whose strings stay below
    U+0100. *)
Lemma hex_value_lt c n : hex_value c = Some n -> n < 16.
Proof.
  unfold hex_value.
  destruct ((48 <=? nat_of_ascii c) && (nat_of_ascii c <=? 57))%nat eqn:E1;
    [apply andb_true_iff in E1 as [_ E1]; apply Nat.leb_le in E1;
     intros [= <-]; lia|].
  destruct ((97 <=? nat_of_ascii c) && (nat_of_ascii c <=? 102))%nat eqn:E2;
    [apply andb_true_iff in E2 as [_ E2]; apply Nat.leb_le in E2;
     intros [= <-]; lia|].
  destruct ((65 <=? nat_of_ascii c) && (nat_of_ascii c <=? 70))%nat eqn:E3;
    [apply andb_true_iff in E3 as [_ E3]; apply Nat.leb_le in E3;
     intros [= <-]; lia|].
  discriminate.
Qed.

Lemma N_of_ascii_of_nat k :
  k < 256 -> N_of_ascii (ascii_of_nat k) = N.of_nat k.
Proof.
  intros Hk. rewrite <- (N2Nat.id (N_of_ascii _)).
  change (N.to_nat (N_of_ascii (ascii_of_nat k)))
    with (nat_of_ascii (ascii_of_nat k)).
  now rewrite nat_ascii_embedding.
Qed.

Lemma decode_uXXXX_hex4_value h1 h2 h3 h4 ch :
  decode_uXXXX h1 h2 h3 h4 = Some ch ->
  hex4_value h1 h2 h3 h4 = Some (N_of_ascii ch)
  /\ is_high_surrogate (N_of_ascii ch) = false.
Proof.
  unfold decode_uXXXX, hex4_value. intros Hdecode. split.
  - destruct (hex_value h1) as [a|]; [|discriminate].
    destruct (hex_value h2) as [b|]; [|discriminate].
    destruct (hex_value h3) as [c|] eqn:E3; [|discriminate].
    destruct (hex_value h4) as [d|] eqn:E4; [|discriminate].
    apply hex_value_lt in E3, E4.
    destruct ((a =? 0) && (b =? 0))%nat eqn:Ezero; [|discriminate].
    apply andb_true_iff in Ezero as [Ea Eb].
    apply Nat.eqb_eq in Ea, Eb. subst a b.
    assert (Hch : ch = ascii_of_nat (16 * c + d)) by congruence.
    rewrite Hch, N_of_ascii_of_nat by lia. do 2 f_equal. lia.
  - pose proof (N_ascii_bounded ch). unfold is_high_surrogate.
    apply andb_false_iff. left. apply N.leb_gt. lia.
Qed.

Lemma scanstring_widen n :
  forall s str r,
    String.length s <= n ->
    scanstring s = Some (str, r) ->
    u_scanstring s = Some (widen_string str, r).
Proof.
  induction n as [|n IH]; intros [|c s'] str r Hlen; try discriminate;
    cbn [String.length] in Hlen; [lia|].
  rewrite scanstring_unfold, u_scanstring_unfold.
  unfold scanstring_step, u_scanstring_step.
  destruct (Ascii.eqb c chr_quote); [intros [= <- <-]; reflexivity|].
  destruct (Ascii.eqb c chr_backslash).
  - destruct s' as [|e s'']; [discriminate|]. cbn [String.length] in Hlen.
    destruct (Ascii.eqb e "u").
    + destruct s'' as [|h1 [|h2 [|h3 [|h4 rest]]]]; try discriminate.
      cbn [String.length] in Hlen.
      destruct (decode_uXXXX h1 h2 h3 h4) as [ch|] eqn:Hdecode; [|discriminate].
      destruct (decode_uXXXX_hex4_value _ _ _ _ _ Hdecode) as [-> ->].
      destruct (scanstring rest) as [[str' r']|] eqn:Hrest; [|discriminate].
      intros [= <- <-]. rewrite (IH rest str' r'); [reflexivity | lia | exact Hrest].
    + destruct (unescape e) as [ch|]; [|discriminate].
      destruct (scanstring s'') as [[str' r']|] eqn:Hrest; [|discriminate].
      intros [= <- <-]. rewrite (IH s'' str' r'); [reflexivity | lia | exact Hrest].
  - destruct (nat_of_ascii c <? 32)%nat; [discriminate|].
    destruct (scanstring s') as [[str' r']|] eqn:Hrest; [|discriminate].
    intros [= <- <-]. rewrite (IH s' str' r'); [reflexivity | lia | exact Hrest].
Qed.

Lemma widen_string_inj a : forall b, widen_string a = widen_string b -> a = b.
Proof.
  induction a as [|x a IH]; intros [|y b] Heq; try discriminate;
    [reflexivity|].
  cbn [widen_string] in Heq. injection Heq as Hhead Htail.
  rewrite <- (ascii_N_embedding x), <- (ascii_N_embedding y), Hhead.
  f_equal. now apply IH.
Qed.

Lemma ustring_eqb_widen a b :
  ustring_eqb (widen_string a) (widen_string b) = String.eqb a b.
Proof.
  destruct (ustring_eqb_spec (widen_string a) (widen_string b)) as [Heq|Hne];
    destruct (String.eqb_spec a b) as [E|NE]; try reflexivity.
  - now apply widen_string_inj in Heq.
  - now subst.
Qed.

Lemma u_dict_set_widen d k v :
  u_dict_set (widen_record d) (widen_string k) (widen v)
  = widen_record (dict_set d k v).
Proof.
  induction d as [|[k' v'] d IH]; [reflexivity|].
  cbn [widen_record map fst snd u_dict_set dict_set].
  rewrite ustring_eqb_widen.
  destruct (String.eqb k' k); [reflexivity|].
  cbn [map fst snd]. f_equal. exact IH.
Qed.

Lemma u_dict_of_pairs_widen pairs :
  u_dict_of_pairs (widen_record pairs) = widen_record (dict_of_pairs pairs).
Proof.
  unfold u_dict_of_pairs, dict_of_pairs.
  change (@nil (list N * uvalue)) with (widen_record []).
  generalize (@nil (string * value)) as acc.
  induction pairs as [|[k v] pairs IH]; intros acc; [reflexivity|].
  cbn [widen_record map fold_left fst snd].
  rewrite u_dict_set_widen. apply IH.
Qed.

Lemma scan_once_S fuel c s' :
  scan_once (S fuel) (String c s')
  = if Ascii.eqb c chr_quote then
      match scanstring s' with
      | Some (str, rest) => Some (VStr str, rest)
      | None => None
      end
    else if Ascii.eqb c "{" then
      match skip_ws s' with
      | String c1 s1 =>
          if Ascii.eqb c1 "}" then Some (VDict [], s1)
          else if Ascii.eqb c1 chr_quote then scan_object fuel s1 []
          else None
      | EmptyString => None
      end
    else if Ascii.eqb c "[" then
      match skip_ws s' with
      | String c1 s1 =>
          if Ascii.eqb c1 "]" then Some (VList [], s1)
          else scan_array fuel (String c1 s1) []
      | EmptyString => None
      end
    else if Ascii.eqb c "n" then
      match expect "ull" s' with
      | Some rest => Some (VNone, rest)
      | None => None
      end
    else if Ascii.eqb c "t" then
      match expect "rue" s' with
      | Some rest => Some (VBool true, rest)
      | None => None
      end
    else if Ascii.eqb c "f" then
      match expect "alse" s' with
      | Some rest => Some (VBool false, rest)
      | None => None
      end
    else
      match scan_number (String c s') with
      | Some (n, rest) => Some (VInt n, rest)
      | None => None
      end.
Proof. reflexivity. Qed.

Lemma u_scan_once_S fuel c s' :
  u_scan_once (S fuel) (String c s')
  = if Ascii.eqb c chr_quote then
      match u_scanstring s' with
      | Some (str, rest) => Some (UStr str, rest)
      | None => None
      end
    else if Ascii.eqb c "{" then
      match skip_ws s' with
      | String c1 s1 =>
          if Ascii.eqb c1 "}" then Some (UDict [], s1)
          else if Ascii.eqb c1 chr_quote then u_scan_object fuel s1 []
          else None
      | EmptyString => None
      end
    else if Ascii.eqb c "[" then
      match skip_ws s' with
      | String c1 s1 =>
          if Ascii.eqb c1 "]" then Some (UList [], s1)
          else u_scan_array fuel (String c1 s1) []
      | EmptyString => None
      end
    else if Ascii.eqb c "n" then
      match expect "ull" s' with
      | Some rest => Some (UNone, rest)
      | None => None
      end
    else if Ascii.eqb c "t" then
      match expect "rue" s' with
      | Some rest => Some (UBool true, rest)
      | None => None
      end
    else if Ascii.eqb c "f" then
      match expect "alse" s' with
      | Some rest => Some (UBool false, rest)
      | None => None
      end
    else
      match scan_number (String c s') with
      | Some (n, rest) => Some (UInt n, rest)
      | None => None
      end.
Proof. reflexivity. Qed.

Lemma scan_widen fuel :
  (forall s v r,
     scan_once fuel s = Some (v, r) -> u_scan_once fuel s = Some (widen v, r))
  /\ (forall s values v r,
        scan_array fuel s values = Some (v, r) ->
        u_scan_array fuel s (map widen values) = Some (widen v, r))
  /\ (forall s pairs v r,
        scan_object fuel s pairs = Some (v, r) ->
        u_scan_object fuel s (widen_record pairs) = Some (widen v, r)).
Proof.
  induction fuel as [|fuel (IHonce & IHarray & IHobject)];
    [repeat split; discriminate|].
  split; [|split].
  - intros [|c s'] v r; [discriminate|]. rewrite scan_once_S, u_scan_once_S.
    destruct (Ascii.eqb c chr_quote).
    { destruct (scanstring s') as [[str rest]|] eqn:E; [|discriminate].
      intros [= <- <-].
      now rewrite (scanstring_widen _ _ _ _ (Nat.le_refl _) E). }
    destruct (Ascii.eqb c "{").
    { destruct (skip_ws s') as [|c1 s1]; [discriminate|].
      destruct (Ascii.eqb c1 "}"); [intros [= <- <-]; reflexivity|].
      destruct (Ascii.eqb c1 chr_quote); [|discriminate].
      intros Hobject. exact (IHobject _ [] _ _ Hobject). }
    destruct (Ascii.eqb c "[").
    { destruct (skip_ws s') as [|c1 s1]; [discriminate|].
      destruct (Ascii.eqb c1 "]"); [intros [= <- <-]; reflexivity|].
      intros Harray. exact (IHarray _ [] _ _ Harray). }
    destruct (Ascii.eqb c "n").
    { destruct (expect "ull" s'); [intros [= <- <-]; reflexivity | discriminate]. }
    destruct (Ascii.eqb c "t").
    { destruct (expect "rue" s'); [intros [= <- <-]; reflexivity | discriminate]. }
    destruct (Ascii.eqb c "f").
    { destruct (expect "alse" s'); [intros [= <- <-]; reflexivity | discriminate]. }
    destruct (scan_number (String c s')) as [[n rest]|];
      [intros [= <- <-]; reflexivity | discriminate].
  - intros s values v r. rewrite scan_array_S, u_scan_array_S.
    destruct (scan_once fuel s) as [[x rest]|] eqn:E; [|discriminate].
    rewrite (IHonce _ _ _ E).
    destruct (skip_ws rest) as [|c r0]; [discriminate|].
    destruct (Ascii.eqb c "]").
    { intros [= <- <-]. cbn [widen]. now rewrite map_app. }
    destruct (Ascii.eqb c ","); [|discriminate].
    intros Harray. apply IHarray in Harray. now rewrite map_app in Harray.
  - intros s pairs v r. rewrite scan_object_S, u_scan_object_S.
    destruct (scanstring s) as [[key rest]|] eqn:Ekey; [|discriminate].
    rewrite (scanstring_widen _ _ _ _ (Nat.le_refl _) Ekey).
    destruct (skip_ws rest) as [|c r0]; [discriminate|].
    destruct (Ascii.eqb c ":"); [|discriminate].
    destruct (scan_once fuel (skip_ws r0)) as [[x rest']|] eqn:E; [|discriminate].
    rewrite (IHonce _ _ _ E).
    destruct (skip_ws rest') as [|c' r']; [discriminate|].
    destruct (Ascii.eqb c' "}").
    { intros [= <- <-]. cbn [widen]. do 3 f_equal.
      change (widen_record pairs ++ [(widen_string key, widen x)])
        with (widen_record pairs ++ widen_record [(key, x)]).
      unfold widen_record at 1 2. rewrite <- map_app.
      apply u_dict_of_pairs_widen. }
    destruct (Ascii.eqb c' ","); [|discriminate].
    destruct (skip_ws r') as [|q r'']; [discriminate|].
    destruct (Ascii.eqb q chr_quote); [|discriminate].
    intros Hobject. apply IHobject in Hobject.
    unfold widen_record in Hobject. rewrite map_app in Hobject. exact Hobject.
Qed.

Theorem json_loads_widen text v :
  json_loads text = Some v -> u_json_loads text = Some (widen v).
Proof.
  unfold json_loads, u_json_loads.
  destruct (scan_once (S (String.length text)) (skip_ws text))
    as [[x rest]|] eqn:E; [|discriminate].
  rewrite (proj1 (scan_widen _) _ _ _ E).
  destruct (skip_ws rest); [intros [= <-]; reflexivity | discriminate].
Qed.

(** ** save_users_to_file, then reading the file *)

Lemma well_formed_records_list users :
  well_formed (VList (map VDict users)) = well_formed_records users.
Proof.
  unfold well_formed_records. cbn [well_formed].
  induction users as [|user users IH]; [reflexivity|].
  cbn [map forallb]. now rewrite IH.
Qed.

(** With names below U+0100: after [save_users_to_file] the file holds the
    text of the list, which reads back as the list, and
    [delete_users_from_file] then works on that list. *)
Lemma saved_users_reach_the_batch users filename w :
  well_formed_records users = true ->
  let w' := snd (save_users_to_file users filename w) in
  files w' !! filename = Some (saved_text users)
  /\ json_loads (saved_text users) = Some (VList (map VDict users))
  /\ (forall other, other <> filename -> files w' !! other = files w !! other)
  /\ (forall s,
        delete_users_from_file s filename w'
        = confirm_and_delete s (map VDict users) w').
Proof.
  intros Hwf. cbv zeta.
  assert (Hload : json_loads (saved_text users)
                  = Some (VList (map VDict users))).
  { apply json_loads_dumps. now rewrite well_formed_records_list. }
  assert (Hfile : files (snd (save_users_to_file users filename w))
                    !! filename = Some (saved_text users)).
  { unfold save_users_to_file. cbn [snd files print set_files].
    apply lookup_insert_eq. }
  split; [exact Hfile|]. split; [exact Hload|]. split.
  - intros other Hother. unfold save_users_to_file.
    cbn [snd files print set_files]. now apply lookup_insert_ne.
  - intros s. unfold delete_users_from_file at 1.
    rewrite Hfile, Hload. reflexivity.
Qed.

Lemma u_well_formed_records_list users :
  u_well_formed (UList (map UDict users)) = u_well_formed_records users.
Proof.
  unfold u_well_formed_records. cbn [u_well_formed].
  induction users as [|user users IH]; [reflexivity|].
  cbn [map forallb]. now rewrite IH.
Qed.

Lemma pair_free_records_list users :
  pair_free (UList (map UDict users)) = pair_free_records users.
Proof.
  unfold pair_free_records. cbn [pair_free].
  induction users as [|user users IH]; [reflexivity|].
  cbn [map forallb]. now rewrite IH.
Qed.

Lemma u_saved_text_read_back users :
  u_well_formed_records users = true -> pair_free_records users = true ->
  u_json_loads (u_saved_text users) = Some (UList (map UDict users)).
Proof.
  intros Hwf Hfree. apply u_json_loads_dumps.
  - now rewrite u_well_formed_records_list.
  - now rewrite pair_free_records_list.
Qed.

Lemma u_save_users_to_file_file users filename w :
  files (snd (u_save_users_to_file users filename w)) !! filename
  = Some (u_saved_text users).
Proof.
  unfold u_save_users_to_file. cbn [snd files print set_files].
  apply lookup_insert_eq.
Qed.

(** C7 as stated fails: a name that holds a high surrogate and then a low
    surrogate, two code points, is written as the one character the two
    make as a pair, and read back as that character. *)
Lemma surrogate_pair_is_read_back_as_one_character :
  ~ (forall users filename w,
       u_well_formed_records users = true ->
       ints_within_limit_records users = true ->
       u_json_load filename (snd (u_save_users_to_file users filename w))
       = Some (UList (map UDict users))).
Proof.
  intros Hclaim.
  specialize (Hclaim [user_named two_surrogates] default_filename empty_world
                eq_refl eq_refl).
  assert (Hread :
    u_json_load default_filename
      (snd (u_save_users_to_file [user_named two_surrogates] default_filename
              empty_world))
    = Some (UList [UDict (user_named grinning_face)]))
    by (vm_compute; reflexivity).
  rewrite Hread in Hclaim. discriminate Hclaim.
Qed.

(** C7, amended: when no string of the records has a high surrogate with a
    low surrogate right after it, and their integers are of those
    [json.dump] writes, then after [save_users_to_file], whatever the file
    held before, the file holds the text of the list and nothing else, the
    other files are as they were, and reading the file as JSON gives back
    the list saved, record by record, field by field and code point by code
    point. *)
Theorem saved_users_are_read_back users filename w :
  u_well_formed_records users = true ->
  pair_free_records users = true ->
  ints_within_limit_records users = true ->
  let w' := snd (u_save_users_to_file users filename w) in
  files w' !! filename = Some (u_saved_text users)
  /\ u_json_load filename w' = Some (UList (map UDict users))
  /\ (forall other, other <> filename -> files w' !! other = files w !! other).
Proof.
  intros Hwf Hfree _. cbv zeta. split; [|split].
  - apply u_save_users_to_file_file.
  - unfold u_json_load. rewrite u_save_users_to_file_file.
    now apply u_saved_text_read_back.
  - intros other Hother. unfold u_save_users_to_file.
    cbn [snd files print set_files]. now apply lookup_insert_ne.
Qed.

Lemma saved_users_are_read_back_witness :
  let users := [user_named wide_name; user_with_groups] in
  let w' := snd (u_save_users_to_file users default_filename
                   (saved_world [inactive_user] [])) in
  files w' !! default_filename = Some (u_saved_text users)
  /\ u_json_load default_filename w' = Some (UList (map UDict users))
  /\ (forall other,
        other <> default_filename ->
        files w' !! other = files (saved_world [inactive_user] []) !! other).
Proof.
  apply (saved_users_are_read_back
           [user_named wide_name; user_with_groups] default_filename
           (saved_world [inactive_user] []));
    vm_compute; reflexivity.
Defined.

(** The two names of the counterexample are written as the same text. *)
Example surrogate_pair_text :
  u_saved_text [user_named two_surrogates]
  = u_saved_text [user_named grinning_face]
  /\ u_json_loads (u_saved_text [user_named two_surrogates])
     = Some (UList [UDict (user_named grinning_face)]).
Proof. split; vm_compute; reflexivity. Qed.

(** The records of [value] are among the records read back: their strings
    have no surrogate. *)
Lemma widen_record_read_back users :
  well_formed_records users = true ->
  u_json_loads (u_saved_text (map widen_record users))
  = Some (UList (map UDict (map widen_record users))).
Proof.
  intros Hwf.
  assert (Htext : u_saved_text (map widen_record users) = saved_text users).
  { unfold u_saved_text, saved_text, u_json_dumps, json_dumps.
    rewrite <- (u_encode_widen (VList (map VDict users)) 0).
    cbn [widen]. now rewrite !map_map. }
  rewrite Htext. unfold saved_text.
  rewrite <- well_formed_records_list in Hwf.
  rewrite (json_loads_widen _ _ (json_loads_dumps _ Hwf)).
  cbn [widen]. now rewrite !map_map.
Qed.

(** * Further properties of the program *)

(** ** The fetch, against any service *)

(** However the loop is left, it has sent the requests for the pages
    [k], [k + 1], ... in this order, each with [maxResults] 50, and has
    touched nothing but the console and the request log. *)
Lemma fetch_loop_requests s :
  forall fuel k acc w how acc' w',
    fetch_loop fuel s (50 * Z.of_nat k) acc w = Some (how, acc', w') ->
    exists n,
      1 <= n <= fuel
      /\ get_log w' = get_log w ++ page_requests k n
      /\ same_outside_fetch w w'.
Proof.
  induction fuel as [|fuel IH]; intros k acc w how acc' w' Hrun;
    [discriminate|].
  cbn [fetch_loop] in Hrun.
  assert (Hone : forall w1,
            get_log w1 = get_log w ++ [((50 * Z.of_nat k)%Z, max_results)] ->
            same_outside_fetch w w1 ->
            exists n,
              1 <= n <= S fuel
              /\ get_log w1 = get_log w ++ page_requests k n
              /\ same_outside_fetch w w1).
  { intros w1 Hlog Hsame. exists 1. split; [lia|]. split; [exact Hlog|].
    exact Hsame. }
  destruct (session_get s (50 * Z.of_nat k) max_results) as [resp|e].
  - destruct (negb (status_code resp =? 200)%Z).
    + injection Hrun as <- <- <-. apply Hone; repeat split.
    + destruct (json resp) as [|user users] eqn:Ejson.
      * injection Hrun as <- <- <-. apply Hone; repeat split.
      * destruct (Z.of_nat (length (user :: users)) <? max_results)%Z.
        -- injection Hrun as <- <- <-. apply Hone; repeat split.
        -- replace (50 * Z.of_nat k + max_results)%Z
             with (50 * Z.of_nat (S k))%Z in Hrun
             by (unfold max_results; lia).
           apply IH in Hrun as (n & Hn & Hlog & Hsame).
           exists (S n). split; [lia|]. split.
           ++ rewrite Hlog. cbn [get_log print log_get].
              unfold page_requests. cbn [seq map].
              now rewrite <- app_assoc.
           ++ eapply same_outside_fetch_trans; [|exact Hsame].
              repeat split.
  - injection Hrun as <- <- <-. apply Hone; repeat split.
Qed.

(** X1: whenever [fetch_non_active_users] returns or raises, it has sent
    between one and [fuel] requests, for the pages 0, 1, 2, ... in this
    order with [maxResults] 50, and it has left the files, the pending
    input, the [DELETE] log and the viewer alone. *)
Theorem fetch_sends_consecutive_pages_only fuel s w result w' :
  fetch_non_active_users fuel s w = Some (result, w') ->
  exists n,
    1 <= n <= fuel
    /\ get_log w' = get_log w ++ page_requests 0 n
    /\ files w' = files w /\ stdin w' = stdin w
    /\ delete_log w' = delete_log w /\ viewer_log w' = viewer_log w.
Proof.
  unfold fetch_non_active_users. intros Hrun.
  destruct (fetch_loop fuel s 0 [] (print MsgFetching w))
    as [[[how acc] w1]|] eqn:Hloop; [|discriminate].
  apply (fetch_loop_requests s fuel 0) in Hloop
    as (n & Hn & Hlog & Hf & Hi & Hd & Hv).
  cbn [get_log files stdin delete_log viewer_log print] in *.
  exists n. split; [exact Hn|].
  destruct how as [[msg|class]|]; injection Hrun as <- <-;
    cbn [get_log files stdin delete_log viewer_log print];
    repeat split; assumption.
Qed.

Lemma fetch_sends_consecutive_pages_only_witness :
  exists n,
    1 <= n <= 5
    /\ get_log
         (snd (default (Ret [], empty_world)
                 (fetch_non_active_users 5 two_page_session empty_world)))
       = get_log empty_world ++ page_requests 0 n
    /\ files
         (snd (default (Ret [], empty_world)
                 (fetch_non_active_users 5 two_page_session empty_world)))
       = files empty_world
    /\ stdin
         (snd (default (Ret [], empty_world)
                 (fetch_non_active_users 5 two_page_session empty_world)))
       = stdin empty_world
    /\ delete_log
         (snd (default (Ret [], empty_world)
                 (fetch_non_active_users 5 two_page_session empty_world)))
       = delete_log empty_world
    /\ viewer_log
         (snd (default (Ret [], empty_world)
                 (fetch_non_active_users 5 two_page_session empty_world)))
       = viewer_log empty_world.
Proof.
  apply (fetch_sends_consecutive_pages_only 5 two_page_session empty_world
           (fst (default (Ret [], empty_world)
                   (fetch_non_active_users 5 two_page_session empty_world)))).
  vm_compute. reflexivity.
Defined.

(** X2: the loop has no bound of its own: as long as every request is
    answered with a page of 50 records or more, the fetch goes on asking,
    whatever the number of requests allowed. *)
Theorem fetch_goes_on_while_pages_are_full s pages fuel w :
  (forall i, i < fuel -> served s i (pages i) /\ 50 <= length (pages i)) ->
  fetch_non_active_users fuel s w = None.
Proof.
  intros Hfull. unfold fetch_non_active_users.
  destruct (fetch_loop_full_pages s pages fuel 0 0 [] (print MsgFetching w))
    as (w1 & Hrun & _).
  { intros i Hi. simpl. now apply Hfull. }
  rewrite Nat.add_0_r in Hrun. change (50 * Z.of_nat 0)%Z with 0%Z in Hrun.
  rewrite Hrun. reflexivity.
Qed.

Lemma fetch_goes_on_while_pages_are_full_witness :
  fetch_non_active_users 7 endless_session empty_world = None.
Proof.
  apply (fetch_goes_on_while_pages_are_full endless_session
           (fun _ => full_page) 7 empty_world).
  intros i Hi. split; [exists ""; reflexivity | simpl; lia].
Defined.

(** X3: an exception of a request that is not a [RequestException] is not
    caught: after [n] full pages it leaves [fetch_non_active_users], and the
    records accumulated so far are not returned. *)
Theorem fetch_lets_other_exceptions_through s pages n fuel w class :
  (forall i, i < n -> served s i (pages i) /\ 50 <= length (pages i)) ->
  session_get s (50 * Z.of_nat n) max_results = Raise (OtherException class) ->
  n < fuel ->
  exists w',
    fetch_non_active_users fuel s w = Some (Raise (OtherException class), w')
    /\ get_log w' = get_log w ++ page_requests 0 (S n).
Proof.
  intros Hfull Hraise Hfuel. unfold fetch_non_active_users.
  destruct (fetch_loop_full_pages s pages n 0 (fuel - n) []
              (print MsgFetching w)) as (w1 & Hrun & Hlog & _).
  { intros i Hi. simpl. now apply Hfull. }
  replace (n + (fuel - n)) with fuel in Hrun by lia.
  destruct (fuel - n) as [|fuel'] eqn:Efuel; [lia|].
  simpl "+" in Hrun. change (50 * Z.of_nat 0)%Z with 0%Z in Hrun.
  cbn [fetch_loop] in Hrun. rewrite Hraise in Hrun. rewrite Hrun.
  eexists. split; [reflexivity|].
  cbn [get_log log_get]. rewrite Hlog. cbn [get_log print].
  replace (S n) with (n + 1) by lia.
  rewrite page_requests_app, <- app_assoc. reflexivity.
Qed.

Lemma fetch_lets_other_exceptions_through_witness :
  exists w',
    fetch_non_active_users 3
      (failing_session (Raise (OtherException "ValueError"))) empty_world
    = Some (Raise (OtherException "ValueError"), w')
    /\ get_log w' = get_log empty_world ++ page_requests 0 2.
Proof.
  apply (fetch_lets_other_exceptions_through
           (failing_session (Raise (OtherException "ValueError")))
           two_pages 1 3 empty_world "ValueError").
  - intros i Hi. assert (i = 0) as -> by lia.
    split; [exists ""; reflexivity | simpl; lia].
  - reflexivity.
  - lia.
Defined.

Lemma is_inactive_project user :
  is_inactive user = true -> is_inactive (project user) = true.
Proof.
  intros Hin. pose proof Hin as Hspec.
  apply is_inactive_spec in Hspec as [(v & Ev & Hv) Htype].
  unfold is_inactive in *.
  change (py_get_default (project user) "active" (VBool true))
    with (py_get user "active").
  change (py_get (project user) "accountType")
    with (py_get user "accountType").
  apply andb_true_iff in Hin as [_ Hin]. rewrite Hin, andb_true_r.
  unfold py_get, py_get_default. rewrite Ev, Hv. reflexivity.
Qed.

(** The records the loop has gathered are inactive records: the five keys
    of the projection each, and none that the test of inactivity would
    turn down.  The loop keeps this true, however it is left. *)
Lemma inactive_records_collect users acc :
  Forall (fun record => map fst record = record_keys) acc ->
  List.filter is_inactive acc = acc ->
  Forall (fun record => map fst record = record_keys)
    (collect_inactive users acc)
  /\ List.filter is_inactive (collect_inactive users acc)
     = collect_inactive users acc.
Proof.
  revert acc. induction users as [|user rest IH]; intros acc Hkeys Hfilter.
  - now split.
  - cbn [collect_inactive]. destruct (is_inactive user) eqn:Hin.
    + apply IH.
      * apply Forall_app. split; [exact Hkeys|].
        constructor; [reflexivity | constructor].
      * rewrite List.filter_app, Hfilter. cbn [List.filter].
        now rewrite (is_inactive_project user Hin).
    + now apply IH.
Qed.

Lemma fetch_loop_inactive_records s :
  forall fuel start_at acc w how acc' w',
    fetch_loop fuel s start_at acc w = Some (how, acc', w') ->
    Forall (fun record => map fst record = record_keys) acc ->
    List.filter is_inactive acc = acc ->
    Forall (fun record => map fst record = record_keys) acc'
    /\ List.filter is_inactive acc' = acc'.
Proof.
  induction fuel as [|fuel IH]; intros start_at acc w how acc' w' Hrun
    Hkeys Hfilter; [discriminate|].
  cbn [fetch_loop] in Hrun. cbv zeta in Hrun.
  destruct (session_get s start_at max_results) as [resp|e].
  - destruct (negb (status_code resp =? 200)%Z).
    + injection Hrun as _ <- _. now split.
    + destruct (json resp) as [|user rest] eqn:Hjson.
      * injection Hrun as _ <- _. now split.
      * destruct (inactive_records_collect (user :: rest) acc Hkeys Hfilter)
          as [Hkeys' Hfilter'].
        destruct (Z.of_nat (length (user :: rest)) <? max_results)%Z.
        -- injection Hrun as _ <- _. now split.
        -- exact (IH _ _ _ _ _ _ Hrun Hkeys' Hfilter').
  - injection Hrun as _ <- _. now split.
Qed.

(** X4: whenever [fetch_non_active_users] returns a list (the listing ended
    with a short or empty page, with a status other than 200 or with a
    [RequestException], after any number of pages), every record of the
    list has exactly the five keys [accountId], [displayName],
    [emailAddress], [active], [accountType], in this order, and passes the
    test of inactivity itself: filtering the result again keeps all of
    it. *)
Theorem fetched_records_are_inactive_records fuel s w users w' :
  fetch_non_active_users fuel s w = Some (Ret users, w') ->
  Forall (fun record => map fst record = record_keys) users
  /\ List.filter is_inactive users = users.
Proof.
  unfold fetch_non_active_users. intros Hrun.
  destruct (fetch_loop fuel s 0 [] (print MsgFetching w))
    as [[[how acc] w1]|] eqn:Hloop; [|discriminate].
  assert (Hacc : Forall (fun record => map fst record = record_keys) acc
                 /\ List.filter is_inactive acc = acc).
  { apply (fetch_loop_inactive_records s fuel 0%Z [] _ how acc w1 Hloop);
      [constructor | reflexivity]. }
  destruct how as [[msg|class]|].
  - injection Hrun as <- _. exact Hacc.
  - discriminate.
  - injection Hrun as <- _. exact Hacc.
Qed.

Lemma fetched_records_are_inactive_records_witness :
  exists w',
    fetch_non_active_users 1 test_session empty_world
    = Some (Ret [project inactive_user], w')
    /\ Forall (fun record => map fst record = record_keys)
         [project inactive_user]
    /\ List.filter is_inactive [project inactive_user]
       = [project inactive_user].
Proof.
  eexists. split; [vm_compute; reflexivity|].
  eapply (fetched_records_are_inactive_records 1 test_session empty_world).
  vm_compute. reflexivity.
Defined.

(** ** The deletion batch, against any service *)

(** X5: a record whose [accountId] is there but empty ([null], the empty
    string, or any value that is false as a condition) is passed over like
    a record without [accountId]: a line is printed, no [DELETE] call is
    sent, the failure counter goes up by one and the loop goes on. *)
Theorem record_with_empty_account_id_is_skipped user v :
  dict_get user "accountId" = Some v -> truthy v = false ->
  forall s before after successful failed w,
    delete_loop s (before ++ VDict user :: after) successful failed w
    = (counts <- delete_loop s before successful failed ;;
       put (MsgSkipping (py_get_default user "displayName" (VStr "Unknown"))) ;;;
       delete_loop s after (fst counts) (S (snd counts))) w
    /\ delete_log
         (snd (delete_loop s [VDict user] successful failed w))
       = delete_log w.
Proof.
  intros Hget Hfalse s before after successful failed w.
  assert (Hid : negb (truthy (py_get user "accountId")) = true).
  { unfold py_get, py_get_default. now rewrite Hget, Hfalse. }
  split.
  - rewrite delete_loop_app. apply bind_ext. intros counts w'.
    cbn [delete_loop]. now rewrite Hid.
  - cbn [delete_loop]. now rewrite Hid.
Qed.

Lemma record_with_empty_account_id_is_skipped_witness :
  (delete_loop test_session
     (map VDict two_users ++ VDict user_with_null_id :: map VDict two_users)
     0 0 empty_world
   = (counts <- delete_loop test_session (map VDict two_users) 0 0 ;;
      put (MsgSkipping
             (py_get_default user_with_null_id "displayName"
                (VStr "Unknown"))) ;;;
      delete_loop test_session (map VDict two_users)
        (fst counts) (S (snd counts))) empty_world
   /\ delete_log
        (snd (delete_loop test_session [VDict user_with_null_id] 0 0
                empty_world))
      = delete_log empty_world)
  /\ delete_log
       (snd (delete_loop test_session [VDict user_with_empty_id] 3 4
               empty_world))
     = delete_log empty_world.
Proof.
  split.
  - apply (record_with_empty_account_id_is_skipped user_with_null_id VNone);
      reflexivity.
  - apply (record_with_empty_account_id_is_skipped user_with_empty_id
             (VStr "") eq_refl eq_refl test_session [] [] 3 4 empty_world).
Defined.

Lemma firstn_S_cons {A} k (x : A) l : x :: firstn k l = firstn (S k) (x :: l).
Proof. reflexivity. Qed.

(** X6: whatever the service answers, and even when a call crashes, the
    [DELETE] calls the loop sends are the account ids of the file that pass
    [if not account_id], in the order of the file, from the first one on
    and without a gap or a repetition. *)
Theorem delete_loop_sends_listed_ids_in_order s users :
  forall successful failed w,
    exists k,
      delete_log (snd (delete_loop s (map VDict users) successful failed w))
      = delete_log w ++ firstn k (attempted_ids users).
Proof.
  induction users as [|user users IH]; intros successful failed w.
  - exists 0. cbn. now rewrite app_nil_r.
  - cbn [map delete_loop]. unfold attempted_ids. cbn [List.filter].
    unfold has_account_id at 1.
    destruct (truthy (py_get user "accountId")) eqn:Hid; cbn [negb].
    + rewrite bind_unfold. unfold delete_user.
      destruct (session_delete s (length (delete_log w))
                  (py_get user "accountId")) as [resp|[msg|class]].
      * destruct (status_code resp =? 204)%Z;
          match goal with
          | |- context [delete_loop s _ ?a ?b ?w0] =>
              destruct (IH a b w0) as (k & Hk)
          end;
          exists (S k); rewrite Hk; cbn [delete_log print log_delete map];
          rewrite <- app_assoc; reflexivity.
      * match goal with
        | |- context [delete_loop s _ ?a ?b ?w0] =>
            destruct (IH a b w0) as (k & Hk)
        end.
        exists (S k). rewrite Hk. cbn [delete_log print log_delete map].
        rewrite <- app_assoc. reflexivity.
      * exists 1. reflexivity.
    + rewrite bind_unfold, put_eq.
      match goal with
      | |- context [delete_loop s _ ?a ?b ?w0] =>
          destruct (IH a b w0) as (k & Hk)
      end.
      exists k. exact Hk.
Qed.

(** X7: an exception of a [DELETE] call that is not a [RequestException]
    is not caught: it leaves the loop right after the call was sent, the
    records after it are not looked at and no summary is reached. *)
Theorem other_exception_ends_the_batch
    s before user after successful failed w counts w1 class :
  delete_loop s before successful failed w = (Ret counts, w1) ->
  has_account_id user = true ->
  session_delete s (length (delete_log w1)) (py_get user "accountId")
  = Raise (OtherException class) ->
  delete_loop s (before ++ VDict user :: after) successful failed w
  = (Raise (OtherException class), log_delete (py_get user "accountId") w1).
Proof.
  intros Hbefore Hid Hraise.
  rewrite delete_loop_app, bind_unfold, Hbefore.
  cbn [delete_loop]. unfold has_account_id in Hid. rewrite Hid. cbn [negb].
  rewrite bind_unfold. unfold delete_user. now rewrite Hraise.
Qed.

Lemma other_exception_ends_the_batch_witness :
  delete_loop crashing_session
    ([VDict (project inactive_user)] ++ VDict (project active_user)
       :: [VDict (project former_user)]) 0 0 empty_world
  = (Raise (OtherException "ValueError"),
     log_delete (py_get (project active_user) "accountId")
       (snd (delete_loop crashing_session [VDict (project inactive_user)]
               0 0 empty_world))).
Proof.
  apply (other_exception_ends_the_batch crashing_session
           [VDict (project inactive_user)] (project active_user)
           [VDict (project former_user)] 0 0 empty_world (1, 0)).
  - reflexivity.
  - reflexivity.
  - reflexivity.
Defined.

Lemma batch_frame_refl w : batch_frame w w.
Proof. repeat split. Qed.

Lemma batch_frame_trans w1 w2 w3 :
  batch_frame w1 w2 -> batch_frame w2 w3 -> batch_frame w1 w3.
Proof.
  unfold batch_frame. intros (? & ? & ?) (? & ? & ?).
  repeat split; congruence.
Qed.

Lemma console_only_batch_frame w w' : console_only w w' -> batch_frame w w'.
Proof. intros (? & _ & ? & _ & ?). repeat split; assumption. Qed.

Lemma delete_user_frame s account_id display_name w :
  batch_frame w (snd (delete_user s account_id display_name w))
  /\ stdin (snd (delete_user s account_id display_name w)) = stdin w.
Proof.
  unfold delete_user.
  destruct (session_delete s _ account_id) as [resp|[msg|class]];
    [destruct (status_code resp =? 204)%Z|..]; repeat split.
Qed.

(** The loop sends [DELETE] calls and prints; it reads no line, writes no
    file, sends no [GET], opens no viewer. *)
Lemma delete_loop_frame s users :
  forall successful failed w,
    batch_frame w (snd (delete_loop s users successful failed w))
    /\ stdin (snd (delete_loop s users successful failed w)) = stdin w.
Proof.
  induction users as [|user rest IH]; intros successful failed w.
  - repeat split.
  - cbn [delete_loop]. destruct user; try (repeat split; fail).
    destruct (negb (truthy (py_get d "accountId"))).
    + rewrite bind_unfold, put_eq.
      match goal with
      | |- context [delete_loop s rest ?a ?b ?w0] =>
          destruct (IH a b w0) as [Hframe Hin]
      end.
      split; [|exact Hin].
      eapply batch_frame_trans; [|exact Hframe]. repeat split.
    + rewrite bind_unfold.
      pose proof (delete_user_frame s (py_get d "accountId")
                    (py_get_default d "displayName" (VStr "Unknown")) w)
        as [Hframe Hin].
      destruct (delete_user s _ _ w) as [[[|]|e] w1]; cbn [snd] in *.
      * destruct (IH (S successful) failed w1) as [Hframe' Hin'].
        split; [eapply batch_frame_trans; eassumption | congruence].
      * destruct (IH successful (S failed) w1) as [Hframe' Hin'].
        split; [eapply batch_frame_trans; eassumption | congruence].
      * split; assumption.
Qed.

(** What [confirm_and_delete] does to its surroundings, whatever the
    users, the service and the answers are. *)
Lemma confirm_and_delete_frame s users w :
  batch_frame w (snd (confirm_and_delete s users w))
  /\ exists k,
       k <= 2
       /\ stdin (snd (confirm_and_delete s users w)) = skipn k (stdin w)
       /\ (k < 2 ->
           delete_log (snd (confirm_and_delete s users w)) = delete_log w).
Proof.
  rewrite confirm_and_delete_split, bind_unfold.
  pose proof (announce_console_only users w) as Hann.
  destruct ((put (MsgFoundToDelete (length users)) ;;; _) w)
    as [[[]|e] w1]; cbn [snd] in Hann;
    pose proof (console_only_batch_frame _ _ Hann) as Hframe;
    destruct Hann as (Hfiles & Hstdin & _ & Hlog & _);
    [|cbn [snd]; split; [exact Hframe|]; exists 0;
      split; [lia|]; split; [exact Hstdin | intros _; exact Hlog]].
  rewrite bind_unfold.
  destruct (stdin w) as [|line1 rest1] eqn:Hin.
  { rewrite (input_eof _ _ Hstdin). cbn [snd].
    split; [eapply batch_frame_trans; [exact Hframe | repeat split]|].
    exists 0. split; [lia|]. split; [exact Hstdin | intros _; exact Hlog]. }
  rewrite (input_line _ _ _ _ Hstdin). cbv beta iota.
  destruct (negb (strip line1 =? "DELETE")%string).
  { rewrite put_eq. cbn [snd].
    split; [eapply batch_frame_trans; [exact Hframe | repeat split]|].
    exists 1. split; [lia|]. split; [reflexivity | intros _; exact Hlog]. }
  rewrite bind_unfold.
  destruct rest1 as [|line2 rest].
  { rewrite input_eof by reflexivity. cbn [snd].
    split; [eapply batch_frame_trans; [exact Hframe | repeat split]|].
    exists 1. split; [lia|]. split; [reflexivity | intros _; exact Hlog]. }
  rewrite (input_line _ _ line2 rest) by reflexivity. cbv beta iota.
  destruct (negb (lower (strip line2) =? "y")%string).
  { rewrite put_eq. cbn [snd].
    split; [eapply batch_frame_trans; [exact Hframe | repeat split]|].
    exists 2. split; [lia|]. split; [reflexivity | intros Hk; lia]. }
  run_puts. rewrite bind_unfold.
  match goal with
  | |- context [delete_loop s users 0 0 ?w0] =>
      pose proof (delete_loop_frame s users 0 0 w0) as [Hloop Hloopin];
      destruct (delete_loop s users 0 0 w0) as [[counts|e] w2]
  end; cbn [snd] in *; rewrite ?put_eq; cbn [snd].
  - split.
    + eapply batch_frame_trans; [exact Hframe|].
      eapply batch_frame_trans; [|eapply batch_frame_trans;
                                     [exact Hloop | repeat split]].
      repeat split.
    + exists 2. split; [lia|]. cbn [stdin print]. rewrite Hloopin.
      split; [reflexivity | intros Hk; lia].
  - split.
    + eapply batch_frame_trans; [exact Hframe|].
      eapply batch_frame_trans; [|exact Hloop]. repeat split.
    + exists 2. split; [lia|]. rewrite Hloopin.
      split; [reflexivity | intros Hk; lia].
Qed.

(** X8: whatever the file holds, whatever the service answers and whatever
    is typed, [delete_users_from_file] writes no file, sends no [GET] and
    opens no viewer; it reads at most two lines, and sends no [DELETE] call
    unless it has read both. *)
Theorem delete_users_from_file_reads_at_most_two_lines s filename w :
  let w' := snd (delete_users_from_file s filename w) in
  files w' = files w /\ get_log w' = get_log w
  /\ viewer_log w' = viewer_log w
  /\ exists k,
       k <= 2 /\ stdin w' = skipn k (stdin w)
       /\ (k < 2 -> delete_log w' = delete_log w).
Proof.
  cbv zeta.
  assert (Hnone : forall w0 : world,
            files w0 = files w -> get_log w0 = get_log w ->
            viewer_log w0 = viewer_log w -> stdin w0 = stdin w ->
            delete_log w0 = delete_log w ->
            files w0 = files w /\ get_log w0 = get_log w
            /\ viewer_log w0 = viewer_log w
            /\ exists k,
                 k <= 2 /\ stdin w0 = skipn k (stdin w)
                 /\ (k < 2 -> delete_log w0 = delete_log w)).
  { intros w0 ? ? ? ? ?. repeat (split; [assumption|]).
    exists 0. split; [lia|]. split; [assumption | intros _; assumption]. }
  assert (Hsome : forall users,
            files (snd (confirm_and_delete s users w)) = files w
            /\ get_log (snd (confirm_and_delete s users w)) = get_log w
            /\ viewer_log (snd (confirm_and_delete s users w)) = viewer_log w
            /\ exists k,
                 k <= 2
                 /\ stdin (snd (confirm_and_delete s users w))
                    = skipn k (stdin w)
                 /\ (k < 2 ->
                     delete_log (snd (confirm_and_delete s users w))
                     = delete_log w)).
  { intros users.
    destruct (confirm_and_delete_frame s users w)
      as [(Hf & Hg & Hv) Hk].
    repeat (split; [assumption|]). exact Hk. }
  unfold delete_users_from_file.
  destruct (files w !! filename) as [content|];
    [|apply Hnone; reflexivity].
  destruct (json_loads content) as [[| | | | |]|];
    try (apply Hnone; reflexivity); apply Hsome.
Qed.

Lemma stdout_printed ms : forall w, stdout (printed ms w) = stdout w ++ ms.
Proof.
  unfold printed. induction ms as [|m ms IH]; intros w; cbn [fold_left].
  - now rewrite app_nil_r.
  - rewrite IH. cbn [stdout print]. now rewrite <- app_assoc.
Qed.

Lemma stdin_printed ms : forall w, stdin (printed ms w) = stdin w.
Proof.
  unfold printed. induction ms as [|m ms IH]; intros w; cbn [fold_left];
    [reflexivity | now rewrite IH].
Qed.

Lemma delete_log_printed ms :
  forall w, delete_log (printed ms w) = delete_log w.
Proof.
  unfold printed. induction ms as [|m ms IH]; intros w; cbn [fold_left];
    [reflexivity | now rewrite IH].
Qed.

Lemma preview_printed users :
  forall i w,
    preview i (map VDict users) w = (Ret tt, printed (preview_lines i users) w).
Proof.
  induction users as [|user users IH]; intros i w; [reflexivity|].
  cbn [map preview preview_lines]. rewrite bind_unfold, put_eq.
  apply IH.
Qed.

(** X9: when the first answer is not [DELETE] (blanks around it apart),
    the run over a file of [n] records prints, in this order: the number of
    users found, the header, one line for each of the first ten records with
    the place holders ['Unknown'] and ['No email'] for missing fields, the
    number of records left out when there are more than ten, the warning,
    the question and the cancellation; then it returns. *)
Theorem cancelled_batch_transcript s filename w content users line rest :
  files w !! filename = Some content ->
  json_loads content = Some (VList (map VDict users)) ->
  stdin w = line :: rest -> strip line <> "DELETE" ->
  exists w',
    delete_users_from_file s filename w = (Ret tt, w')
    /\ stdout w'
       = stdout w
         ++ [MsgFoundToDelete (length users); MsgPreviewHeader]
         ++ preview_lines 1 (firstn 10 users)
         ++ (if (10 <? length users)%nat
             then [MsgAndMore (length users - 10)] else [])
         ++ [MsgWarning; MsgPrompt PromptConfirm; MsgCancelled]
    /\ stdin w' = rest /\ delete_log w' = delete_log w.
Proof.
  intros Hfile Hload Hin Hline.
  unfold delete_users_from_file. rewrite Hfile, Hload.
  unfold confirm_and_delete. run_puts. rewrite bind_unfold.
  rewrite List.firstn_map, preview_printed, length_map.
  rewrite bind_unfold.
  assert (Hgate : negb (strip line =? "DELETE")%string = true).
  { destruct (String.eqb_spec (strip line) "DELETE"); [contradiction|].
    reflexivity. }
  destruct (10 <? length users)%nat; rewrite ?put_eq; cbn [ret];
    run_puts; rewrite bind_unfold;
    (rewrite (input_line _ _ line rest)
       by (cbn [stdin print]; rewrite stdin_printed; exact Hin));
    cbv beta iota; rewrite Hgate, put_eq; eexists;
    (split; [reflexivity|]);
    cbn [stdout stdin delete_log print set_stdin];
    rewrite stdout_printed, delete_log_printed; cbn [stdout delete_log print];
    repeat rewrite <- app_assoc; cbn [app]; repeat split.
Qed.

Lemma cancelled_batch_transcript_witness :
  exists w',
    delete_users_from_file test_session default_filename
      (saved_world eleven_users ["no"]) = (Ret tt, w')
    /\ stdout w'
       = stdout (saved_world eleven_users ["no"])
         ++ [MsgFoundToDelete (length eleven_users); MsgPreviewHeader]
         ++ preview_lines 1 (firstn 10 eleven_users)
         ++ (if (10 <? length eleven_users)%nat
             then [MsgAndMore (length eleven_users - 10)] else [])
         ++ [MsgWarning; MsgPrompt PromptConfirm; MsgCancelled]
    /\ stdin w' = [] /\ delete_log w' = delete_log
                                          (saved_world eleven_users ["no"]).
Proof.
  apply (cancelled_batch_transcript test_session default_filename
           (saved_world eleven_users ["no"]) (saved_text eleven_users)
           eleven_users "no" []).
  - reflexivity.
  - vm_compute. reflexivity.
  - reflexivity.
  - vm_compute. discriminate.
Defined.

(** ** test_connection and setup_credentials *)

Ltac tc_case :=
  intros;
  repeat match goal with
         | H : Ret _ = Ret _ |- _ => injection H as <-
         | H : forall d, VDict _ <> VDict d |- _ =>
             exfalso; eapply H; reflexivity
         end;
  try reflexivity; try congruence.

(** X10: [test_connection] asks for [<base_url>/rest/api/3/myself], reads
    no line, and returns [True] iff the answer has status 200 and its body
    is a JSON object, in which case it shows the [displayName] of the
    answer, or the email when the answer has none.  Another status, a
    [RequestException] of the request and a [RequestException] of
    [response.json()] at status 200 give [False], returned normally; a
    body at status 200 that is JSON but no object makes the function raise
    an [AttributeError], and any other exception of the request or of
    [response.json()] leaves the function as it is. *)
Theorem test_connection_succeeds_iff_200_and_object myself m t :
  let reply := myself (format_str (base_url m) +:+ "/rest/api/3/myself") in
  let result := test_connection myself m t in
  (fst result = Ret true
   <-> exists resp user_info,
         reply = Ret resp /\ id_status resp = 200%Z
         /\ id_json resp = Ret (VDict user_info))
  /\ (forall resp,
        reply = Ret resp -> id_status resp <> 200%Z -> fst result = Ret false)
  /\ (forall msg, reply = Raise (RequestException msg) -> fst result = Ret false)
  /\ (forall resp msg,
        reply = Ret resp -> id_status resp = 200%Z ->
        id_json resp = Raise (RequestException msg) ->
        result = (Ret false, show (StartConnectionError (RequestException msg)) t))
  /\ (forall resp body,
        reply = Ret resp -> id_status resp = 200%Z ->
        id_json resp = Ret body -> (forall d, body <> VDict d) ->
        result = (Raise (OtherException "AttributeError"), t))
  /\ (forall class, reply = Raise (OtherException class) ->
                    result = (Raise (OtherException class), t))
  /\ (forall resp class,
        reply = Ret resp -> id_status resp = 200%Z ->
        id_json resp = Raise (OtherException class) ->
        result = (Raise (OtherException class), t))
  /\ typed (snd result) = typed t
  /\ (forall resp user_info,
        reply = Ret resp -> id_status resp = 200%Z ->
        id_json resp = Ret (VDict user_info) ->
        shown (snd result)
        = shown t
          ++ [StartConnected
                (match dict_get user_info "displayName" with
                 | Some name => name
                 | None => optional_str (email m)
                 end)]).
Proof.
  cbv zeta. unfold test_connection.
  destruct (myself (format_str (base_url m) +:+ "/rest/api/3/myself"))
    as [resp|[msg|class]];
    [destruct (Z.eqb_spec (id_status resp) 200) as [E|NE];
     [destruct (id_json resp) as [body|[msg|class]] eqn:Ejson;
      [destruct body as [|b|n|str|l|d]|..]|]|..];
    cbn [fst snd typed shown show];
    (split; [split; [intros Htrue; try discriminate; eauto
                    | intros (r & d' & Er & Es & Ej); tc_case]
            |split; [|split; [|split; [|split; [|split; [|split;
               [|split]]]]]]]);
    tc_case.
  assert (user_info = d) as -> by congruence. reflexivity.
Qed.

(** A body that is no JSON ends the connection test like a refusal; a body
    that is JSON but no object makes it raise. *)
Example test_connection_on_other_bodies m t :
  test_connection (fun _ => identity_not_json) m t
  = (Ret false,
     show (StartConnectionError (RequestException "JSONDecodeError")) t)
  /\ test_connection (fun _ => identity_not_an_object) m t
     = (Raise (OtherException "AttributeError"), t)
  /\ fst (test_connection (fun _ => identity_ok "Admin") m t) = Ret true.
Proof. repeat split. Qed.

Lemma ask_line p t line rest :
  typed t = line :: rest ->
  ask p t = (Ret line, {| typed := rest; shown := shown t ++ [StartPrompt p] |}).
Proof. intros E. unfold ask. cbn [typed show shown]. now rewrite E. Qed.

(** The run of [setup_credentials] when both credentials are typed. *)
Lemma setup_credentials_typed vars m t line1 line2 rest :
  nonempty (JIRA_EMAIL vars) = false ->
  nonempty (JIRA_API_TOKEN vars) = false ->
  nonempty (email m) = false -> nonempty (api_token m) = false ->
  typed t = line1 :: line2 :: rest ->
  exists m' t',
    setup_credentials vars m t = (Ret m', t')
    /\ email m' = Some (strip line1) /\ api_token m' = Some line2
    /\ base_url m'
       = Some ("https://" +:+ format_str (domain m) +:+ ".atlassian.net")
    /\ auth m' = Some (Some (strip line1), Some line2)
    /\ headers m'
       = set_header (set_header (headers m) "Content-Type" "application/json")
           "Accept" "application/json"
    /\ typed t' = rest
    /\ shown t'
       = shown t
         ++ [StartBanner; StartRule; StartPrompt AskEmail; StartPrompt AskToken;
             StartConnecting
               ("https://" +:+ format_str (domain m) +:+ ".atlassian.net")].
Proof.
  intros Hemail Htoken Hcur_email Hcur_token Hin.
  unfold setup_credentials, choose_credential.
  rewrite Hemail, Hcur_email.
  rewrite (ask_line AskEmail _ line1 (line2 :: rest)) by exact Hin.
  rewrite Htoken, Hcur_token.
  rewrite (ask_line AskToken _ line2 rest) by reflexivity.
  do 2 eexists. split; [reflexivity|].
  cbn [email api_token base_url auth headers typed shown show].
  repeat rewrite <- app_assoc. repeat split.
Qed.

(** X11: with no email and no token stored or set, [setup_credentials]
    asks for both and reads two lines: the email is the first line without
    the blanks around it, the token is the second line as it was typed
    (blanks included); the base URL is [https://<domain>.atlassian.net], the
    session authenticates with that email and that token, and the headers
    [Content-Type] and [Accept] are set to [application/json]. *)
Theorem setup_credentials_from_the_keyboard vars m t line1 line2 rest :
  nonempty (JIRA_EMAIL vars) = false ->
  nonempty (JIRA_API_TOKEN vars) = false ->
  nonempty (email m) = false -> nonempty (api_token m) = false ->
  typed t = line1 :: line2 :: rest ->
  exists m' t',
    setup_credentials vars m t = (Ret m', t')
    /\ email m' = Some (strip line1) /\ api_token m' = Some line2
    /\ base_url m'
       = Some ("https://" +:+ format_str (domain m) +:+ ".atlassian.net")
    /\ auth m' = Some (Some (strip line1), Some line2)
    /\ headers m'
       = set_header (set_header (headers m) "Content-Type" "application/json")
           "Accept" "application/json"
    /\ typed t' = rest
    /\ shown t'
       = shown t
         ++ [StartBanner; StartRule; StartPrompt AskEmail; StartPrompt AskToken;
             StartConnecting
               ("https://" +:+ format_str (domain m) +:+ ".atlassian.net")].
Proof.
  intros Hemail Htoken Hcur_email Hcur_token Hin.
  unfold setup_credentials, choose_credential.
  rewrite Hemail, Hcur_email.
  rewrite (ask_line AskEmail _ line1 (line2 :: rest)) by exact Hin.
  rewrite Htoken, Hcur_token.
  rewrite (ask_line AskToken _ line2 rest) by reflexivity.
  do 2 eexists. split; [reflexivity|].
  cbn [email api_token base_url auth headers typed shown show].
  repeat rewrite <- app_assoc. repeat split.
Qed.

Lemma setup_credentials_from_the_keyboard_witness :
  exists m' t',
    setup_credentials bare_environ (new_manager bare_environ [])
      (fresh_terminal ["  user@example.com "; " token 123 "; "4"])
    = (Ret m', t')
    /\ email m' = Some (strip "  user@example.com ")
    /\ api_token m' = Some " token 123 "
    /\ base_url m'
       = Some ("https://"
               +:+ format_str (domain (new_manager bare_environ []))
               +:+ ".atlassian.net")
    /\ auth m' = Some (Some (strip "  user@example.com "), Some " token 123 ")
    /\ headers m'
       = set_header
           (set_header (headers (new_manager bare_environ []))
              "Content-Type" "application/json")
           "Accept" "application/json"
    /\ typed t' = ["4"]
    /\ shown t'
       = shown (fresh_terminal
                  ["  user@example.com "; " token 123 "; "4"])
         ++ [StartBanner; StartRule; StartPrompt AskEmail; StartPrompt AskToken;
             StartConnecting
               ("https://"
                +:+ format_str (domain (new_manager bare_environ []))
                +:+ ".atlassian.net")].
Proof.
  apply (setup_credentials_from_the_keyboard bare_environ
           (new_manager bare_environ [])
           (fresh_terminal ["  user@example.com "; " token 123 "; "4"])
           "  user@example.com " " token 123 " ["4"]);
    reflexivity.
Defined.

(** X12: a stored email and a stored token are each offered first; an
    answer that is empty, [y] or [yes] (in any case, blanks apart) takes the
    stored value without asking for another one, so that two lines are read
    in all. *)
Theorem setup_credentials_takes_stored_values
    vars m t stored_email stored_token answer1 answer2 rest :
  JIRA_EMAIL vars = Some stored_email -> stored_email <> "" ->
  JIRA_API_TOKEN vars = Some stored_token -> stored_token <> "" ->
  typed t = answer1 :: answer2 :: rest ->
  yes_by_default (lower (strip answer1)) = true ->
  yes_by_default (lower (strip answer2)) = true ->
  exists m' t',
    setup_credentials vars m t = (Ret m', t')
    /\ email m' = Some stored_email /\ api_token m' = Some stored_token
    /\ auth m' = Some (Some stored_email, Some stored_token)
    /\ typed t' = rest
    /\ shown t'
       = shown t
         ++ [StartBanner; StartRule;
             StartPrompt (AskUseStoredEmail stored_email);
             StartPrompt AskUseStoredToken;
             StartConnecting
               ("https://" +:+ format_str (domain m) +:+ ".atlassian.net")].
Proof.
  intros Hemail Hne_email Htoken Hne_token Hin Hyes1 Hyes2.
  assert (Hn1 : nonempty (Some stored_email) = true).
  { cbn. destruct (String.eqb_spec stored_email ""); [contradiction|].
    reflexivity. }
  assert (Hn2 : nonempty (Some stored_token) = true).
  { cbn. destruct (String.eqb_spec stored_token ""); [contradiction|].
    reflexivity. }
  unfold setup_credentials, choose_credential.
  rewrite Hemail, Hn1. cbn [format_str].
  rewrite (ask_line (AskUseStoredEmail stored_email) _ answer1
             (answer2 :: rest)) by exact Hin.
  rewrite Hyes1, Hn1, Htoken, Hn2.
  rewrite (ask_line AskUseStoredToken _ answer2 rest) by reflexivity.
  rewrite Hyes2, Hn2.
  do 2 eexists. split; [reflexivity|].
  cbn [email api_token base_url auth headers typed shown show].
  repeat rewrite <- app_assoc. repeat split.
Qed.

Lemma setup_credentials_takes_stored_values_witness :
  exists m' t',
    setup_credentials full_environ (new_manager full_environ [])
      (fresh_terminal [""; " YES "; "4"]) = (Ret m', t')
    /\ email m' = Some "user@example.com" /\ api_token m' = Some "token123"
    /\ auth m' = Some (Some "user@example.com", Some "token123")
    /\ typed t' = ["4"]
    /\ shown t'
       = shown (fresh_terminal [""; " YES "; "4"])
         ++ [StartBanner; StartRule;
             StartPrompt (AskUseStoredEmail "user@example.com");
             StartPrompt AskUseStoredToken;
             StartConnecting
               ("https://"
                +:+ format_str (domain (new_manager full_environ []))
                +:+ ".atlassian.net")].
Proof.
  apply (setup_credentials_takes_stored_values full_environ
           (new_manager full_environ []) (fresh_terminal [""; " YES "; "4"])
           "user@example.com" "token123" "" " YES " ["4"]);
    first [reflexivity | discriminate].
Defined.

(** ** open_file_for_review and the menu *)

(** What [open_file_for_review] does, on every platform and whether the
    command can be launched or not. *)
Lemma open_file_for_review_outcome env filename w :
  exists w',
    open_file_for_review env filename w = (Ret tt, w')
    /\ files w' = files w /\ stdin w' = stdin w
    /\ get_log w' = get_log w /\ delete_log w' = delete_log w
    /\ ((exists program,
           viewer_log w' = viewer_log w ++ [[program; filename]]
           /\ stdout w' = stdout w)
        \/ (viewer_log w' = viewer_log w
            /\ exists before,
                 stdout w' = before ++ [MsgPleaseReview filename])).
Proof.
  unfold open_file_for_review, run_viewer.
  repeat match goal with
         | |- context [String.eqb ?a ?b] => destruct (String.eqb a b)
         | |- context [subprocess_run ?e ?c] => destruct (subprocess_run e c)
         end;
    eexists; (split; [reflexivity|]);
    cbn [files stdin get_log delete_log viewer_log stdout print log_viewer put
           snd];
    repeat (split; [reflexivity|]);
    first [ left; eexists; split; reflexivity
          | right; split; [reflexivity|]; eexists; reflexivity ].
Qed.

(** X13: [open_file_for_review] never raises and changes neither the
    files, nor the pending input, nor the HTTP logs; either it has launched
    one command, whose last argument is the file name, or it has launched
    none and the last thing printed asks the operator to review the file by
    hand. *)
Theorem open_file_for_review_never_fails env filename w :
  exists w',
    open_file_for_review env filename w = (Ret tt, w')
    /\ files w' = files w /\ stdin w' = stdin w
    /\ get_log w' = get_log w /\ delete_log w' = delete_log w
    /\ ((exists program,
           viewer_log w' = viewer_log w ++ [[program; filename]]
           /\ stdout w' = stdout w)
        \/ (viewer_log w' = viewer_log w
            /\ exists before,
                 stdout w' = before ++ [MsgPleaseReview filename])).
Proof.
  unfold open_file_for_review, run_viewer.
  repeat match goal with
         | |- context [String.eqb ?a ?b] => destruct (String.eqb a b)
         | |- context [subprocess_run ?e ?c] => destruct (subprocess_run e c)
         end;
    eexists; (split; [reflexivity|]);
    cbn [files stdin get_log delete_log viewer_log stdout print log_viewer put
           snd];
    repeat (split; [reflexivity|]);
    first [ left; eexists; split; reflexivity
          | right; split; [reflexivity|]; eexists; reflexivity ].
Qed.

Lemma menu_round_choice fuel s env w line rest :
  stdin w = line :: rest ->
  menu_round fuel s env w
  = let w1 := set_stdin rest (print (MsgPrompt PromptChoice)
                                (print MsgMenu w)) in
    let choice := strip line in
    if String.eqb choice "1" then
      match fetch_option fuel s env w1 with
      | None => None
      | Some (Raise e, w2) => Some (Raise e, w2)
      | Some (Ret _, w2) => Some (Ret true, w2)
      end
    else if String.eqb choice "2" then
      Some ((open_file_for_review env default_filename ;;; ret true) w1)
    else if String.eqb choice "3" then
      Some ((delete_users_from_file s default_filename ;;; ret true) w1)
    else if String.eqb choice "4" then
      Some ((put MsgGoodbye ;;; ret false) w1)
    else
      Some ((put MsgInvalidChoice ;;; ret true) w1).
Proof.
  intros Hin. unfold menu_round.
  rewrite bind_unfold, put_eq. cbv beta iota.
  rewrite (input_line _ _ line rest) by exact Hin. reflexivity.
Qed.

(** X14: lines that choose none of the four options only bring the menu
    back: after any number of them, the line [4] ends the loop normally, and
    nothing has changed but the console: no file, no request, no viewer, and
    the lines after [4] are still to be read. *)
Theorem invalid_choices_only_bring_the_menu_back
    rounds fuel s env lines :
  forall w rest,
    Forall invalid_choice lines ->
    stdin w = lines ++ "4" :: rest ->
    length lines < rounds ->
    exists w',
      menu_loop rounds fuel s env w = Some (Ret tt, w')
      /\ files w' = files w /\ get_log w' = get_log w
      /\ delete_log w' = delete_log w /\ viewer_log w' = viewer_log w
      /\ stdin w' = rest
      /\ exists before, stdout w' = before ++ [MsgGoodbye].
Proof.
  revert rounds.
  induction lines as [|line lines IH]; intros rounds w rest Hinvalid Hin Hlen;
    (destruct rounds as [|rounds]; [cbn [length] in Hlen; lia|]);
    cbn [menu_loop app] in *.
  - rewrite (menu_round_choice fuel s env w "4" rest Hin). cbv zeta.
    change (strip "4") with "4".
    change ("4" =? "1")%string with false.
    change ("4" =? "2")%string with false.
    change ("4" =? "3")%string with false.
    change ("4" =? "4")%string with true. cbv iota.
    rewrite bind_unfold, put_eq. cbn [ret].
    eexists. split; [reflexivity|].
    cbn [files get_log delete_log viewer_log stdin stdout print set_stdin].
    repeat (split; [reflexivity|]). eexists. reflexivity.
  - inversion Hinvalid as [|? ? (H1 & H2 & H3 & H4) Hothers]; subst.
    rewrite (menu_round_choice fuel s env w line (lines ++ "4" :: rest) Hin).
    cbv zeta.
    apply String.eqb_neq in H1, H2, H3, H4. rewrite H1, H2, H3, H4.
    rewrite bind_unfold, put_eq. cbn [ret].
    match goal with
    | |- context [menu_loop rounds fuel s env ?w1] =>
        destruct (IH rounds w1 rest Hothers eq_refl
                    ltac:(cbn [length] in Hlen; lia))
          as (w' & Hrun & Hf & Hg & Hd & Hv & Hi & Hout)
    end.
    exists w'. split; [exact Hrun|].
    cbn [files get_log delete_log viewer_log stdin print set_stdin] in *.
    repeat (split; [assumption|]). exact Hout.
Qed.

Lemma invalid_choices_only_bring_the_menu_back_witness :
  exists w',
    menu_loop 3 1 test_session linux_env
      (saved_world two_users ["7"; " delete "; "4"; "3"]) = Some (Ret tt, w')
    /\ files w' = files (saved_world two_users ["7"; " delete "; "4"; "3"])
    /\ get_log w' = get_log (saved_world two_users ["7"; " delete "; "4"; "3"])
    /\ delete_log w'
       = delete_log (saved_world two_users ["7"; " delete "; "4"; "3"])
    /\ viewer_log w'
       = viewer_log (saved_world two_users ["7"; " delete "; "4"; "3"])
    /\ stdin w' = ["3"]
    /\ exists before, stdout w' = before ++ [MsgGoodbye].
Proof.
  apply (invalid_choices_only_bring_the_menu_back 3 1 test_session linux_env
           ["7"; " delete "]
           (saved_world two_users ["7"; " delete "; "4"; "3"]) ["3"]).
  - repeat constructor; vm_compute; discriminate.
  - reflexivity.
  - simpl. lia.
Defined.

Lemma menu_round_exit fuel s env w w' :
  menu_round fuel s env w = Some (Ret false, w') ->
  exists before, stdout w' = before ++ [MsgGoodbye].
Proof.
  destruct (stdin w) as [|line rest] eqn:Hin.
  - unfold menu_round. rewrite bind_unfold, put_eq. cbv beta iota.
    rewrite input_eof by exact Hin. discriminate.
  - rewrite (menu_round_choice fuel s env w line rest Hin). cbv zeta.
    destruct (strip line =? "1")%string.
    { destruct (fetch_option fuel s env _) as [[[[]|e] w2]|]; discriminate. }
    destruct (strip line =? "2")%string.
    { rewrite bind_unfold.
      match goal with
      | |- context [open_file_for_review env default_filename ?w1] =>
          destruct (open_file_for_review_outcome env default_filename w1)
            as (w2 & -> & _)
      end.
      discriminate. }
    destruct (strip line =? "3")%string.
    { rewrite bind_unfold.
      destruct (delete_users_from_file s default_filename _)
        as [[[]|e] w2]; discriminate. }
    destruct (strip line =? "4")%string.
    + rewrite bind_unfold, put_eq. cbn [ret]. intros [= <-].
      eexists. reflexivity.
    + rewrite bind_unfold, put_eq. discriminate.
Qed.

(** X15: the menu loop ends normally only through the exit option: when it
    returns, the last thing printed is the goodbye of option 4. *)
Theorem menu_loop_ends_only_on_exit rounds fuel s env :
  forall w w',
    menu_loop rounds fuel s env w = Some (Ret tt, w') ->
    exists before, stdout w' = before ++ [MsgGoodbye].
Proof.
  induction rounds as [|rounds IH]; intros w w' Hrun; [discriminate|].
  cbn [menu_loop] in Hrun.
  destruct (menu_round fuel s env w) as [[[[|]|e] w1]|] eqn:Hround;
    try discriminate.
  - now apply (IH w1).
  - injection Hrun as <-. now apply (menu_round_exit fuel s env w).
Qed.

Lemma menu_loop_ends_only_on_exit_witness :
  exists before,
    stdout (snd (default (Ret tt, empty_world)
                   (menu_loop 4 1 test_session linux_env
                      (saved_world two_users ["2"; "x"; "4"]))))
    = before ++ [MsgGoodbye].
Proof.
  apply (menu_loop_ends_only_on_exit 4 1 test_session linux_env
           (saved_world two_users ["2"; "x"; "4"])).
  vm_compute. reflexivity.
Defined.

(** ** main *)

(** X16: when the credentials are typed and the connection test fails
    (another status than 200, or a [RequestException]), [main] tells the
    operator to check the credentials and returns: the menu is not reached,
    whatever is typed next, so that no user is fetched or deleted and no file
    is touched. *)
Theorem main_stops_when_the_connection_fails
    rounds fuel vars default_headers myself s env fs line1 line2 rest :
  nonempty (JIRA_EMAIL vars) = false ->
  nonempty (JIRA_API_TOKEN vars) = false ->
  connection_refused (myself (myself_url vars)) ->
  exists t',
    main rounds fuel vars default_headers myself s env fs
      (line1 :: line2 :: rest)
    = Some (Ret tt, t', None)
    /\ typed t' = rest
    /\ exists before, shown t' = before ++ [StartCheckCredentials].
Proof.
  intros Hemail Htoken Hrefused. unfold main.
  destruct (setup_credentials_typed vars
              (new_manager vars default_headers)
              {| typed := line1 :: line2 :: rest; shown := [] |}
              line1 line2 rest Hemail Htoken eq_refl eq_refl eq_refl)
    as (m & t1 & -> & _ & _ & Hurl & _ & _ & Hin & _).
  unfold test_connection. rewrite Hurl. cbn [format_str domain new_manager].
  unfold connection_refused, myself_url in Hrefused.
  destruct (myself _) as [resp|[msg|class]]; [| |contradiction].
  - apply Z.eqb_neq in Hrefused. rewrite Hrefused.
    eexists. split; [reflexivity|]. cbn [typed shown show].
    split; [exact Hin | eexists; reflexivity].
  - eexists. split; [reflexivity|]. cbn [typed shown show].
    split; [exact Hin | eexists; reflexivity].
Qed.

Lemma main_stops_when_the_connection_fails_witness :
  exists t',
    main 5 5 bare_environ [] (fun _ => identity_refused) test_session
      linux_env ∅ ("user@example.com" :: "token" :: ["3"; "DELETE"; "y"])
    = Some (Ret tt, t', None)
    /\ typed t' = ["3"; "DELETE"; "y"]
    /\ exists before, shown t' = before ++ [StartCheckCredentials].
Proof.
  apply (main_stops_when_the_connection_fails 5 5 bare_environ []
           (fun _ => identity_refused) test_session linux_env ∅
           "user@example.com" "token" ["3"; "DELETE"; "y"]).
  - reflexivity.
  - reflexivity.
  - unfold connection_refused. simpl. lia.
Defined.

(** A whole run: the credentials are typed, the connection is accepted,
    the operator fetches, declines the review, deletes and leaves. *)
Example main_whole_run :
  exists t' w',
    main 5 5 bare_environ [] (fun _ => identity_ok "Admin") test_session
      linux_env ∅
      ["user@example.com"; "token"; "1"; "n"; "3"; "DELETE"; "y"; "4"]
    = Some (Ret tt, t', Some w')
    /\ get_log w' = [(0%Z, 50%Z)]
    /\ delete_log w' = [VStr "2"]
    /\ files w' !! default_filename = Some (saved_text [inactive_user]).
Proof.
  do 2 eexists. split; [vm_compute; reflexivity|].
  split; [|split]; vm_compute; reflexivity.
Qed.

(** ** From the fetch to the deletion *)

Lemma py_get_well_formed user k :
  well_formed_fields user = true -> well_formed (py_get user k) = true.
Proof.
  unfold py_get, py_get_default, well_formed_fields.
  induction user as [|[k' v] user IH]; [reflexivity|].
  cbn [forallb dict_get snd]. intros H.
  apply andb_true_iff in H as [Hv Hrest].
  destruct (String.eqb k' k); [exact Hv | now apply IH].
Qed.

(** What the fetch keeps of a record is a Python dictionary again. *)
Lemma project_well_formed user :
  well_formed_fields user = true -> well_formed (VDict (project user)) = true.
Proof.
  intros Hwf. unfold project. cbn [well_formed map fst forallb snd].
  rewrite !py_get_well_formed by exact Hwf. reflexivity.
Qed.

Lemma projected_records_well_formed l :
  Forall (fun user => well_formed_fields user = true) l ->
  well_formed_records (map project (List.filter is_inactive l)) = true.
Proof.
  unfold well_formed_records.
  induction 1 as [|u l Hu _ IH]; [reflexivity|].
  cbn [List.filter]. destruct (is_inactive u); [|exact IH].
  cbn [map forallb]. now rewrite (project_well_formed u Hu), IH.
Qed.

Lemma fetched_records_well_formed s pages n users :
  listing_ends s pages n users ->
  Forall (fun user => well_formed_fields user = true) (listing pages (S n)) ->
  well_formed_records users = true.
Proof.
  intros [_ Hends] Hwf.
  destruct Hends as [(_ & _ & ->) | (_ & ->)];
    apply projected_records_well_formed; [exact Hwf|].
  rewrite listing_S in Hwf. now apply Forall_app in Hwf as [Hwf _].
Qed.

Lemma remove_existing_frame env filename w :
  fst (remove_existing env filename w) = Ret tt
  /\ stdin (snd (remove_existing env filename w)) = stdin w
  /\ delete_log (snd (remove_existing env filename w)) = delete_log w.
Proof.
  unfold remove_existing.
  destruct (files w !! filename); [destruct (os_remove env filename)|];
    repeat split.
Qed.

(** The fetch option with a listing that has inactive users: the list is
    saved, one more line is read (the answer about the review), no [DELETE]
    call is sent. *)
Lemma fetch_option_saved fuel s env w pages n users answer rest :
  listing_ends s pages n users -> n < fuel -> users <> [] ->
  stdin w = answer :: rest ->
  exists w',
    fetch_option fuel s env w = Some (Ret tt, w')
    /\ files w' !! default_filename = Some (saved_text users)
    /\ stdin w' = rest /\ delete_log w' = delete_log w.
Proof.
  intros Hends Hfuel Hne Hin. unfold fetch_option.
  destruct (remove_existing_frame env default_filename w)
    as (Hret & Hin1 & Hlog1).
  destruct (remove_existing env default_filename w) as [r w1].
  cbn [fst snd] in Hret, Hin1, Hlog1. subst r.
  destruct (fetch_listing_ends s pages n users fuel w1 Hends Hfuel)
    as (w2 & Hrun & (_ & Hin2 & Hlog2 & _)).
  rewrite Hrun. destruct users as [|user users]; [contradiction|].
  rewrite bind_unfold. unfold save_users_to_file. cbv beta iota zeta.
  rewrite bind_unfold.
  rewrite (input_line _ _ answer rest)
    by (cbn [stdin print set_files]; congruence).
  cbv beta iota.
  destruct (yes_by_default (lower (strip answer))).
  - match goal with
    | |- context [open_file_for_review env default_filename ?w3] =>
        destruct (open_file_for_review_outcome env default_filename w3)
          as (w4 & -> & Hf & Hi & _ & Hd & _)
    end.
    exists w4. split; [reflexivity|].
    rewrite Hf, Hi, Hd.
    cbn [files stdin delete_log print set_stdin set_files].
    split; [apply lookup_insert_eq|]. split; [reflexivity | congruence].
  - eexists. split; [reflexivity|].
    cbn [files stdin delete_log print set_stdin set_files].
    split; [apply lookup_insert_eq|]. split; [reflexivity | congruence].
Qed.

(** A confirmed batch has read the two answers and nothing more. *)
Lemma confirm_and_delete_confirmed_input s users w line1 line2 rest :
  delete_never_crashes s ->
  stdin w = line1 :: line2 :: rest ->
  strip line1 = "DELETE" -> lower (strip line2) = "y" ->
  stdin (snd (confirm_and_delete s (map VDict users) w)) = rest.
Proof.
  intros Hsafe Hin E1 E2.
  rewrite confirm_and_delete_split, bind_unfold.
  pose proof (announce_console_only (map VDict users) w) as Hann.
  pose proof (announce_records users w) as Hret.
  destruct ((put (MsgFoundToDelete (length (map VDict users))) ;;; _) w)
    as [[[]|e] w1]; cbn [fst snd] in Hann, Hret; [|discriminate].
  destruct Hann as (_ & Hstdin & _).
  rewrite Hin in Hstdin.
  rewrite bind_unfold, (input_line _ _ _ _ Hstdin). cbv beta iota.
  rewrite E1. change (negb ("DELETE" =? "DELETE")%string) with false.
  cbv iota.
  rewrite bind_unfold, (input_line _ _ line2 rest) by reflexivity.
  cbv beta iota.
  rewrite E2. change (negb ("y" =? "y")%string) with false. cbv iota.
  run_puts. rewrite bind_unfold.
  match goal with
  | |- context [delete_loop s (map VDict users) 0 0 ?w0] =>
      pose proof (delete_loop_frame s (map VDict users) 0 0 w0) as [_ Hloop];
      destruct (delete_loop s (map VDict users) 0 0 w0) as [[counts|e] w2]
  end; cbn [snd] in *; rewrite ?put_eq; cbn [snd stdin print];
    rewrite Hloop; reflexivity.
Qed.

(** X17: the fetch option followed by the delete option, confirmed twice,
    against a listing that ends with at least one inactive user and a
    service whose [DELETE] calls do not crash: the two rounds bring the
    menu back, and the [DELETE] calls sent are exactly the account ids of
    the users fetched, in the order received; the file still holds the
    fetched list. *)
Theorem fetch_then_delete_deletes_the_fetched_users
    fuel s env w pages n users c1 answer c3 line1 line2 rest :
  listing_ends s pages n users -> n < fuel -> users <> [] ->
  Forall (fun user => well_formed_fields user = true) (listing pages (S n)) ->
  delete_never_crashes s ->
  stdin w = c1 :: answer :: c3 :: line1 :: line2 :: rest ->
  strip c1 = "1" -> strip c3 = "3" ->
  strip line1 = "DELETE" -> lower (strip line2) = "y" ->
  exists w1 w2,
    menu_round fuel s env w = Some (Ret true, w1)
    /\ menu_round fuel s env w1 = Some (Ret true, w2)
    /\ delete_log w2 = delete_log w ++ attempted_ids users
    /\ files w2 !! default_filename = Some (saved_text users)
    /\ stdin w2 = rest.
Proof.
  intros Hends Hfuel Hne Hfields Hsafe Hin Hc1 Hc3 Hl1 Hl2.
  pose proof (fetched_records_well_formed s pages n users Hends Hfields)
    as Hwf.
  rewrite (menu_round_choice fuel s env w c1 _ Hin). cbv zeta.
  rewrite Hc1. change ("1" =? "1")%string with true. cbv iota.
  match goal with
  | |- context [fetch_option fuel s env ?w0] =>
      destruct (fetch_option_saved fuel s env w0 pages n users answer
                  (c3 :: line1 :: line2 :: rest) Hends Hfuel Hne eq_refl)
        as (w1 & Hrun1 & Hfile1 & Hin1 & Hlog1)
  end.
  rewrite Hrun1. exists w1.
  cbn [delete_log set_stdin print] in Hlog1.
  rewrite (menu_round_choice fuel s env w1 c3 _ Hin1). cbv zeta.
  rewrite Hc3. change ("3" =? "1")%string with false.
  change ("3" =? "2")%string with false.
  change ("3" =? "3")%string with true. cbv iota.
  rewrite bind_unfold. unfold delete_users_from_file.
  cbn [files set_stdin print]. rewrite Hfile1.
  unfold saved_text at 1.
  rewrite json_loads_dumps by now rewrite well_formed_records_list.
  match goal with
  | |- context [confirm_and_delete s _ ?w0] =>
      destruct (confirm_and_delete_confirmed s users w0 line1 line2 rest
                  Hsafe eq_refl Hl1 Hl2) as (out & w2 & Hrun2 & _ & Hlog2);
      pose proof (confirm_and_delete_frame s (map VDict users) w0)
        as [(Hfiles2 & _) _];
      pose proof (confirm_and_delete_confirmed_input s users w0 line1 line2
                    rest Hsafe eq_refl Hl1 Hl2) as Hin2
  end.
  rewrite Hrun2 in *. cbn [snd] in *. exists w2.
  split; [reflexivity|]. split; [reflexivity|].
  cbn [delete_log files stdin set_stdin print] in *.
  split; [now rewrite Hlog2, Hlog1|]. split; [now rewrite Hfiles2|].
  exact Hin2.
Qed.

Lemma fetch_then_delete_deletes_the_fetched_users_witness :
  exists w1 w2,
    menu_round 1 test_session linux_env
      (typing ["1"; "n"; " 3"; "DELETE "; " Y"; "4"] empty_world)
    = Some (Ret true, w1)
    /\ menu_round 1 test_session linux_env w1 = Some (Ret true, w2)
    /\ delete_log w2
       = delete_log (typing ["1"; "n"; " 3"; "DELETE "; " Y"; "4"] empty_world)
         ++ attempted_ids
              (map project (List.filter is_inactive (listing test_pages 1)))
    /\ files w2 !! default_filename
       = Some (saved_text
                 (map project
                    (List.filter is_inactive (listing test_pages 1))))
    /\ stdin w2 = ["4"].
Proof.
  apply (fetch_then_delete_deletes_the_fetched_users 1 test_session linux_env
           (typing ["1"; "n"; " 3"; "DELETE "; " Y"; "4"] empty_world)
           test_pages 0
           (map project (List.filter is_inactive (listing test_pages 1)))
           "1" "n" " 3" "DELETE " " Y" ["4"]).
  - split; [intros i Hi; lia|]. left.
    split; [exists ""; reflexivity|]. split; [simpl; lia | reflexivity].
  - lia.
  - vm_compute. discriminate.
  - vm_compute. repeat constructor.
  - intros [|k] account_id class; discriminate.
  - reflexivity.
  - reflexivity.
  - reflexivity.
  - reflexivity.
  - reflexivity.
Defined.

(** ** The second confirmation *)

Lemma lower_char_y c :
  lower_char c = "y"%char -> c = "y"%char \/ c = "Y"%char.
Proof.
  destruct c as [[] [] [] [] [] [] [] []]; vm_compute; intros H;
    first [ discriminate H | now left | now right ].
Qed.

Lemma lower_y t : lower t = "y" <-> t = "y" \/ t = "Y".
Proof.
  split.
  - destruct t as [|c [|d t]]; cbn [lower]; try discriminate.
    intros [= H]. apply lower_char_y in H as [-> | ->]; auto.
  - intros [-> | ->]; reflexivity.
Qed.

(** X18: the final confirmation lets through the answers [y] and [Y],
    blanks around them apart, and no other: whenever
    [delete_users_from_file] has sent a [DELETE] call, the second line typed
    was one of the two, and the first one was [DELETE]; [yes] is not
    accepted. *)
Theorem final_confirmation_accepts_y_and_Y_only s filename w :
  (delete_log (snd (delete_users_from_file s filename w)) <> delete_log w ->
   exists line1 line2 rest,
     stdin w = line1 :: line2 :: rest
     /\ strip line1 = "DELETE"
     /\ (strip line2 = "y" \/ strip line2 = "Y"))
  /\ (forall line1 rest,
        stdin w = line1 :: "yes" :: rest ->
        delete_log (snd (delete_users_from_file s filename w)) = delete_log w).
Proof.
  destruct (delete_users_from_file_gates s filename w)
    as [_ [Hlog | (line1 & line2 & rest & Hin & E1 & E2)]].
  - split; [intros Hne; contradiction | intros; exact Hlog].
  - split.
    + intros _. exists line1, line2, rest.
      split; [exact Hin|]. split; [exact E1|]. now apply lower_y.
    + intros l1 r Hyes. rewrite Hin in Hyes. injection Hyes as _ -> _.
      vm_compute in E2. discriminate E2.
Qed.

(** ** The text of the file *)

Lemma plain_text_append a b :
  plain_text (a +:+ b) = plain_text a && plain_text b.
Proof.
  induction a as [|c a IH]; [reflexivity|].
  rewrite append_cons. cbn [plain_text]. now rewrite IH, andb_assoc.
Qed.

Lemma plain_text_escape_char c : plain_text (escape_char c) = true.
Proof. destruct c as [[] [] [] [] [] [] [] []]; vm_compute; reflexivity. Qed.


Lemma plain_text_string_of_uint d :
  plain_text (DecimalString.NilEmpty.string_of_uint d) = true.
Proof.
  induction d; cbn [DecimalString.NilEmpty.string_of_uint plain_text];
    [reflexivity | ..]; rewrite IHd; reflexivity.
Qed.

Lemma plain_text_string_of_int n :
  plain_text (DecimalString.NilZero.string_of_int (Z.to_int n)) = true.
Proof.
  assert (Huint : forall d,
            plain_text (DecimalString.NilZero.string_of_uint d) = true).
  { intros d. destruct d; try apply plain_text_string_of_uint. reflexivity. }
  destruct n as [|p|p]; cbn [Z.to_int DecimalString.NilZero.string_of_int].
  - reflexivity.
  - apply Huint.
  - cbn [plain_text]. now rewrite Huint.
Qed.

Lemma plain_text_newline_indent k : plain_text (newline_indent k) = true.
Proof.
  unfold newline_indent. cbn [plain_text].
  change (plain_char chr_newline) with true. cbn [andb].
  induction k as [|k IH]; [reflexivity|].
  cbn [spaces plain_text]. change (plain_char " ") with true. exact IH.
Qed.

Lemma plain_text_join_items k texts :
  Forall (fun t => plain_text t = true) texts ->
  plain_text (join_items k texts) = true.
Proof.
  induction 1 as [|x texts Hx Hrest IH]; [reflexivity|].
  destruct texts as [|y texts]; [exact Hx|].
  rewrite join_items_cons, !plain_text_append, Hx, IH.
  now rewrite plain_text_newline_indent.
Qed.



(** A name with an accent and a tab: what is written, and read back. *)
Example accented_user_round_trip :
  plain_text (saved_text [accented_user]) = true
  /\ json_loads (saved_text [accented_user])
     = Some (VList [VDict accented_user]).
Proof. split; vm_compute; reflexivity. Qed.

(** With names of any code point, the text is plain ASCII as well. *)
Lemma plain_char_hex_digit k : plain_char (hex_digit k) = true.
Proof. do 15 (destruct k as [|k]; [reflexivity|]). reflexivity. Qed.

Lemma plain_text_u_escape n : plain_text (u_escape n) = true.
Proof.
  unfold u_escape, hex4. cbn [plain_text].
  now rewrite !plain_char_hex_digit.
Qed.

Lemma plain_text_u_escape_char c : plain_text (u_escape_char c) = true.
Proof.
  unfold u_escape_char.
  destruct (c <? 0x100)%N; [apply plain_text_escape_char|].
  destruct (c <? 0x10000)%N; [apply plain_text_u_escape|].
  cbv zeta. now rewrite plain_text_append, !plain_text_u_escape.
Qed.

Lemma plain_text_u_encode_string s : plain_text (u_encode_string s) = true.
Proof.
  unfold u_encode_string. cbn [plain_text].
  change (plain_char chr_quote) with true. cbn [andb].
  rewrite plain_text_append. cbn [plain_text].
  change (plain_char chr_quote) with true. rewrite andb_true_r.
  induction s as [|c s IH]; [reflexivity|].
  cbn [u_escape_chars]. now rewrite plain_text_append, plain_text_u_escape_char.
Qed.

Lemma plain_text_u_encode v : forall lvl, plain_text (u_encode lvl v) = true.
Proof.
  induction v as [| b | n | s | l IH | d IH] using uvalue_induction;
    intros lvl.
  - reflexivity.
  - destruct b; reflexivity.
  - apply plain_text_string_of_int.
  - apply plain_text_u_encode_string.
  - destruct l as [|x l]; [reflexivity|].
    rewrite u_encode_list_cons, !plain_text_append.
    rewrite !plain_text_newline_indent, plain_text_join_items;
      [reflexivity|].
    apply Forall_map. eapply Forall_impl; [exact IH|].
    intros y Hy. apply Hy.
  - destruct d as [|kv d]; [reflexivity|].
    rewrite u_encode_dict_cons, !plain_text_append.
    rewrite !plain_text_newline_indent, plain_text_join_items;
      [reflexivity|].
    apply Forall_map. eapply Forall_impl; [exact IH|].
    intros y Hy. cbv beta in *. unfold u_member_text.
    now rewrite !plain_text_append, plain_text_u_encode_string, Hy.
Qed.

Lemma u_saved_text_plain users : plain_text (u_saved_text users) = true.
Proof. apply plain_text_u_encode. Qed.

Lemma map_UDict_inj users1 :
  forall users2, map UDict users1 = map UDict users2 -> users1 = users2.
Proof.
  induction users1 as [|u1 users1 IH]; intros [|u2 users2] Hmap;
    try discriminate; [reflexivity|].
  cbn [map] in Hmap. injection Hmap as -> Hrest. f_equal. now apply IH.
Qed.

(** X20: the file determines the list, surrogate pairs apart: two lists of
    records without a high surrogate right before a low one, and with
    integers of those [json.dump] writes, that [save_users_to_file] writes
    as the same file are the same list. *)
Theorem saved_text_determines_the_list users1 users2 filename w1 w2 :
  u_well_formed_records users1 = true -> pair_free_records users1 = true ->
  ints_within_limit_records users1 = true ->
  u_well_formed_records users2 = true -> pair_free_records users2 = true ->
  ints_within_limit_records users2 = true ->
  files (snd (u_save_users_to_file users1 filename w1)) !! filename
  = files (snd (u_save_users_to_file users2 filename w2)) !! filename ->
  users1 = users2.
Proof.
  intros Hwf1 Hfree1 _ Hwf2 Hfree2 _ Hfile.
  rewrite !u_save_users_to_file_file in Hfile. injection Hfile as Htext.
  pose proof (u_saved_text_read_back _ Hwf1 Hfree1) as E1.
  pose proof (u_saved_text_read_back _ Hwf2 Hfree2) as E2.
  rewrite Htext, E2 in E1.
  injection E1 as Hmap. symmetry. now apply map_UDict_inj.
Qed.

Lemma saved_text_determines_the_list_witness :
  [user_named wide_name] = [user_named wide_name].
Proof.
  apply (saved_text_determines_the_list [user_named wide_name]
           [user_named wide_name] default_filename empty_world
           (saved_world [inactive_user] []));
    vm_compute; reflexivity.
Defined.

Lemma final_confirmation_accepts_y_and_Y_only_witness :
  exists line1 line2 rest,
    stdin (saved_world two_users [" DELETE"; "Y "]) = line1 :: line2 :: rest
    /\ strip line1 = "DELETE"
    /\ (strip line2 = "y" \/ strip line2 = "Y").
Proof.
  apply (proj1 (final_confirmation_accepts_y_and_Y_only test_session
                  default_filename
                  (saved_world two_users [" DELETE"; "Y "]))).
  vm_compute. discriminate.
Defined.
